(** * IMS backend: edge routing and stateless authorization

    A shallow embedding of the gateway router / reverse proxy
    ([services/api-gateway/main.py]), of the token issuer
    ([services/auth-service]), of the token validators and authorization
    guards that every backend service re-implements
    ([services/*/app/core/security.py], [services/*/app/core/dependencies.py])
    and of the fire-and-forget workflow notifier
    ([services/*/app/services/workflow_logger.py]).

    Python dictionaries are finite maps ([gmap]); exceptions are explicit
    results; the clock and the Python builtins that are not modelled
    ([int] on a [str], [str] on a JSON value that is not a string,
    [str.lower] on text that is not all ASCII) are parameters gathered in
    the record [world]. *)

From Stdlib Require Import ZArith QArith String Ascii List Bool Lia Sorted DecimalString.
From stdpp Require Import base option gmap strings list fin_maps.

Open Scope string_scope.
Open Scope Z_scope.

(** ** Python strings *)

Module PyStr.

(** [s.startswith(p)] *)
Definition startswith (s p : string) : bool := String.prefix p s.

(** [needle in hay] *)
Fixpoint contains (needle hay : string) : bool :=
  String.prefix needle hay ||
  match hay with
  | EmptyString => false
  | String _ rest => contains needle rest
  end.

(** every character of [s] is an ASCII character *)
Fixpoint is_ascii (s : string) : bool :=
  match s with
  | EmptyString => true
  | String c rest => Nat.ltb (nat_of_ascii c) 128 && is_ascii rest
  end.

Definition lower_char (c : ascii) : ascii :=
  let n := nat_of_ascii c in
  if (Nat.leb 65 n && Nat.leb n 90)%bool then ascii_of_nat (n + 32) else c.

(** [s.lower()] for text that is all ASCII: A-Z become a-z, nothing else
    changes *)
Fixpoint lower_ascii (s : string) : string :=
  match s with
  | EmptyString => EmptyString
  | String c rest => String (lower_char c) (lower_ascii rest)
  end.

(** [s.lower()].  Python's case mapping is Unicode's: on text that is not
    all ASCII (the Kelvin sign lower-cases to [k]) the result is what the
    interpreter's tables give, [unicode_lower]. *)
Definition lower (unicode_lower : string -> string) (s : string) : string :=
  if is_ascii s then lower_ascii s else unicode_lower s.

(** [not s] *)
Definition falsy (s : string) : bool :=
  match s with EmptyString => true | _ => false end.

(** The white space [str.strip()] removes.  [strip] is applied to header
    values only, which the framework decodes as Latin-1, one character
    per byte: below 256 the white space characters are TAB to CR, FS to
    US, the space, NEL (U+0085) and the no-break space (U+00A0). *)
Definition is_space (c : ascii) : bool :=
  let n := nat_of_ascii c in
  (Nat.leb 9 n && Nat.leb n 13)%bool || (Nat.leb 28 n && Nat.leb n 32)%bool
  || Nat.eqb n 133 || Nat.eqb n 160.

Fixpoint lstrip (s : string) : string :=
  match s with
  | String c rest => if is_space c then lstrip rest else s
  | EmptyString => EmptyString
  end.

(** drops the white space at the end of [s] *)
Fixpoint rstrip (s : string) : string :=
  match s with
  | EmptyString => EmptyString
  | String c rest =>
      match rstrip rest with
      | EmptyString => if is_space c then EmptyString else String c EmptyString
      | r => String c r
      end
  end.

(** [s.strip()] *)
Definition strip (s : string) : string := rstrip (lstrip s).

Fixpoint drop (n : nat) (s : string) : string :=
  match n, s with
  | O, _ => s
  | S n', String _ rest => drop n' rest
  | S _, EmptyString => EmptyString
  end.

(** [s.replace(old, "")] for a non-empty [old]: every occurrence of
    [old], scanning from the left, is removed.  [fuel] bounds the scan
    by the length of [s]. *)
Fixpoint remove_all_fuel (fuel : nat) (old s : string) : string :=
  match fuel with
  | O => s
  | S fuel' =>
      match s with
      | EmptyString => EmptyString
      | String c rest =>
          if String.prefix old s
          then remove_all_fuel fuel' old (drop (String.length old) s)
          else String c (remove_all_fuel fuel' old rest)
      end
  end.

Definition remove_all (old s : string) : string :=
  remove_all_fuel (String.length s) old s.

End PyStr.

(** ** JSON values carried by a token payload *)

#[warnings="-register-all"]
Inductive json : Type :=
| JNull
| JBool (b : bool)
| JInt (n : Z)
| JFloat (q : Q)          (* a finite float *)
| JNaN
| JInf (negative : bool)
| JStr (s : string)
| JArr (items : list json)
| JObj (fields : list (string * json)).

(** The outcome of Python's [int(v)]. *)
Inductive int_outcome : Type :=
| IntOk (n : Z)
| IntValueError           (* ValueError *)
| IntOtherError.          (* TypeError, OverflowError *)

(** A compact token string, taken apart.  The JWT library
    ([jose.jwt]) is not part of the repository; its contract is modelled
    on this structure.  The signature is an ideal MAC: it verifies
    exactly under the key that produced it. *)
Inductive body : Type :=
| BadJson (why : string)        (* the payload is not JSON *)
| NotAnObject                   (* JSON, but not an object *)
| Claims (c : gmap string json).

Inductive jws : Type :=
| Garbled (why : string)        (* not three well-formed segments *)
| Jws (alg : option string) (signed_with : string) (b : body).

(** What the model takes from the Python runtime and from the wire
    format. *)
Record world : Type := {
  (** the clock, in seconds: [datetime.utcnow()] when a token is issued,
      [timegm(datetime.utcnow().utctimetuple())] when one is checked *)
  now : Z;
  (** [int(s)] for a [str]; [None] when it raises [ValueError] *)
  py_int_of_str : string -> option Z;
  (** [str(v)] for a JSON value that is not a string *)
  py_str_of_json : json -> string;
  (** [repr(l)] for a list of [str] *)
  py_repr_list : list string -> string;
  (** [s.lower()] for text that is not all ASCII *)
  py_lower : string -> string;
  (** [s.encode("latin-1")] for text that is not all ASCII: the message
      of the [UnicodeEncodeError] when a character is beyond Latin-1 *)
  py_latin1_error : string -> option string;
  (** what a token string denotes: segments, header, MAC and payload *)
  jws_of : string -> jws;
  (** [bcrypt.checkpw(sha256(plain).digest(), hashed)] on a stored hash *)
  checkpw : string -> string -> bool
}.

Module Py.

(** [bool(v)] *)
Definition truthy (v : json) : bool :=
  match v with
  | JNull => false
  | JBool b => b
  | JInt n => negb (n =? 0)
  | JFloat q => negb (Qnum q =? 0)
  | JNaN => true
  | JInf _ => true
  | JStr s => negb (PyStr.falsy s)
  | JArr items => match items with [] => false | _ => true end
  | JObj fields => match fields with [] => false | _ => true end
  end.

(** [int(v)] *)
Definition int (w : world) (v : json) : int_outcome :=
  match v with
  | JNull => IntOtherError
  | JBool b => IntOk (if b then 1 else 0)
  | JInt n => IntOk n
  | JFloat q => IntOk (Z.quot (Qnum q) (Zpos (Qden q)))
  | JNaN => IntValueError
  | JInf _ => IntOtherError
  | JStr s => match py_int_of_str w s with Some n => IntOk n | None => IntValueError end
  | JArr _ => IntOtherError
  | JObj _ => IntOtherError
  end.

(** [str(v)] *)
Definition str (w : world) (v : json) : string :=
  match v with
  | JStr s => s
  | _ => py_str_of_json w v
  end.

(** [s.lower()] *)
Definition lower (w : world) (s : string) : string :=
  PyStr.lower (py_lower w) s.

(** [s.encode("latin-1")]: [None] when it succeeds, the message of the
    [UnicodeEncodeError] when it raises *)
Definition latin1_error (w : world) (s : string) : option string :=
  if PyStr.is_ascii s then None else py_latin1_error w s.

(** [isinstance(v, str)] *)
Definition is_str (v : json) : bool :=
  match v with JStr _ => true | _ => false end.

(** [v == s] for a [str] [s] *)
Definition eq_str (v : json) (s : string) : bool :=
  match v with JStr t => String.eqb t s | _ => false end.

(** [d.get(k)]: an absent key reads as [None] *)
Definition get (d : gmap string json) (k : string) : json :=
  default JNull (d !! k).

(** [d.get(k, dflt)] *)
Definition get_default (d : gmap string json) (k : string) (dflt : json) : json :=
  default dflt (d !! k).

(** [v is None] *)
Definition is_none (v : json) : bool :=
  match v with JNull => true | _ => false end.

End Py.

(** ** Service configuration ([app/core/config.py], the same fields in
    every service) *)

Record settings : Type := {
  SECRET_KEY : string;
  ALGORITHM : string;
  ACCESS_TOKEN_EXPIRE_MINUTES : Z;
  ADMIN_USERNAME : string;
  ADMIN_PASSWORD_HASH : string;
  API_GATEWAY_URL : string
}.

Definition default_settings : settings := {|
  SECRET_KEY := "your-secret-key-change-in-production-use-env-var";
  ALGORITHM := "HS256";
  ACCESS_TOKEN_EXPIRE_MINUTES := 30;
  ADMIN_USERNAME := "admin";
  ADMIN_PASSWORD_HASH := "admin#123";
  API_GATEWAY_URL := "http://api-gateway:8000"
|}.

(** ** The JWT library

    The services call [jose.jwt.decode].  No call in the repository
    passes [audience], [issuer], [subject] or [access_token], and every
    call leaves the [require_*] options at [False]. *)

Module Jose.

Record options : Type := {
  verify_signature : bool;
  verify_aud : bool;
  verify_iat : bool;
  verify_exp : bool;
  verify_nbf : bool;
  verify_iss : bool;
  verify_sub : bool;
  verify_jti : bool;
  verify_at_hash : bool
}.

(** the library's defaults, which the [options] argument updates *)
Definition defaults : options := {|
  verify_signature := true;
  verify_aud := true;
  verify_iat := true;
  verify_exp := true;
  verify_nbf := true;
  verify_iss := true;
  verify_sub := true;
  verify_jti := true;
  verify_at_hash := true
|}.

Inductive outcome : Type :=
| Decoded (c : gmap string json)
| JWTError (msg : string)     (* JWTError and its subclasses *)
| OtherException.             (* any exception that is not a JWTError *)

(** [jws.verify]: the algorithm of the header, then the signature *)
Definition verify_jws (key : string) (algorithms : list string) (verify : bool)
    (alg : option string) (signed_with : string) : option string :=
  if negb verify then None else
  match alg with
  | None => Some "No algorithm was specified in the JWS header."
  | Some a =>
      if PyStr.falsy a then Some "No algorithm was specified in the JWS header."
      else if negb (existsb (String.eqb a) algorithms)
      then Some "The specified alg value is not allowed"
      else if negb (String.eqb signed_with key)
      then Some "Signature verification failed."
      else None
  end.

(** what a claim check raises *)
Inductive failure : Type :=
| ClaimsError (msg : string)  (* JWTClaimsError, ExpiredSignatureError *)
| Uncaught.                   (* TypeError or OverflowError out of [int()] *)

(** One claim check: [None] lets the token through. *)
Definition check : Type := option failure.

Definition validate_iat (w : world) (c : gmap string json) : check :=
  match c !! "iat" with
  | None => None
  | Some v =>
      match Py.int w v with
      | IntOk _ => None
      | IntValueError => Some (ClaimsError "Issued At claim (iat) must be an integer.")
      | IntOtherError => Some Uncaught
      end
  end.

Definition validate_nbf (w : world) (c : gmap string json) : check :=
  match c !! "nbf" with
  | None => None
  | Some v =>
      match Py.int w v with
      | IntOk nbf =>
          if now w <? nbf then Some (ClaimsError "The token is not yet valid (nbf)")
          else None
      | IntValueError => Some (ClaimsError "Not Before claim (nbf) must be an integer.")
      | IntOtherError => Some Uncaught
      end
  end.

Definition validate_exp (w : world) (c : gmap string json) : check :=
  match c !! "exp" with
  | None => None
  | Some v =>
      match Py.int w v with
      | IntOk exp =>
          if exp <? now w then Some (ClaimsError "Signature has expired.")
          else None
      | IntValueError => Some (ClaimsError "Expiration Time claim (exp) must be an integer.")
      | IntOtherError => Some Uncaught
      end
  end.

(** no [audience] is ever passed: a token that carries [aud] fails *)
Definition validate_aud (c : gmap string json) : check :=
  match c !! "aud" with
  | None => None
  | Some (JStr _) => Some (ClaimsError "Invalid audience")
  | Some (JArr items) =>
      if forallb Py.is_str items then Some (ClaimsError "Invalid audience")
      else Some (ClaimsError "Invalid claim format in token")
  | Some _ => Some (ClaimsError "Invalid claim format in token")
  end.

(** no [issuer] is ever passed: nothing to compare with *)
Definition validate_iss (c : gmap string json) : check := None.

Definition validate_sub (c : gmap string json) : check :=
  match c !! "sub" with
  | None => None
  | Some v => if Py.is_str v then None else Some (ClaimsError "Subject must be a string.")
  end.

Definition validate_jti (c : gmap string json) : check :=
  match c !! "jti" with
  | None => None
  | Some v => if Py.is_str v then None else Some (ClaimsError "JWT ID must be a string.")
  end.

Definition validate_at_hash (c : gmap string json) : check :=
  match c !! "at_hash" with
  | None => None
  | Some _ => Some (ClaimsError "No access_token provided to compare against at_hash claim.")
  end.

(** runs the checks in order, stops at the first that fires *)
Fixpoint first_failure (checks : list (bool * check)) : check :=
  match checks with
  | [] => None
  | (enabled, chk) :: rest =>
      match (if enabled then chk else None) with
      | Some failure => Some failure
      | None => first_failure rest
      end
  end.

(** [_validate_claims]: the enabled checks, in the library's order *)
Definition validate_claims (w : world) (o : options) (c : gmap string json) : check :=
  first_failure
    [ (verify_iat o, validate_iat w c);
      (verify_nbf o, validate_nbf w c);
      (verify_exp o, validate_exp w c);
      (verify_aud o, validate_aud c);
      (verify_iss o, validate_iss c);
      (verify_sub o, validate_sub c);
      (verify_jti o, validate_jti c);
      (verify_at_hash o, validate_at_hash c) ].

(** [jwt.decode(token, key, algorithms=algorithms, options=o)] *)
Definition decode (w : world) (token : string) (key : string)
    (algorithms : list string) (o : options) : outcome :=
  match jws_of w token with
  | Garbled why => JWTError why
  | Jws alg signed_with b =>
      match verify_jws key algorithms (verify_signature o) alg signed_with with
      | Some msg => JWTError msg
      | None =>
          match b with
          | BadJson why => JWTError ("Invalid payload string: " ++ why)
          | NotAnObject => JWTError "Invalid payload string: must be a json object"
          | Claims c =>
              match validate_claims w o c with
              | Some (ClaimsError msg) => JWTError msg
              | Some Uncaught => OtherException
              | None => Decoded c
              end
          end
      end
  end.

End Jose.

(** The signature of the token verifies under [key]. *)
Definition signature_verifies (w : world) (key : string) (token : string) : bool :=
  match jws_of w token with
  | Jws _ signed_with _ => String.eqb signed_with key
  | Garbled _ => false
  end.

(** The claims a token carries, when it has any. *)
Definition claims_of (w : world) (token : string) : option (gmap string json) :=
  match jws_of w token with
  | Jws _ _ (Claims c) => Some c
  | _ => None
  end.

(** ** HTTP outcomes of a guarded endpoint *)

Record HTTPException : Type := {
  status_code : Z;
  detail : string;
  headers : list (string * string)
}.

Inductive result (A : Type) : Type :=
| Return (a : A)
| Raise (e : HTTPException).
Arguments Return {A} a.
Arguments Raise {A} e.

Definition bind {A B : Type} (r : result A) (k : A -> result B) : result B :=
  match r with
  | Return a => k a
  | Raise e => Raise e
  end.

Notation "'try!' x ':=' r 'in' k" := (bind r (fun x => k))
  (at level 10, x name, r at level 100, k at level 200).

Definition HTTP_401_UNAUTHORIZED : Z := 401.
Definition HTTP_403_FORBIDDEN : Z := 403.

Definition could_not_validate (challenge : bool) : HTTPException := {|
  status_code := HTTP_401_UNAUTHORIZED;
  detail := "Could not validate credentials";
  headers := if challenge then [("WWW-Authenticate", "Bearer")] else []
|}.

Definition account_inactive : HTTPException := {|
  status_code := HTTP_403_FORBIDDEN;
  detail := "User account is inactive. Please contact administrator.";
  headers := []
|}.

Definition not_enough_permissions : HTTPException := {|
  status_code := HTTP_403_FORBIDDEN;
  detail := "Not enough permissions";
  headers := []
|}.

(** The inbound request, as far as the guards read it:
    [request.headers.get("Authorization")]. *)
Record Request : Type := {
  authorization : option string
}.

(** [class UserRole(str, enum.Enum)], declared alike in every service
    that has it. *)
Inductive UserRole : Type := ADMIN | PATIENT | RADIOLOGIST | DOCTOR | CASHIER.

Definition value (r : UserRole) : string :=
  match r with
  | ADMIN => "admin"
  | PATIENT => "patient"
  | RADIOLOGIST => "radiologist"
  | DOCTOR => "doctor"
  | CASHIER => "cashier"
  end.

(** An argument of [require_role( *allowed_roles )]: the call sites pass
    members of [UserRole] or plain strings. *)
Inductive role_arg : Type :=
| RoleEnum (r : UserRole)
| RoleStr (s : string).

(** [role.value if hasattr(role, 'value') else str(role)] *)
Definition role_value (a : role_arg) : string :=
  match a with
  | RoleEnum r => value r
  | RoleStr s => s
  end.

(** [v in l] for a JSON value and a list of strings *)
Definition json_in (v : json) (l : list string) : bool :=
  existsb (Py.eq_str v) l.

(** What a guard hands to the endpoint: the literal admin dictionary
    [{"id": None, "username": "admin", ..., "is_admin": True}] or the
    [sub] claim as read by [payload.get("sub")]. *)
Inductive principal : Type :=
| AdminDict
| UserId (sub : json).

(** A row of [user_service.users]. *)
Record User : Type := {
  user_id : string;
  username : string;
  email : string;
  name : string;
  hashed_password : string;
  user_role : UserRole;
  is_active : bool
}.

(** ** auth-service *)

Module AuthService.

(** *** [app/core/security.py] *)

Definition verify_password (w : world) (plain_password hashed_password : string) : bool :=
  if PyStr.falsy plain_password || PyStr.falsy hashed_password then false
  else checkpw w plain_password hashed_password.

(** [jwt.encode(to_encode, SECRET_KEY, algorithm=ALGORITHM)]: the token
    is given by its content. *)
Definition jwt_encode (to_encode : gmap string json) (key algorithm : string) : jws :=
  Jws (Some algorithm) key (Claims to_encode).

(** [expires_delta] is counted in minutes; [timedelta(0)] is falsy. *)
Definition create_access_token (w : world) (cfg : settings)
    (data : gmap string json) (expires_delta : option Z) : jws :=
  let to_encode := data in
  let delta :=
    match expires_delta with
    | Some d => if d =? 0 then ACCESS_TOKEN_EXPIRE_MINUTES cfg else d
    | None => ACCESS_TOKEN_EXPIRE_MINUTES cfg
    end in
  let expire := now w + 60 * delta in
  let to_encode :=
    <["iss" := JStr "ims-auth-service"]>
      (<["iat" := JInt (now w)]> (<["exp" := JInt expire]> to_encode)) in
  jwt_encode to_encode (SECRET_KEY cfg) (ALGORITHM cfg).

Definition first_options : Jose.options := {|
  Jose.verify_signature := true;
  Jose.verify_exp := true;
  Jose.verify_iat := false;
  Jose.verify_iss := false;
  Jose.verify_aud := false;
  Jose.verify_nbf := Jose.verify_nbf Jose.defaults;
  Jose.verify_sub := Jose.verify_sub Jose.defaults;
  Jose.verify_jti := Jose.verify_jti Jose.defaults;
  Jose.verify_at_hash := Jose.verify_at_hash Jose.defaults
|}.

Definition retry_options : Jose.options := {|
  Jose.verify_signature := true;
  Jose.verify_exp := true;
  Jose.verify_iat := false;
  Jose.verify_iss := false;
  Jose.verify_aud := false;
  Jose.verify_nbf := false;
  Jose.verify_sub := Jose.verify_sub Jose.defaults;
  Jose.verify_jti := Jose.verify_jti Jose.defaults;
  Jose.verify_at_hash := Jose.verify_at_hash Jose.defaults
|}.

Definition decode_access_token (w : world) (cfg : settings) (token : string)
    : option (gmap string json) :=
  if PyStr.falsy token then None else
  match Jose.decode w token (SECRET_KEY cfg) [ALGORITHM cfg] first_options with
  | Jose.Decoded payload =>
      let iss := Py.get payload "iss" in
      if negb (Py.is_none iss) && negb (Py.eq_str iss "ims-auth-service")
      then None
      else Some payload
  | Jose.JWTError error_msg =>
      if PyStr.contains "iss" (Py.lower w error_msg)
         || PyStr.contains "issuer" (Py.lower w error_msg)
      then
        match Jose.decode w token (SECRET_KEY cfg) [ALGORITHM cfg] retry_options with
        | Jose.Decoded payload => Some payload
        | _ => None
        end
      else None
  | Jose.OtherException => None
  end.

(** *** [app/services/auth_service.py] *)

(** the dictionary [authenticate_user] returns *)
Record user_data : Type := {
  ud_user_id : option string;
  ud_username : string;
  ud_email : option string;
  ud_name : string;
  ud_user_role : UserRole;
  ud_is_active : bool;
  ud_is_admin : bool
}.

(** [db.query(User).filter(User.username == username).first()] *)
Definition query_by_username (db : list User) (u : string) : option User :=
  List.find (fun row => String.eqb (username row) u) db.

Definition authenticate_user (w : world) (cfg : settings) (db : list User)
    (login_name password : string) : option user_data :=
  if String.eqb login_name (ADMIN_USERNAME cfg) && String.eqb password (ADMIN_PASSWORD_HASH cfg)
  then Some {|
    ud_user_id := None;
    ud_username := ADMIN_USERNAME cfg;
    ud_email := None;
    ud_name := "Admin";
    ud_user_role := ADMIN;
    ud_is_active := true;
    ud_is_admin := true |}
  else
    match query_by_username db login_name with
    | None => None
    | Some user =>
        if negb (verify_password w password (hashed_password user)) then None
        else Some {|
          ud_user_id := Some (user_id user);
          ud_username := username user;
          ud_email := Some (email user);
          ud_name := name user;
          ud_user_role := user_role user;
          ud_is_active := is_active user;
          ud_is_admin := false |}
    end.

(** [user_data.get("user_id")] is truthy *)
Definition truthy_id (o : option string) : bool :=
  match o with
  | Some s => negb (PyStr.falsy s)
  | None => false
  end.

Definition create_access_token_for_user (w : world) (cfg : settings)
    (user_data : user_data) : jws :=
  let access_token_expires := ACCESS_TOKEN_EXPIRE_MINUTES cfg in
  let role_value := value (ud_user_role user_data) in
  let token_data : gmap string json :=
    <["is_active" := JBool (ud_is_active user_data)]>
      (<["role" := JStr role_value]> ∅) in
  let token_data :=
    if negb (ud_is_admin user_data) && truthy_id (ud_user_id user_data)
    then <["sub" := JStr (default "" (ud_user_id user_data))]> token_data
    else token_data in
  create_access_token w cfg token_data (Some access_token_expires).

(** *** [app/api/v1/auth.py] *)

Definition incorrect_credentials : HTTPException := {|
  status_code := HTTP_401_UNAUTHORIZED;
  detail := "Incorrect username or password";
  headers := [("WWW-Authenticate", "Bearer")]
|}.

(** [POST /login]: the issued token, or the failure.  The rest of the
    response body repeats [user_data]. *)
Definition login (w : world) (cfg : settings) (db : list User)
    (login_name password : string) : result jws :=
  match authenticate_user w cfg db login_name password with
  | None => Raise incorrect_credentials
  | Some user_data => Return (create_access_token_for_user w cfg user_data)
  end.

End AuthService.

(** ** user-service *)

Module UserService.

(** *** [app/core/security.py] *)

Definition first_options : Jose.options := {|
  Jose.verify_signature := true;
  Jose.verify_exp := true;
  Jose.verify_iat := false;
  Jose.verify_iss := false;
  Jose.verify_aud := false;
  Jose.verify_nbf := Jose.verify_nbf Jose.defaults;
  Jose.verify_sub := Jose.verify_sub Jose.defaults;
  Jose.verify_jti := Jose.verify_jti Jose.defaults;
  Jose.verify_at_hash := Jose.verify_at_hash Jose.defaults
|}.

Definition retry_options : Jose.options := {|
  Jose.verify_signature := true;
  Jose.verify_exp := true;
  Jose.verify_iat := false;
  Jose.verify_iss := false;
  Jose.verify_aud := false;
  Jose.verify_nbf := false;
  Jose.verify_sub := Jose.verify_sub Jose.defaults;
  Jose.verify_jti := Jose.verify_jti Jose.defaults;
  Jose.verify_at_hash := Jose.verify_at_hash Jose.defaults
|}.

Definition decode_access_token (w : world) (cfg : settings) (token : string)
    : option (gmap string json) :=
  if PyStr.falsy token then None else
  match Jose.decode w token (SECRET_KEY cfg) [ALGORITHM cfg] first_options with
  | Jose.Decoded payload =>
      let iss := Py.get payload "iss" in
      if negb (Py.is_none iss) && negb (Py.eq_str iss "ims-auth-service")
      then None
      else Some payload
  | Jose.JWTError error_msg =>
      if PyStr.contains "iss" (Py.lower w error_msg)
         || PyStr.contains "issuer" (Py.lower w error_msg)
      then
        match Jose.decode w token (SECRET_KEY cfg) [ALGORITHM cfg] retry_options with
        | Jose.Decoded payload => Some payload
        | _ => None
        end
      else None
  | Jose.OtherException => None
  end.

(** *** [app/core/dependencies.py] *)

(** [Union[User, dict]]: a row, or the literal admin dictionary whose
    ["user_role"] is [UserRole.ADMIN] *)
Inductive current_user : Type :=
| AdminUser
| Row (u : User).

Definition user_not_found : HTTPException := {|
  status_code := HTTP_401_UNAUTHORIZED;
  detail := "User not found";
  headers := []
|}.

Definition user_inactive : HTTPException := {|
  status_code := HTTP_403_FORBIDDEN;
  detail := "User account is inactive";
  headers := []
|}.

(** [db.query(User).filter(User.user_id == user_id).first()] *)
Definition query_by_user_id (db : list User) (id : json) : option User :=
  List.find (fun row => Py.eq_str id (user_id row)) db.

(** [security = HTTPBearer()]: the framework supplies the credentials *)
Definition get_current_user (w : world) (cfg : settings) (db : list User)
    (credentials : string) (allow_inactive : bool) : result current_user :=
  let token := credentials in
  match decode_access_token w cfg token with
  | None => Raise (could_not_validate true)
  | Some payload =>
      let role := Py.get payload "role" in
      let user_id := Py.get payload "sub" in
      if Py.eq_str role (value ADMIN) && Py.is_none user_id then Return AdminUser
      else if Py.is_none user_id then Raise (could_not_validate false)
      else
        match query_by_user_id db user_id with
        | None => Raise user_not_found
        | Some user =>
            if negb allow_inactive && negb (is_active user) then Raise user_inactive
            else Return (Row user)
        end
  end.

(** [user_role == a] for a member of the [str]-mixed enumeration *)
Definition role_eq (r : UserRole) (a : role_arg) : bool :=
  match a with
  | RoleEnum r' => String.eqb (value r) (value r')
  | RoleStr s => String.eqb (value r) s
  end.

(** [role_checker] behind its dependency [get_current_user], whose
    parameter [allow_inactive] ([False] by default) the framework
    resolves from the request *)
Definition require_role (allowed_roles : list role_arg) (w : world) (cfg : settings)
    (db : list User) (credentials : string) (allow_inactive : bool)
    : result current_user :=
  try! current_user := get_current_user w cfg db credentials allow_inactive in
  let user_role :=
    match current_user with
    | AdminUser => ADMIN
    | Row u => user_role u
    end in
  if negb (existsb (role_eq user_role) allowed_roles)
  then Raise not_enough_permissions
  else Return current_user.

End UserService.

(** ** patient-service *)

Module PatientService.

(** *** [app/core/security.py] *)

Definition first_options : Jose.options := {|
  Jose.verify_signature := true;
  Jose.verify_exp := true;
  Jose.verify_iss := false;
  Jose.verify_aud := false;
  Jose.verify_iat := Jose.verify_iat Jose.defaults;
  Jose.verify_nbf := Jose.verify_nbf Jose.defaults;
  Jose.verify_sub := Jose.verify_sub Jose.defaults;
  Jose.verify_jti := Jose.verify_jti Jose.defaults;
  Jose.verify_at_hash := Jose.verify_at_hash Jose.defaults
|}.

Definition retry_options : Jose.options := {|
  Jose.verify_signature := true;
  Jose.verify_exp := true;
  Jose.verify_iss := false;
  Jose.verify_aud := false;
  Jose.verify_iat := false;
  Jose.verify_nbf := false;
  Jose.verify_sub := Jose.verify_sub Jose.defaults;
  Jose.verify_jti := Jose.verify_jti Jose.defaults;
  Jose.verify_at_hash := Jose.verify_at_hash Jose.defaults
|}.

Definition decode_access_token (w : world) (cfg : settings) (token : string)
    : option (gmap string json) :=
  if PyStr.falsy token then None else
  match Jose.decode w token (SECRET_KEY cfg) [ALGORITHM cfg] first_options with
  | Jose.Decoded payload => Some payload
  | Jose.JWTError e =>
      let error_msg := Py.lower w e in
      if PyStr.contains "iss" error_msg || PyStr.contains "mandatory" error_msg
         || PyStr.contains "expired" error_msg || PyStr.contains "signature" error_msg
      then
        match Jose.decode w token (SECRET_KEY cfg) [ALGORITHM cfg] retry_options with
        | Jose.Decoded payload => Some payload
        | _ => None
        end
      else None
  | Jose.OtherException => None
  end.

(** *** [app/core/dependencies.py] *)

(** [security = HTTPBearer(auto_error=False)]: [credentials] may be
    [None], the header is then read by hand. *)
Definition token_of (request : Request) (credentials : option string)
    (challenge : bool) : result string :=
  match credentials with
  | None =>
      match authorization request with
      | None => Raise (could_not_validate challenge)
      | Some auth_header =>
          if PyStr.falsy auth_header || negb (PyStr.startswith auth_header "Bearer ")
          then Raise (could_not_validate challenge)
          else Return (PyStr.strip (PyStr.remove_all "Bearer " auth_header))
      end
  | Some c => Return c
  end.

Definition get_current_user_id (w : world) (cfg : settings) (request : Request)
    (credentials : option string) (allow_inactive : bool) : result json :=
  try! token := token_of request credentials true in
  match decode_access_token w cfg token with
  | None => Raise (could_not_validate true)
  | Some payload =>
      let user_id := Py.get payload "sub" in
      if Py.is_none user_id then Raise (could_not_validate false)
      else if negb allow_inactive
              && negb (Py.truthy (Py.get_default payload "is_active" (JBool true)))
      then Raise account_inactive
      else Return user_id
  end.

Definition get_current_user (w : world) (cfg : settings) (request : Request)
    (credentials : option string) (allow_inactive : bool) : result principal :=
  try! token := token_of request credentials true in
  match decode_access_token w cfg token with
  | None => Raise (could_not_validate true)
  | Some payload =>
      let role := Py.get payload "role" in
      let user_id := Py.get payload "sub" in
      if Py.eq_str role (value ADMIN) && Py.is_none user_id then Return AdminDict
      else if Py.is_none user_id then Raise (could_not_validate false)
      else Return (UserId user_id)
  end.

(** [require_role( *allowed_roles )] applied to a request *)
Definition require_role (allowed_roles : list role_arg) (w : world) (cfg : settings)
    (request : Request) (credentials : option string) : result principal :=
  try! token := token_of request credentials false in
  match decode_access_token w cfg token with
  | None => Raise (could_not_validate false)
  | Some payload =>
      let is_active := Py.get_default payload "is_active" (JBool true) in
      if negb (Py.truthy is_active) then Raise account_inactive
      else
        let user_role := Py.get payload "role" in
        let allowed_role_values := map role_value allowed_roles in
        if negb (json_in user_role allowed_role_values)
        then Raise not_enough_permissions
        else
          let user_id := Py.get payload "sub" in
          if Py.eq_str user_role (value ADMIN) && Py.is_none user_id
          then Return AdminDict
          else Return (UserId user_id)
  end.

End PatientService.

(** ** medical-test-service *)

Module MedicalTestService.

(** *** [app/core/security.py] *)

Definition first_options : Jose.options := {|
  Jose.verify_signature := true;
  Jose.verify_exp := true;
  Jose.verify_iat := false;
  Jose.verify_iss := false;
  Jose.verify_aud := false;
  Jose.verify_nbf := Jose.verify_nbf Jose.defaults;
  Jose.verify_sub := Jose.verify_sub Jose.defaults;
  Jose.verify_jti := Jose.verify_jti Jose.defaults;
  Jose.verify_at_hash := Jose.verify_at_hash Jose.defaults
|}.

Definition retry_options : Jose.options := {|
  Jose.verify_signature := true;
  Jose.verify_exp := true;
  Jose.verify_iat := false;
  Jose.verify_iss := false;
  Jose.verify_aud := false;
  Jose.verify_nbf := false;
  Jose.verify_sub := Jose.verify_sub Jose.defaults;
  Jose.verify_jti := Jose.verify_jti Jose.defaults;
  Jose.verify_at_hash := Jose.verify_at_hash Jose.defaults
|}.

Definition decode_access_token (w : world) (cfg : settings) (token : string)
    : option (gmap string json) :=
  if PyStr.falsy token then None else
  match Jose.decode w token (SECRET_KEY cfg) [ALGORITHM cfg] first_options with
  | Jose.Decoded payload =>
      let iss := Py.get payload "iss" in
      if negb (Py.is_none iss) && negb (Py.eq_str iss "ims-auth-service")
      then None
      else Some payload
  | Jose.JWTError error_msg =>
      if PyStr.contains "iss" (Py.lower w error_msg)
         || PyStr.contains "issuer" (Py.lower w error_msg)
      then
        match Jose.decode w token (SECRET_KEY cfg) [ALGORITHM cfg] retry_options with
        | Jose.Decoded payload => Some payload
        | _ => None
        end
      else None
  | Jose.OtherException => None
  end.

(** *** [app/core/dependencies.py] *)

Definition get_token_from_request (request : Request) : option string :=
  match authorization request with
  | None => None
  | Some auth_header =>
      if PyStr.falsy auth_header then None
      else if negb (PyStr.startswith auth_header "Bearer ") then None
      else
        let token := PyStr.strip (PyStr.remove_all "Bearer " auth_header) in
        if PyStr.falsy token then None else Some token
  end.

Definition get_current_user_id (w : world) (cfg : settings) (request : Request)
    (allow_inactive : bool) : result json :=
  match get_token_from_request request with
  | None => Raise (could_not_validate true)
  | Some token =>
      match decode_access_token w cfg token with
      | None => Raise (could_not_validate true)
      | Some payload =>
          let user_id := Py.get payload "sub" in
          if Py.is_none user_id then Raise (could_not_validate false)
          else if negb allow_inactive
                  && negb (Py.truthy (Py.get_default payload "is_active" (JBool true)))
          then Raise account_inactive
          else Return user_id
      end
  end.

(** the 403 of the role check; its text repeats the roles *)
Definition not_enough_permissions_for (w : world) (allowed_role_strings : list string)
    (user_role : json) : HTTPException := {|
  status_code := HTTP_403_FORBIDDEN;
  detail := "Not enough permissions. Required roles: "
            ++ py_repr_list w allowed_role_strings
            ++ ", User role: "
            ++ (if Py.is_none user_role then "None" else Py.str w user_role);
  headers := []
|}.

(** [require_role( *allowed_roles )] applied to a request; every call
    site passes plain strings *)
Definition require_role (allowed_roles : list string) (w : world) (cfg : settings)
    (request : Request) : result json :=
  match get_token_from_request request with
  | None => Raise (could_not_validate true)
  | Some token =>
      match decode_access_token w cfg token with
      | None => Raise (could_not_validate false)
      | Some payload =>
          let is_active := Py.get_default payload "is_active" (JBool true) in
          if negb (Py.truthy is_active) then Raise account_inactive
          else
            let user_role := Py.get payload "role" in
            let user_role_normalized :=
              if Py.truthy user_role
              then Some (Py.lower w (Py.str w user_role))
              else None in
            let allowed_role_strings := map (Py.lower w) allowed_roles in
            let listed :=
              match user_role_normalized with
              | Some r => existsb (String.eqb r) allowed_role_strings
              | None => false
              end in
            if negb listed
            then Raise (not_enough_permissions_for w allowed_role_strings user_role)
            else
              let user_id := Py.get payload "sub" in
              if Py.is_none user_id then Raise (could_not_validate false)
              else Return user_id
      end
  end.

End MedicalTestService.

(** ** medical-staff-service *)

Module MedicalStaffService.

(** *** [app/core/security.py]

    [options={"verify_signature": True, "verify_exp": True,
    "require_iss": False}]: the library's defaults otherwise. *)
Definition decode_options : Jose.options := {|
  Jose.verify_signature := true;
  Jose.verify_exp := true;
  Jose.verify_aud := Jose.verify_aud Jose.defaults;
  Jose.verify_iat := Jose.verify_iat Jose.defaults;
  Jose.verify_nbf := Jose.verify_nbf Jose.defaults;
  Jose.verify_iss := Jose.verify_iss Jose.defaults;
  Jose.verify_sub := Jose.verify_sub Jose.defaults;
  Jose.verify_jti := Jose.verify_jti Jose.defaults;
  Jose.verify_at_hash := Jose.verify_at_hash Jose.defaults
|}.

Definition decode_access_token (w : world) (cfg : settings) (token : string)
    : option (gmap string json) :=
  match Jose.decode w token (SECRET_KEY cfg) [ALGORITHM cfg] decode_options with
  | Jose.Decoded payload => Some payload
  | Jose.JWTError _ => None
  | Jose.OtherException => None
  end.

(** *** [app/core/dependencies.py], [security = HTTPBearer()] *)

Definition get_current_user (w : world) (cfg : settings) (credentials : string)
    (allow_inactive : bool) : result principal :=
  let token := credentials in
  match decode_access_token w cfg token with
  | None => Raise (could_not_validate true)
  | Some payload =>
      let role := Py.get payload "role" in
      let user_id := Py.get payload "sub" in
      if Py.eq_str role (value ADMIN) && Py.is_none user_id then Return AdminDict
      else if Py.is_none user_id then Raise (could_not_validate false)
      else if negb allow_inactive
              && negb (Py.truthy (Py.get_default payload "is_active" (JBool true)))
      then Raise account_inactive
      else Return (UserId user_id)
  end.

Definition require_role (allowed_roles : list role_arg) (w : world) (cfg : settings)
    (credentials : string) : result principal :=
  let token := credentials in
  match decode_access_token w cfg token with
  | None => Raise (could_not_validate false)
  | Some payload =>
      let is_active := Py.get_default payload "is_active" (JBool true) in
      if negb (Py.truthy is_active) then Raise account_inactive
      else
        let user_role := Py.get payload "role" in
        let allowed_role_values := map role_value allowed_roles in
        if negb (json_in user_role allowed_role_values)
        then Raise not_enough_permissions
        else
          let user_id := Py.get payload "sub" in
          if Py.eq_str user_role (value ADMIN) && Py.is_none user_id
          then Return AdminDict
          else Return (UserId user_id)
  end.

End MedicalStaffService.

(** ** diagnostic-report-service *)

Module DiagnosticReportService.

(** *** [app/core/security.py] *)

Definition decode_options : Jose.options := {|
  Jose.verify_signature := true;
  Jose.verify_exp := true;
  Jose.verify_aud := Jose.verify_aud Jose.defaults;
  Jose.verify_iat := Jose.verify_iat Jose.defaults;
  Jose.verify_nbf := Jose.verify_nbf Jose.defaults;
  Jose.verify_iss := Jose.verify_iss Jose.defaults;
  Jose.verify_sub := Jose.verify_sub Jose.defaults;
  Jose.verify_jti := Jose.verify_jti Jose.defaults;
  Jose.verify_at_hash := Jose.verify_at_hash Jose.defaults
|}.

Definition decode_access_token (w : world) (cfg : settings) (token : string)
    : option (gmap string json) :=
  match Jose.decode w token (SECRET_KEY cfg) [ALGORITHM cfg] decode_options with
  | Jose.Decoded payload => Some payload
  | Jose.JWTError _ => None
  | Jose.OtherException => None
  end.

(** *** [app/core/dependencies.py], [security = HTTPBearer()] *)

Definition get_current_user_id (w : world) (cfg : settings) (credentials : string)
    (allow_inactive : bool) : result json :=
  let token := credentials in
  match decode_access_token w cfg token with
  | None => Raise (could_not_validate true)
  | Some payload =>
      let user_id := Py.get payload "sub" in
      if Py.is_none user_id then Raise (could_not_validate false)
      else if negb allow_inactive
              && negb (Py.truthy (Py.get_default payload "is_active" (JBool true)))
      then Raise account_inactive
      else Return user_id
  end.

Definition require_role (allowed_roles : list role_arg) (w : world) (cfg : settings)
    (credentials : string) : result json :=
  let token := credentials in
  match decode_access_token w cfg token with
  | None => Raise (could_not_validate false)
  | Some payload =>
      let is_active := Py.get_default payload "is_active" (JBool true) in
      if negb (Py.truthy is_active) then Raise account_inactive
      else
        let user_role := Py.get payload "role" in
        if negb (json_in user_role (map role_value allowed_roles))
        then Raise not_enough_permissions
        else
          let user_id := Py.get payload "sub" in
          Return user_id
  end.

(** *** [app/services/workflow_logger.py] *)

(** the JSON document posted to the workflow service *)
Record notification : Type := {
  n_url : string;
  n_user_id : json;
  n_action : string;
  n_entity_type : option string;
  n_relevant_id : option string
}.

(** what [client.post] does: a response, or an exception (an instance
    of [Exception]) with its text *)
Inductive post_outcome : Type :=
| Posted (status_code : Z) (text : string)
| TimeoutException (msg : string)      (* httpx.TimeoutException *)
| ConnectError (msg : string)          (* httpx.ConnectError *)
| OtherException (msg : string).

(** how a Python call ends *)
Inductive completion : Type :=
| Returned                     (* returns [None] *)
| Raised (msg : string).

(** [str(n)] for a status code *)
Definition status_text (w : world) (status : Z) : string := Py.str w (JInt status).

(** The body of the [try] block, and what it prints: the exceptions of
    the HTTP client leave it. *)
Definition post_and_check (w : world) (post : notification -> post_outcome)
    (data : notification) : completion * list string :=
  match post data with
  | Posted status_code text =>
      if negb ((status_code =? 200) || (status_code =? 201))
      then (Returned,
            ["Workflow logging failed: " ++ status_text w status_code ++ ": " ++ text])
      else (Returned, [])
  | TimeoutException e => (Raised e, [])
  | ConnectError e => (Raised e, [])
  | OtherException e => (Raised e, [])
  end.

(** [try: ... except Exception as e: print(...)] *)
Definition log_workflow_action_async (w : world) (cfg : settings)
    (post : notification -> post_outcome)
    (user_id : json) (action : string) (entity_type relevant_id : option string)
    : completion * list string :=
  let api_gateway_url := API_GATEWAY_URL cfg in
  let data := {|
    n_url := api_gateway_url ++ "/api/v1/workflow/logs";
    n_user_id := user_id;
    n_action := action;
    n_entity_type := entity_type;
    n_relevant_id := relevant_id |} in
  match post_and_check w post data with
  | (Returned, printed) => (Returned, printed)
  | (Raised e, printed) =>
      (Returned, app printed ["Error logging workflow action: " ++ e])
  end.

(** *** [app/api/v1/diagnostic_reports.py] *)

(** a task queued with [background_tasks.add_task(log_workflow_action_async, ...)] *)
Record task : Type := {
  t_user_id : json;
  t_action : string;
  t_entity_type : option string;
  t_relevant_id : option string
}.

(** what the client receives *)
Record http_response (A : Type) : Type := {
  r_status_code : Z;
  r_body : A
}.
Arguments r_status_code {A} _.
Arguments r_body {A} _.

(** [POST ""] once the guard has produced [current_user_id] and
    [create_diagnostic_report] has stored [new_report]: the endpoint
    queues the notification and returns the report (201). *)
Definition create_report {Report : Type} (report_id : Report -> string)
    (current_user_id : json) (new_report : Report)
    : http_response Report * list task :=
  ({| r_status_code := 201; r_body := new_report |},
   [ {| t_user_id := current_user_id;
        t_action := "Create Report";
        t_entity_type := Some "REPORT";
        t_relevant_id := Some (report_id new_report) |} ]).

(** The framework sends the response, then runs the queued tasks in
    order. *)
Definition respond_then_run {A : Type} (w : world) (cfg : settings)
    (post : notification -> post_outcome)
    (handled : http_response A * list task)
    : http_response A * list (completion * list string) :=
  (fst handled,
   map (fun t => log_workflow_action_async w cfg post
                   (t_user_id t) (t_action t) (t_entity_type t) (t_relevant_id t))
       (snd handled)).

End DiagnosticReportService.

(** ** api-gateway ([services/api-gateway/main.py]) *)

Module Gateway.

(** *** Ordered dictionaries with string keys *)

Definition has_key (k : string) (d : list (string * string)) : bool :=
  existsb (fun kv => String.eqb (fst kv) k) d.

(** [d.get(k)] *)
Definition get (k : string) (d : list (string * string)) : option string :=
  option_map snd (List.find (fun kv => String.eqb (fst kv) k) d).

(** [d[k] = v]: a new key goes last, a known key keeps its place *)
Fixpoint setitem (k v : string) (d : list (string * string)) : list (string * string) :=
  match d with
  | [] => [(k, v)]
  | (k', v') :: rest => if String.eqb k' k then (k, v) :: rest else (k', v') :: setitem k v rest
  end.

(** [d.pop(k, None)] *)
Definition pop (k : string) (d : list (string * string)) : list (string * string) :=
  List.filter (fun kv => negb (String.eqb (fst kv) k)) d.

(** [dict(request.query_params)]: the multi-dict keeps, for each name,
    the value given last *)
Definition dict_of_query_params (items : list (string * string)) : list (string * string) :=
  fold_left (fun d kv => setitem (fst kv) (snd kv) d) items [].

(** [dict(request.headers)]: for each name, the value given first *)
Definition dict_of_headers (items : list (string * string)) : list (string * string) :=
  fold_left (fun d kv => if has_key (fst kv) d then d else (d ++ [kv])%list) items [].

(** *** Service configuration *)

Definition SERVICE_MAPPINGS : list (string * string) :=
  [ ("/api/v1/auth", "http://auth-service:5001");
    ("/api/v1/users", "http://user-service:5002");
    ("/api/v1/patients", "http://patient-service:5003");
    ("/api/v1/medical-staff", "http://medical-staff-service:5004");
    ("/api/v1/medical-images", "http://medical-image-service:5005");
    ("/api/v1/medical-tests", "http://medical-test-service:5009");
    ("/api/v1/diagnostic-reports", "http://diagnostic-report-service:5006");
    ("/api/v1/billing", "http://billing-service:5007");
    ("/api/v1/workflow", "http://workflow-service:5008") ].

(** *** Helper functions *)

(** puts [k] in front of the first key that is not longer *)
Fixpoint insert_by_len (k : string) (sorted : list string) : list string :=
  match sorted with
  | [] => [k]
  | h :: rest =>
      if Nat.leb (String.length h) (String.length k)
      then k :: h :: rest
      else h :: insert_by_len k rest
  end.

(** [sorted(keys, key=len, reverse=True)]: longest first, keys of equal
    length in their original order *)
Fixpoint sorted_by_len_desc (keys : list string) : list string :=
  match keys with
  | [] => []
  | k :: rest => insert_by_len k (sorted_by_len_desc rest)
  end.

(** [path] with a leading slash *)
Definition normalize (path : string) : string :=
  if negb (PyStr.startswith path "/") then "/" ++ path else path.

(** [find_target_service] over a routing table *)
Definition find_target_service_in (mappings : list (string * string)) (path : string)
    : option (string * string) :=
  let path := normalize path in
  let sorted_paths := sorted_by_len_desc (map fst mappings) in
  match List.find (fun service_path => PyStr.startswith path service_path) sorted_paths with
  | Some service_path =>
      match get service_path mappings with
      | Some base_url => Some (base_url, path)
      | None => None
      end
  | None => None
  end.

Definition find_target_service (path : string) : option (string * string) :=
  find_target_service_in SERVICE_MAPPINGS path.

(** *** The HTTP client ([httpx.AsyncClient])

    The client is not part of the repository.  What it does with
    [follow_redirects] is modelled on its [_send_handling_redirects];
    the network and the construction of a redirect request are
    parameters, gathered in [Client]. *)

(** a request as the client sends it: the arguments of [client.request],
    or what the client builds to follow a redirect *)
Record UpstreamRequest : Type := {
  up_method : string;
  up_url : string;
  up_params : list (string * string);
  up_content : string;
  up_headers : list (string * string)
}.

(** the status line and the header fields of an upstream answer, in
    order, names in lower case as the client reports them, a repeated
    name kept *)
Record ResponseHead : Type := {
  up_status_code : Z;
  up_response_headers : list (string * string)
}.

(** an answer whose body has been read: [response.content] *)
Record UpstreamResponse : Type := {
  up_head : ResponseHead;
  up_response_content : string
}.

Inductive exception : Type :=
| TimeoutException (msg : string)      (* httpx.TimeoutException *)
| ConnectError (msg : string)          (* httpx.ConnectError *)
| OtherException (msg : string).       (* any other Exception, [str(e)] *)

Inductive attempt (A : Type) : Type :=
| Done (a : A)
| Raised (e : exception).
Arguments Done {A} a.
Arguments Raised {A} e.

(** what [_build_redirect_request] gives *)
Inductive redirect : Type :=
| Next (request : UpstreamRequest)
| InvalidLocation (msg : string).      (* httpx.RemoteProtocolError *)

(** One client, for one call of [proxy_request].  Every function is
    given the answers received so far in the call, so that the network
    may answer the same request differently the second time. *)
Record Client : Type := {
  (** [build_request]: the message of the exception when the request
      cannot be built (a URL that does not parse, a header value that
      does not encode) *)
  build_request : UpstreamRequest -> option string;
  (** one exchange, up to the header fields of the answer *)
  send_single_request : list ResponseHead -> UpstreamRequest -> attempt ResponseHead;
  (** reading the body of an answer *)
  aread : list ResponseHead -> UpstreamRequest -> ResponseHead -> attempt string;
  (** the request that follows a redirect: its method, its URL from
      [Location], its headers and cookies are the client's business *)
  build_redirect_request : list ResponseHead -> UpstreamRequest -> ResponseHead -> redirect
}.

(** [DEFAULT_MAX_REDIRECTS] *)
Definition max_redirects : nat := 20.

(** [response.has_redirect_location] *)
Definition has_redirect_location (response : ResponseHead) : bool :=
  existsb (Z.eqb (up_status_code response)) [301; 302; 303; 307; 308]
  && has_key "location" (up_response_headers response).

(** where [_send_handling_redirects] stops: the answers received before,
    the last request and its answer *)
Record arrival : Type := {
  history : list ResponseHead;
  last_request : UpstreamRequest;
  last_response : ResponseHead
}.

(** [_send_handling_redirects]: the requests sent, and where it stops.
    [budget] is [max_redirects + 1 - len(history)]: the loop raises
    [TooManyRedirects] once [len(history) > max_redirects]. *)
Fixpoint send_handling_redirects (client : Client) (budget : nat)
    (request : UpstreamRequest) (follow_redirects : bool) (history : list ResponseHead)
    : list UpstreamRequest * attempt arrival :=
  match budget with
  | O => ([], Raised (OtherException "Exceeded maximum allowed redirects."))
  | S budget' =>
      match send_single_request client history request with
      | Raised e => ([request], Raised e)
      | Done response =>
          let here := {| history := history;
                         last_request := request;
                         last_response := response |} in
          if negb (has_redirect_location response) then ([request], Done here)
          else
            match build_redirect_request client history request response with
            | InvalidLocation msg => ([request], Raised (OtherException msg))
            | Next next_request =>
                if follow_redirects then
                  match aread client history request response with
                  | Raised e => ([request], Raised e)
                  | Done _ =>
                      let (sent, outcome) :=
                        send_handling_redirects client budget' next_request follow_redirects
                          (history ++ [response])%list in
                      (request :: sent, outcome)
                  end
                else ([request], Done here)
            end
      end
  end.

(** [client.request(method, url, params=, content=, headers=,
    follow_redirects=)]: the requests sent, and the answer, its body
    read, or the exception *)
Definition client_request (client : Client) (request : UpstreamRequest)
    (follow_redirects : bool) : list UpstreamRequest * attempt UpstreamResponse :=
  match build_request client request with
  | Some msg => ([], Raised (OtherException msg))
  | None =>
      let (sent, outcome) :=
        send_handling_redirects client (S max_redirects) request follow_redirects [] in
      (sent,
       match outcome with
       | Raised e => Raised e
       | Done a =>
           match aread client (history a) (last_request a) (last_response a) with
           | Raised e => Raised e
           | Done body => Done {| up_head := last_response a; up_response_content := body |}
           end
       end)
  end.

(** [response.headers.get(k)]: the values of the fields named [k],
    joined by a comma and a space *)
Definition headers_get (k : string) (fields : list (string * string)) : option string :=
  match map snd (List.filter (fun kv => String.eqb (fst kv) k) fields) with
  | [] => None
  | values => Some (String.concat ", " values)
  end.

(** [dict(response.headers)]: one entry per name, in the order the names
    first appear *)
Definition dict_of_response_headers (fields : list (string * string))
    : list (string * string) :=
  fold_left
    (fun d kv =>
       if has_key (fst kv) d then d
       else (d ++ [(fst kv, default "" (headers_get (fst kv) fields))])%list)
    fields [].

(** *** The response object ([starlette.responses.Response]) *)

(** [str(n)] *)
Definition str_of_nat (n : nat) : string := NilZero.string_of_uint (Nat.to_uint n).

Record Response : Type := {
  content : string;
  response_status_code : Z;
  raw_headers : list (string * string);
  media_type : option string
}.

(** [[(k.lower().encode("latin-1"), v.encode("latin-1")) for k, v in
    headers.items()]]: the first name or value that does not encode
    raises *)
Fixpoint encode_headers (w : world) (headers : list (string * string))
    : attempt (list (string * string)) :=
  match headers with
  | [] => Done []
  | (k, v) :: rest =>
      match Py.latin1_error w (Py.lower w k) with
      | Some msg => Raised (OtherException msg)
      | None =>
          match Py.latin1_error w v with
          | Some msg => Raised (OtherException msg)
          | None =>
              match encode_headers w rest with
              | Done raw_headers => Done ((Py.lower w k, v) :: raw_headers)
              | Raised e => Raised e
              end
          end
      end
  end.

(** [Response.init_headers]: the names in lower case; [content-length]
    and [content-type] are added when the caller gave none *)
Definition init_headers (w : world) (body : string) (status_code : Z)
    (headers : list (string * string)) (media_type : option string)
    : attempt (list (string * string)) :=
  match encode_headers w headers with
  | Raised e => Raised e
  | Done raw_headers =>
      let keys := map fst raw_headers in
      let populate_content_length := negb (existsb (String.eqb "content-length") keys) in
      let populate_content_type := negb (existsb (String.eqb "content-type") keys) in
      let raw_headers :=
        if populate_content_length
           && negb ((status_code <? 200) || existsb (Z.eqb status_code) [204; 304])
        then (raw_headers ++ [("content-length", str_of_nat (String.length body))])%list
        else raw_headers in
      match media_type with
      | Some content_type =>
          if populate_content_type then
            let content_type :=
              if PyStr.startswith content_type "text/"
                 && negb (PyStr.contains "charset=" (Py.lower w content_type))
              then content_type ++ "; charset=utf-8"
              else content_type in
            match Py.latin1_error w content_type with
            | Some msg => Raised (OtherException msg)
            | None => Done (raw_headers ++ [("content-type", content_type)])%list
            end
          else Done raw_headers
      | None => Done raw_headers
      end
  end.

(** [Response(content=..., status_code=..., headers=..., media_type=...)] *)
Definition new_response (w : world) (content : string) (status_code : Z)
    (headers : list (string * string)) (media_type : option string)
    : attempt Response :=
  match init_headers w content status_code headers media_type with
  | Raised e => Raised e
  | Done raw_headers =>
      Done {| content := content;
              response_status_code := status_code;
              raw_headers := raw_headers;
              media_type := media_type |}
  end.

(** *** The proxy *)

(** the inbound request: names as the framework reports them (lower
    case for headers), repeated names kept *)
Record InboundRequest : Type := {
  method : string;
  query_params : list (string * string);
  request_headers : list (string * string);
  request_body : string
}.

Definition gateway_exception (code : Z) (msg : string) : HTTPException := {|
  status_code := code;
  detail := msg;
  headers := []
|}.

(** The requests sent upstream, and the answer. *)
Definition proxy_request (w : world) (client : Client)
    (request : InboundRequest) (target_url path : string)
    : list UpstreamRequest * result Response :=
  let full_url := target_url ++ path in
  let query_params := dict_of_query_params (query_params request) in
  let body := request_body request in
  let headers := dict_of_headers (request_headers request) in
  let headers := pop "host" headers in
  let headers := pop "connection" headers in
  let headers := pop "content-length" headers in
  let (sent, outcome) :=
    client_request client
      {| up_method := method request;
         up_url := full_url;
         up_params := query_params;
         up_content := body;
         up_headers := headers |}
      true in
  let attempted :=
    match outcome with
    | Done response =>
        let response_body := up_response_content response in
        let response_headers :=
          dict_of_response_headers (up_response_headers (up_head response)) in
        let response_headers := pop "content-encoding" response_headers in
        let response_headers := pop "transfer-encoding" response_headers in
        let response_headers := pop "content-length" response_headers in
        new_response w response_body (up_status_code (up_head response))
          response_headers
          (headers_get "content-type" (up_response_headers (up_head response)))
    | Raised e => Raised e
    end in
  (sent,
   match attempted with
   | Done response => Return response
   | Raised (TimeoutException _) => Raise (gateway_exception 504 "Gateway timeout")
   | Raised (ConnectError _) => Raise (gateway_exception 503 "Service unavailable")
   | Raised (OtherException e) => Raise (gateway_exception 500 ("Gateway error: " ++ e))
   end).

(** *** Catch-all route handler *)

Inductive answer : Type :=
| Running                    (* {"service": "api-gateway", "status": "running", ...} *)
| Healthy                    (* {"status": "healthy", "service": "api-gateway"} *)
| Relayed (r : Response).

Definition gateway_router (w : world) (client : Client)
    (request : InboundRequest) (path : string)
    : list UpstreamRequest * result answer :=
  if String.eqb path "" || String.eqb path "/" then ([], Return Running)
  else if String.eqb path "health" then ([], Return Healthy)
  else
    let full_path := if negb (PyStr.startswith path "/") then "/" ++ path else path in
    match find_target_service full_path with
    | None => ([], Raise (gateway_exception 404 ("Route not found: " ++ full_path)))
    | Some (target_url, remaining_path) =>
        let (sent, r) := proxy_request w client request target_url remaining_path in
        (sent, try! response := r in Return (Relayed response))
    end.

End Gateway.

(** ** auth-service: the endpoints *)

Module AuthApi.

(** *** [app/core/dependencies.py], [security = HTTPBearer()] *)

(** [Union[User, dict]]: the literal admin dictionary, or a row *)
Inductive current_user : Type :=
| Admin
| Account (u : User).

Definition get_current_user (w : world) (cfg : settings) (db : list User)
    (credentials : string) : result current_user :=
  let token := credentials in
  match AuthService.decode_access_token w cfg token with
  | None => Raise (could_not_validate true)
  | Some payload =>
      let role := Py.get payload "role" in
      let user_id := Py.get payload "sub" in
      if Py.eq_str role (value ADMIN) && Py.is_none user_id then Return Admin
      else if Py.is_none user_id then Raise (could_not_validate false)
      else
        match UserService.query_by_user_id db user_id with
        | None => Raise UserService.user_not_found
        | Some user => Return (Account user)
        end
  end.

(** *** [app/api/v1/auth.py] *)

(** the ["user"] object of the login response *)
Record login_user : Type := {
  lu_id : option string;
  lu_user_id : option string;
  lu_username : string;
  lu_email : option string;
  lu_name : string;
  lu_role : string;
  lu_is_active : bool;
  lu_is_admin : bool
}.

Record login_response : Type := {
  access_token : jws;
  token_type : string;
  user : login_user
}.

(** the arguments of [background_tasks.add_task(log_workflow_action_async, ...)] *)
Record task : Type := {
  t_user_id : string;
  t_action : string;
  t_entity_type : string;
  t_relevant_id : string
}.

(** [POST /login]: the response, and the tasks queued behind it *)
Definition login (w : world) (cfg : settings) (db : list User)
    (login_name password : string) : result login_response * list task :=
  match AuthService.authenticate_user w cfg db login_name password with
  | None => (Raise AuthService.incorrect_credentials, [])
  | Some user_data =>
      let access_token := AuthService.create_access_token_for_user w cfg user_data in
      let user_id := AuthService.ud_user_id user_data in
      let background_tasks :=
        if AuthService.truthy_id user_id
        then [ {| t_user_id := default "" user_id;
                  t_action := "User Login";
                  t_entity_type := "USER";
                  t_relevant_id := default "" user_id |} ]
        else [] in
      let is_admin := AuthService.ud_is_admin user_data in
      (Return {|
         access_token := access_token;
         token_type := "bearer";
         user := {|
           lu_id := user_id;
           lu_user_id := user_id;
           lu_username := AuthService.ud_username user_data;
           lu_email := AuthService.ud_email user_data;
           lu_name := AuthService.ud_name user_data;
           lu_role := value (AuthService.ud_user_role user_data);
           lu_is_active := AuthService.ud_is_active user_data;
           lu_is_admin := is_admin |} |},
       background_tasks)
  end.

(** the body of [GET /me]; the two timestamps of a row are not columns
    of [User] here and are left out *)
Record user_info : Type := {
  ui_id : option string;
  ui_user_id : option string;
  ui_username : string;
  ui_email : option string;
  ui_name : string;
  ui_role : string;
  ui_is_active : bool
}.

Definition get_current_user_info (current_user : current_user) : user_info :=
  match current_user with
  | Admin => {|
      ui_id := None;
      ui_user_id := None;
      ui_username := "admin";
      ui_email := None;
      ui_name := "Admin";
      ui_role := value ADMIN;
      ui_is_active := true |}
  | Account u => {|
      ui_id := Some (user_id u);
      ui_user_id := Some (user_id u);
      ui_username := username u;
      ui_email := Some (email u);
      ui_name := name u;
      ui_role := value (user_role u);
      ui_is_active := is_active u |}
  end.

(** [GET /me] behind its dependency *)
Definition me (w : world) (cfg : settings) (db : list User) (credentials : string)
    : result user_info :=
  try! current_user := get_current_user w cfg db credentials in
  Return (get_current_user_info current_user).

End AuthApi.

(** ** user-service: the endpoints *)

Module UserApi.

(** *** [app/services/user_service.py] *)

Definition user_not_found : HTTPException := {|
  status_code := 404;
  detail := "User not found";
  headers := []
|}.

(** [get_user]: the row with this business identifier, or 404 *)
Definition get_user (db : list User) (id : string) : result User :=
  match List.find (fun row => String.eqb (user_id row) id) db with
  | Some user => Return user
  | None => Raise user_not_found
  end.

(** [delete_user]: the table after [DELETE ... WHERE user_id = :id] *)
Definition delete_user (db : list User) (id : string) : result (list User) :=
  try! user := get_user db id in
  Return (List.filter (fun row => negb (String.eqb (user_id row) (user_id user))) db).

(** *** [app/api/v1/users.py] *)

Definition get_current_user_allow_inactive (w : world) (cfg : settings) (db : list User)
    (credentials : string) : result UserService.current_user :=
  UserService.get_current_user w cfg db credentials true.

(** [is_admin] and [current_user_id] as the endpoints compute them *)
Definition is_admin (current_user : UserService.current_user) : bool :=
  match current_user with
  | UserService.AdminUser => true
  | UserService.Row u => UserService.role_eq (user_role u) (RoleEnum ADMIN)
  end.

Definition current_user_id (current_user : UserService.current_user) : option string :=
  match current_user with
  | UserService.AdminUser => None
  | UserService.Row u => Some (user_id u)
  end.

(** [current_user_id != user_id] *)
Definition differs (current_user_id : option string) (id : string) : bool :=
  match current_user_id with
  | Some s => negb (String.eqb s id)
  | None => true
  end.

(** [GET /{user_id}] behind its dependency *)
Definition get_user_endpoint (w : world) (cfg : settings) (db : list User)
    (credentials : string) (id : string) : result User :=
  try! current_user := get_current_user_allow_inactive w cfg db credentials in
  if negb (is_admin current_user) && differs (current_user_id current_user) id
  then Raise not_enough_permissions
  else get_user db id.

(** the arguments of a queued [log_workflow_action_async] *)
Record task : Type := {
  t_user_id : string;
  t_action : string;
  t_entity_type : string;
  t_relevant_id : string
}.

(** [DELETE /{user_id}] behind [require_role(UserRole.ADMIN)]: the table
    after the deletion and the queued tasks *)
Definition delete_user_endpoint (w : world) (cfg : settings) (db : list User)
    (credentials : string) (allow_inactive : bool) (id : string)
    : result (list User * list task) :=
  try! current_user :=
    UserService.require_role [RoleEnum ADMIN] w cfg db credentials allow_inactive in
  try! db' := delete_user db id in
  let background_tasks :=
    match current_user_id current_user with
    | Some caller =>
        if negb (PyStr.falsy caller)
        then [ {| t_user_id := caller; t_action := "Delete User";
                  t_entity_type := "USER"; t_relevant_id := id |} ]
        else []
    | None => []
    end in
  Return (db', background_tasks).

End UserApi.

(** ** patient-service: the endpoints *)

Module PatientApi.

(** a row of [patient_service.patients] *)
Record Patient : Type := {
  patient_id : string;
  patient_user_id : string;
  date_of_birth : string;
  conditions : option (list string);
  created_at : string;
  updated_at : option string
}.

(** a row of [user_service.users] as the raw SQL of this service reads
    it: the role is the stored text *)
Record user_row : Type := {
  ur_user_id : string;
  ur_username : string;
  ur_email : string;
  ur_name : string;
  ur_phone : option string;
  ur_address : option string;
  ur_user_role : string;
  ur_is_active : bool
}.

(** the two tables *)
Record database : Type := {
  patients : list Patient;
  users : list user_row
}.

(** *** [app/services/patient_service.py] *)

(** the dictionary [get_patient_with_user] returns *)
Record patient_data : Type := {
  pd_patient_id : string;
  pd_user_id : string;
  pd_date_of_birth : string;
  pd_conditions : option (list string);
  pd_username : string;
  pd_email : string;
  pd_name : string;
  pd_phone : option string;
  pd_address : option string;
  pd_user_role : string;
  pd_is_active : bool;
  pd_created_at : string;
  pd_updated_at : option string
}.

Definition not_found (what : string) : HTTPException := {|
  status_code := 404;
  detail := what;
  headers := []
|}.

Definition forbidden (what : string) : HTTPException := {|
  status_code := HTTP_403_FORBIDDEN;
  detail := what;
  headers := []
|}.

Definition get_patient_with_user (db : database) (id : string) : result patient_data :=
  match List.find (fun p => String.eqb (patient_id p) id) (patients db) with
  | None => Raise (not_found "Patient not found")
  | Some patient =>
      match List.find (fun u => String.eqb (ur_user_id u) (patient_user_id patient))
              (users db) with
      | None => Raise (not_found "User not found for this patient")
      | Some user_result => Return {|
          pd_patient_id := patient_id patient;
          pd_user_id := patient_user_id patient;
          pd_date_of_birth := date_of_birth patient;
          pd_conditions := conditions patient;
          pd_username := ur_username user_result;
          pd_email := ur_email user_result;
          pd_name := ur_name user_result;
          pd_phone := ur_phone user_result;
          pd_address := ur_address user_result;
          pd_user_role := ur_user_role user_result;
          pd_is_active := ur_is_active user_result;
          pd_created_at := created_at patient;
          pd_updated_at := updated_at patient |}
      end
  end.

Definition get_patient (db : database) (id : string) : result patient_data :=
  get_patient_with_user db id.

Definition get_patient_by_user_id (db : database) (uid : string) : result patient_data :=
  match List.find (fun p => String.eqb (patient_user_id p) uid) (patients db) with
  | None => Raise (not_found "Patient not found")
  | Some patient => get_patient_with_user db (patient_id patient)
  end.

(** [delete_patient]: the database after
    [DELETE ... WHERE patient_id = :id] *)
Definition delete_patient (db : database) (id : string) : result database :=
  match List.find (fun p => String.eqb (patient_id p) id) (patients db) with
  | None => Raise (not_found "Patient not found")
  | Some patient => Return {|
      patients :=
        List.filter (fun p => negb (String.eqb (patient_id p) (patient_id patient)))
          (patients db);
      users := users db |}
  end.

(** *** [app/api/v1/patients.py] *)

(** What [Depends(get_current_user)] hands to an endpoint: the admin
    dictionary, or the subject, a string. *)
Inductive caller : Type :=
| CallerAdmin
| CallerId (s : string).

(** A validated [sub] is a string; no other value reaches an endpoint. *)
Definition caller_of (p : principal) : option caller :=
  match p with
  | AdminDict => Some CallerAdmin
  | UserId (JStr s) => Some (CallerId s)
  | UserId _ => None
  end.

(** [SELECT user_role FROM user_service.users WHERE user_id = :user_id] *)
Definition stored_role (db : database) (uid : string) : option string :=
  option_map ur_user_role (List.find (fun u => String.eqb (ur_user_id u) uid) (users db)).

(** [current_user_role not in [UserRole.DOCTOR.value, UserRole.RADIOLOGIST.value]] *)
Definition not_staff (role : option string) : bool :=
  match role with
  | Some r => negb (existsb (String.eqb r) [value DOCTOR; value RADIOLOGIST])
  | None => true
  end.

(** [GET /{patient_id}] *)
Definition get_patient_endpoint (db : database) (id : string) (current_user : caller)
    : result patient_data :=
  try! patient := get_patient db id in
  match current_user with
  | CallerAdmin => Return patient
  | CallerId current_user_id =>
      let current_user_role := stored_role db current_user_id in
      if negb (PyStr.falsy current_user_id) then
        let attempt : result unit :=
          try! user_patient := get_patient_by_user_id db current_user_id in
          if negb (String.eqb (pd_patient_id user_patient) id)
          then if not_staff current_user_role
               then Raise (forbidden "Not enough permissions")
               else Return tt
          else Return tt in
        match attempt with
        | Return _ => Return patient
        | Raise _ =>
            if not_staff current_user_role
            then Raise (forbidden "Not enough permissions")
            else Return patient
        end
      else Return patient
  end.

(** [GET /by-user/{user_id}] *)
Definition get_patient_by_user_endpoint (db : database) (uid : string)
    (current_user : caller) : result patient_data :=
  let is_admin := match current_user with CallerAdmin => true | CallerId _ => false end in
  let differs :=
    match current_user with
    | CallerAdmin => true
    | CallerId current_user_id => negb (String.eqb current_user_id uid)
    end in
  if negb is_admin && differs
  then Raise (forbidden "You can only view your own patient record")
  else get_patient_by_user_id db uid.

(** [DELETE /{patient_id}] behind [require_role(UserRole.ADMIN)]: the
    database after the request *)
Definition delete_patient_endpoint (w : world) (cfg : settings) (db : database)
    (request : Request) (credentials : option string) (id : string) : result database :=
  try! current_user :=
    PatientService.require_role [RoleEnum ADMIN] w cfg request credentials in
  delete_patient db id.

End PatientApi.

(** ** Predicates on tokens used by the statements *)

(** The payload carries an [exp] that [int()] reads as a time before
    [now]. *)
Definition exp_in_the_past (w : world) (token : string) : bool :=
  match claims_of w token with
  | Some c =>
      match c !! "exp" with
      | Some v => match Py.int w v with IntOk e => e <? now w | _ => false end
      | None => false
      end
  | None => false
  end.

(** The fixed issuer string of [create_access_token]. *)
Definition ISSUER : string := "ims-auth-service".

(** A sample runtime: the clock reads 1000; [tokens] lists the token
    strings that denote something, every other string is garbage.  The
    samples hold ASCII text only, for which the two tables are not
    consulted. *)
Definition sample_world (tokens : list (string * jws)) : world := {|
  now := 1000;
  py_int_of_str := fun _ => None;
  py_str_of_json := fun _ => "?";
  py_repr_list := fun l => "[" ++ String.concat ", " l ++ "]";
  py_lower := fun s => s;
  py_latin1_error := fun _ => None;
  jws_of := fun s =>
    match List.find (fun kv => String.eqb (fst kv) s) tokens with
    | Some kv => snd kv
    | None => Garbled "Not enough segments"
    end;
  checkpw := fun plain hashed => String.eqb ("bcrypt:" ++ plain) hashed
|}.

(** a token signed with the configured key and algorithm *)
Definition signed (cfg : settings) (c : gmap string json) : jws :=
  Jws (Some (ALGORITHM cfg)) (SECRET_KEY cfg) (Claims c).

(** Sample tokens, by content. *)
Definition expired_claims : gmap string json :=
  <["sub" := JStr "PAT-000012"]> (<["role" := JStr "patient"]>
    (<["exp" := JInt 10]> ∅)).

Definition expired_world : world :=
  sample_world [("expired.token", signed default_settings expired_claims)].

(** a token minted elsewhere with the same secret *)
Definition foreign_claims : gmap string json :=
  <["iss" := JStr "other-issuer"]> (<["sub" := JStr "PAT-000012"]>
    (<["role" := JStr "patient"]> (<["exp" := JInt 2000]> ∅))).

(** a token from before the issuer claim was written *)
Definition legacy_claims : gmap string json :=
  <["sub" := JStr "PAT-000012"]> (<["role" := JStr "patient"]>
    (<["exp" := JInt 2000]> ∅)).

Definition issuer_world : world :=
  sample_world [ ("foreign.token", signed default_settings foreign_claims);
                 ("legacy.token", signed default_settings legacy_claims) ].

(** tokens as the issuer writes them: a deactivated patient, the
    administrator, a deactivated administrator *)
Definition inactive_claims : gmap string json :=
  <["iss" := JStr ISSUER]> (<["sub" := JStr "PAT-000012"]>
    (<["role" := JStr "patient"]> (<["is_active" := JBool false]>
      (<["exp" := JInt 2000]> ∅)))).

Definition admin_claims : gmap string json :=
  <["iss" := JStr ISSUER]> (<["role" := JStr "admin"]>
    (<["is_active" := JBool true]> (<["exp" := JInt 2000]> ∅))).

Definition inactive_admin_claims : gmap string json :=
  <["iss" := JStr ISSUER]> (<["role" := JStr "admin"]>
    (<["is_active" := JBool false]> (<["exp" := JInt 2000]> ∅))).

Definition guard_world : world :=
  sample_world [ ("inactive.token", signed default_settings inactive_claims);
                 ("admin.token", signed default_settings admin_claims);
                 ("inactive.admin.token", signed default_settings inactive_admin_claims);
                 ("legacy.token", signed default_settings legacy_claims) ].

(** a request that carries [token] in its Authorization header *)
Definition bearer (token : string) : Request :=
  {| authorization := Some ("Bearer " ++ token) |}.

(** The allowed roles name the administrator. *)
Definition allows_admin (allowed_roles : list role_arg) : bool :=
  existsb (String.eqb (value ADMIN)) (map role_value allowed_roles).

(** The [is_active] claim, read with its default, is truthy. *)
Definition reads_active (payload : gmap string json) : bool :=
  Py.truthy (Py.get_default payload "is_active" (JBool true)).

(** The payload of an issued token. *)
Definition payload_of (t : jws) : option (gmap string json) :=
  match t with
  | Jws _ _ (Claims c) => Some c
  | _ => None
  end.

(** The credentials are the configured admin pair. *)
Definition is_admin_pair (cfg : settings) (login_name password : string) : bool :=
  String.eqb login_name (ADMIN_USERNAME cfg) && String.eqb password (ADMIN_PASSWORD_HASH cfg).

(** a database with a patient and with an account whose role is admin *)
Definition sample_db : list User :=
  [ {| user_id := "USR-000001"; username := "root"; email := "root@ims.example";
       name := "Root"; hashed_password := "bcrypt:s3cret";
       user_role := ADMIN; is_active := true |};
    {| user_id := "USR-000002"; username := "pat"; email := "pat@ims.example";
       name := "Pat"; hashed_password := "bcrypt:hunter2";
       user_role := PATIENT; is_active := false |} ].

(** [a] may stand before [b] in a list sorted longest first. *)
Definition longer_first (a b : string) : Prop :=
  (String.length b <= String.length a)%nat.

(** a routing table with nested prefixes *)
Definition nested_mappings : list (string * string) :=
  [ ("/api", "http://fallback:5000");
    ("/api/v1/medical", "http://medical:5004");
    ("/api/v1", "http://v1:5001") ].


(** the paths the gateway answers itself *)
Definition answered_locally (path : string) : bool :=
  String.eqb path "" || String.eqb path "/" || String.eqb path "health".

(** a request with a repeated query parameter *)
Definition tagged_request : Gateway.InboundRequest := {|
  Gateway.method := "GET";
  Gateway.query_params := [("tag", "a"); ("tag", "b")];
  Gateway.request_headers := [("host", "gateway:8000"); ("accept", "*/*")];
  Gateway.request_body := ""
|}.

(** an upstream that answers every request with 200 and an empty list *)
Definition ok_head : Gateway.ResponseHead := {|
  Gateway.up_status_code := 200;
  Gateway.up_response_headers :=
    [("content-type", "application/json"); ("content-length", "2")]
|}.

Definition ok_client : Gateway.Client := {|
  Gateway.build_request := fun _ => None;
  Gateway.send_single_request := fun _ _ => Gateway.Done ok_head;
  Gateway.aread := fun _ _ _ => Gateway.Done "[]";
  Gateway.build_redirect_request := fun _ _ _ => Gateway.InvalidLocation "no location"
|}.

(** an upstream that closes the connection before it answers *)
Definition failing_client : Gateway.Client := {|
  Gateway.build_request := fun _ => None;
  Gateway.send_single_request := fun _ _ =>
    Gateway.Raised (Gateway.OtherException "Server disconnected without sending a response.");
  Gateway.aread := fun _ _ _ => Gateway.Done "";
  Gateway.build_redirect_request := fun _ _ _ => Gateway.InvalidLocation "no location"
|}.



(** a logging endpoint that answers 500, one that cannot be reached *)
Definition failing_endpoint (n : DiagnosticReportService.notification)
    : DiagnosticReportService.post_outcome :=
  DiagnosticReportService.Posted 500 "Internal Server Error".

Definition unreachable_endpoint (n : DiagnosticReportService.notification)
    : DiagnosticReportService.post_outcome :=
  DiagnosticReportService.ConnectError "Connection refused".

(** a database with an active doctor beside the accounts of
    [sample_db], and the tokens the issuer gives them *)
Definition clinic_db : list User :=
  (sample_db ++
   [ {| user_id := "USR-000003"; username := "doc"; email := "doc@ims.example";
        name := "Doc"; hashed_password := "bcrypt:stetho";
        user_role := DOCTOR; is_active := true |} ])%list.

Definition issued (login_name password : string) : jws :=
  match AuthService.login (sample_world []) default_settings clinic_db login_name password with
  | Return t => t
  | Raise _ => Garbled "Not enough segments"
  end.

Definition clinic_world : world :=
  sample_world [ ("admin.jwt", issued "admin" "admin#123");
                 ("root.jwt", issued "root" "s3cret");
                 ("pat.jwt", issued "pat" "hunter2");
                 ("doc.jwt", issued "doc" "stetho") ].

(** [w] when the clock reads [t] *)
Definition at_time (t : Z) (w : world) : world := {|
  now := t;
  py_int_of_str := py_int_of_str w;
  py_str_of_json := py_str_of_json w;
  py_repr_list := py_repr_list w;
  py_lower := py_lower w;
  py_latin1_error := py_latin1_error w;
  jws_of := jws_of w;
  checkpw := checkpw w
|}.

(** The request has no usable Authorization header: none at all, an
    empty one, or one that does not start with "Bearer ". *)
Definition lacks_bearer (request : Request) : bool :=
  match authorization request with
  | None => true
  | Some auth_header =>
      PyStr.falsy auth_header || negb (PyStr.startswith auth_header "Bearer ")
  end.

(** No character of [s] is white space. *)
Fixpoint no_space (s : string) : bool :=
  match s with
  | EmptyString => true
  | String c rest => negb (PyStr.is_space c) && no_space rest
  end.

(** a token whose role is written with a capital letter *)
Definition capital_claims : gmap string json :=
  <["iss" := JStr ISSUER]> (<["sub" := JStr "USR-000009"]>
    (<["role" := JStr "Doctor"]> (<["is_active" := JBool true]>
      (<["exp" := JInt 2000]> ∅)))).

Definition capital_world : world :=
  sample_world [("capital.jwt", signed default_settings capital_claims)].

(** patient-service's tables: two patients, a doctor and a cashier *)
Definition ward : PatientApi.database := {|
  PatientApi.patients :=
    [ {| PatientApi.patient_id := "PAT-000001"; PatientApi.patient_user_id := "USR-000002";
         PatientApi.date_of_birth := "1990-04-01"; PatientApi.conditions := None;
         PatientApi.created_at := "2025-01-01T00:00:00"; PatientApi.updated_at := None |};
      {| PatientApi.patient_id := "PAT-000002"; PatientApi.patient_user_id := "USR-000004";
         PatientApi.date_of_birth := "1985-11-23";
         PatientApi.conditions := Some ["asthma"];
         PatientApi.created_at := "2025-01-02T00:00:00"; PatientApi.updated_at := None |} ];
  PatientApi.users :=
    [ {| PatientApi.ur_user_id := "USR-000002"; PatientApi.ur_username := "pat";
         PatientApi.ur_email := "pat@ims.example"; PatientApi.ur_name := "Pat";
         PatientApi.ur_phone := None; PatientApi.ur_address := None;
         PatientApi.ur_user_role := "patient"; PatientApi.ur_is_active := false |};
      {| PatientApi.ur_user_id := "USR-000003"; PatientApi.ur_username := "doc";
         PatientApi.ur_email := "doc@ims.example"; PatientApi.ur_name := "Doc";
         PatientApi.ur_phone := None; PatientApi.ur_address := None;
         PatientApi.ur_user_role := "doctor"; PatientApi.ur_is_active := true |};
      {| PatientApi.ur_user_id := "USR-000004"; PatientApi.ur_username := "amy";
         PatientApi.ur_email := "amy@ims.example"; PatientApi.ur_name := "Amy";
         PatientApi.ur_phone := None; PatientApi.ur_address := None;
         PatientApi.ur_user_role := "patient"; PatientApi.ur_is_active := true |};
      {| PatientApi.ur_user_id := "USR-000005"; PatientApi.ur_username := "cash";
         PatientApi.ur_email := "cash@ims.example"; PatientApi.ur_name := "Cash";
         PatientApi.ur_phone := None; PatientApi.ur_address := None;
         PatientApi.ur_user_role := "cashier"; PatientApi.ur_is_active := true |} ]
|}.

(** * Properties *)

(** ** The JWT library model *)

Lemma first_failure_enabled (checks : list (bool * Jose.check)) (f : Jose.failure) :
  In (true, Some f) checks -> Jose.first_failure checks <> None.
Proof.
  induction checks as [|[enabled chk] rest IH]; simpl; [tauto|].
  intros [Heq | Hin].
  - injection Heq as -> ->. discriminate.
  - destruct (if enabled then chk else None); [discriminate | auto].
Qed.

Lemma validate_exp_past (w : world) (c : gmap string json) (v : json) (e : Z) :
  c !! "exp" = Some v -> Py.int w v = IntOk e -> e < now w ->
  Jose.validate_exp w c = Some (Jose.ClaimsError "Signature has expired.").
Proof.
  intros Hc Hv He. unfold Jose.validate_exp. rewrite Hc, Hv.
  destruct (Z.ltb_spec e (now w)); [reflexivity | lia].
Qed.

(** A token whose signature does not verify is never decoded when the
    signature is checked. *)
Lemma decode_bad_signature (w : world) (token key : string) (algs : list string)
    (o : Jose.options) :
  Jose.verify_signature o = true ->
  signature_verifies w key token = false ->
  exists msg, Jose.decode w token key algs o = Jose.JWTError msg.
Proof.
  intros Ho Hsig. unfold Jose.decode, signature_verifies in *.
  destruct (jws_of w token) as [why | alg signed_with b]; [eauto|].
  unfold Jose.verify_jws. rewrite Ho. simpl.
  destruct alg as [a|]; [|eauto].
  destruct (PyStr.falsy a); [eauto|].
  destruct (existsb (String.eqb a) algs); simpl; [|eauto].
  rewrite Hsig. simpl. eauto.
Qed.

(** An expired token is never decoded when the expiry is checked. *)
Lemma decode_expired (w : world) (token key : string) (algs : list string)
    (o : Jose.options) (c : gmap string json) :
  Jose.verify_exp o = true ->
  exp_in_the_past w token = true ->
  Jose.decode w token key algs o <> Jose.Decoded c.
Proof.
  intros Ho Hexp. unfold Jose.decode, exp_in_the_past, claims_of in *.
  destruct (jws_of w token) as [why | alg signed_with b]; [discriminate|].
  destruct (Jose.verify_jws key algs (Jose.verify_signature o) alg signed_with);
    [discriminate|].
  destruct b as [why | | c']; try discriminate.
  destruct (c' !! "exp") as [v|] eqn:Hc; [|discriminate].
  destruct (Py.int w v) as [e | |] eqn:Hv; try discriminate.
  apply Z.ltb_lt in Hexp.
  pose proof (validate_exp_past w c' v e Hc Hv Hexp) as Hval.
  destruct (Jose.validate_claims w o c') as [[msg|]|] eqn:Hf; try discriminate.
  exfalso. unfold Jose.validate_claims in Hf.
  eapply first_failure_enabled; [|exact Hf].
  rewrite Ho, Hval. simpl. auto.
Qed.

(** What is decoded is the payload the token carries, and its signature
    verified if the signature was checked. *)
Lemma decode_decoded (w : world) (token key : string) (algs : list string)
    (o : Jose.options) (c : gmap string json) :
  Jose.decode w token key algs o = Jose.Decoded c ->
  claims_of w token = Some c /\
  (Jose.verify_signature o = true -> signature_verifies w key token = true).
Proof.
  unfold Jose.decode, claims_of, signature_verifies.
  destruct (jws_of w token) as [why | alg signed_with b]; [discriminate|].
  unfold Jose.verify_jws.
  destruct (Jose.verify_signature o); simpl.
  - destruct alg as [a|]; [|discriminate].
    destruct (PyStr.falsy a); [discriminate|].
    destruct (existsb (String.eqb a) algs); simpl; [|discriminate].
    destruct (String.eqb signed_with key); simpl; [|discriminate].
    destruct b as [why | | c']; try discriminate.
    destruct (Jose.validate_claims w o c') as [[msg|]|]; try discriminate.
    intros [= ->]. auto.
  - destruct b as [why | | c']; try discriminate.
    destruct (Jose.validate_claims w o c') as [[msg|]|]; try discriminate.
    intros [= ->]. split; [reflexivity | discriminate].
Qed.

Lemma validate_nbf_messages (w : world) (c : gmap string json) (msg : string) :
  Jose.validate_nbf w c = Some (Jose.ClaimsError msg) ->
  msg = "The token is not yet valid (nbf)"
  \/ msg = "Not Before claim (nbf) must be an integer.".
Proof.
  unfold Jose.validate_nbf.
  destruct (c !! "nbf") as [v|]; [|discriminate].
  destruct (Py.int w v) as [nbf | |]; [destruct (now w <? nbf)|..];
    intros H; inversion H; auto.
Qed.

(** ** Validators with the manual issuer check
    (auth-service, user-service, medical-test-service) *)

(** The second attempt of these validators differs from the first by
    [verify_nbf] alone, and no [nbf] message mentions an issuer: it never
    decodes anything. *)
Lemma issuer_retry_never_decodes (w : world) (token key : string) (algs : list string)
    (msg : string) (c : gmap string json) :
  Jose.decode w token key algs AuthService.first_options = Jose.JWTError msg ->
  PyStr.contains "iss" (Py.lower w msg) || PyStr.contains "issuer" (Py.lower w msg) = true ->
  Jose.decode w token key algs AuthService.retry_options <> Jose.Decoded c.
Proof.
  unfold Jose.decode.
  destruct (jws_of w token) as [why | alg signed_with b]; [discriminate|].
  change (Jose.verify_signature AuthService.retry_options)
    with (Jose.verify_signature AuthService.first_options).
  destruct (Jose.verify_jws key algs _ alg signed_with); [discriminate|].
  destruct b as [why | | c']; try discriminate.
  unfold Jose.validate_claims. simpl.
  destruct (Jose.validate_nbf w c') as [[m|]|] eqn:Hnbf.
  - intros [= <-] Hiss. exfalso.
    destruct (validate_nbf_messages _ _ _ Hnbf) as [-> | ->];
      vm_compute in Hiss; discriminate.
  - discriminate.
  - intros H _. rewrite H. discriminate.
Qed.

(** The one way these validators accept a token. *)
Lemma auth_decode_access_token_some (w : world) (cfg : settings) (token : string)
    (p : gmap string json) :
  AuthService.decode_access_token w cfg token = Some p <->
  PyStr.falsy token = false
  /\ Jose.decode w token (SECRET_KEY cfg) [ALGORITHM cfg] AuthService.first_options
     = Jose.Decoded p
  /\ (Py.is_none (Py.get p "iss") = true \/ Py.eq_str (Py.get p "iss") ISSUER = true).
Proof.
  unfold AuthService.decode_access_token, ISSUER. split.
  - destruct (PyStr.falsy token); [discriminate|].
    destruct (Jose.decode w token _ _ AuthService.first_options) as [c | msg |] eqn:Hfirst.
    + destruct (Py.is_none (Py.get c "iss")) eqn:Hnone; simpl.
      * intros [= ->]. auto.
      * destruct (Py.eq_str (Py.get c "iss") "ims-auth-service") eqn:Heq; simpl;
          [|discriminate]. intros [= ->]. auto.
    + destruct (_ || _) eqn:Hiss; [|discriminate].
      destruct (Jose.decode w token _ _ AuthService.retry_options) as [c | |] eqn:Hretry;
        try discriminate.
      exfalso. eapply issuer_retry_never_decodes; eauto.
    + discriminate.
  - intros (-> & -> & [Hnone | Heq]).
    + rewrite Hnone. reflexivity.
    + rewrite Heq. rewrite andb_false_r. reflexivity.
Qed.

Lemma user_decode_access_token_eq :
  UserService.decode_access_token = AuthService.decode_access_token.
Proof. reflexivity. Qed.

Lemma medical_test_decode_access_token_eq :
  MedicalTestService.decode_access_token = AuthService.decode_access_token.
Proof. reflexivity. Qed.

(** ** Validators without an issuer check
    (patient-service, medical-staff-service, diagnostic-report-service) *)

Lemma patient_decode_access_token_some (w : world) (cfg : settings) (token : string)
    (p : gmap string json) :
  PatientService.decode_access_token w cfg token = Some p ->
  Jose.decode w token (SECRET_KEY cfg) [ALGORITHM cfg] PatientService.first_options
    = Jose.Decoded p
  \/ Jose.decode w token (SECRET_KEY cfg) [ALGORITHM cfg] PatientService.retry_options
    = Jose.Decoded p.
Proof.
  unfold PatientService.decode_access_token.
  destruct (PyStr.falsy token); [discriminate|].
  destruct (Jose.decode w token _ _ PatientService.first_options) as [c | msg |].
  - intros [= ->]. auto.
  - destruct (_ || _); [|discriminate].
    destruct (Jose.decode w token _ _ PatientService.retry_options) as [c | |];
      try discriminate.
    intros [= ->]. auto.
  - discriminate.
Qed.

Lemma patient_decode_access_token_first (w : world) (cfg : settings) (token : string)
    (p : gmap string json) :
  PyStr.falsy token = false ->
  Jose.decode w token (SECRET_KEY cfg) [ALGORITHM cfg] PatientService.first_options
    = Jose.Decoded p ->
  PatientService.decode_access_token w cfg token = Some p.
Proof.
  intros Hne Hdec. unfold PatientService.decode_access_token.
  rewrite Hne, Hdec. reflexivity.
Qed.

Lemma staff_decode_access_token_some (w : world) (cfg : settings) (token : string)
    (p : gmap string json) :
  MedicalStaffService.decode_access_token w cfg token = Some p <->
  Jose.decode w token (SECRET_KEY cfg) [ALGORITHM cfg] MedicalStaffService.decode_options
    = Jose.Decoded p.
Proof.
  unfold MedicalStaffService.decode_access_token.
  destruct (Jose.decode w token _ _ _); split; congruence.
Qed.

Lemma report_decode_access_token_eq :
  DiagnosticReportService.decode_access_token = MedicalStaffService.decode_access_token.
Proof. reflexivity. Qed.

(** A validator that returns a payload has seen a verifying signature and
    an expiry that is not in the past. *)
Lemma decoded_is_fresh (w : world) (token key : string) (algs : list string)
    (o : Jose.options) (c : gmap string json) :
  Jose.verify_signature o = true -> Jose.verify_exp o = true ->
  Jose.decode w token key algs o = Jose.Decoded c ->
  signature_verifies w key token = true /\ exp_in_the_past w token = false.
Proof.
  intros Hsig Hexp Hdec. split.
  - apply (decode_decoded _ _ _ _ _ _ Hdec). exact Hsig.
  - destruct (exp_in_the_past w token) eqn:He; [|reflexivity].
    exfalso. eapply decode_expired; eauto.
Qed.

Lemma not_fresh (key : string) (w : world) (token : string) :
  signature_verifies w key token = false \/ exp_in_the_past w token = true ->
  ~ (signature_verifies w key token = true /\ exp_in_the_past w token = false).
Proof. intros [H | H] [H1 H2]; congruence. Qed.

(** C4.  A token whose signature does not verify under the shared
    secret, or whose [exp] lies in the past when it is checked, is
    answered [None] by [decode_access_token], whatever else it carries:
    in auth-service and patient-service, and in the other validators
    alike. *)
Theorem decode_access_token_rejects_forged_or_expired
    (w : world) (cfg : settings) (token : string) :
  signature_verifies w (SECRET_KEY cfg) token = false
  \/ exp_in_the_past w token = true ->
  AuthService.decode_access_token w cfg token = None
  /\ PatientService.decode_access_token w cfg token = None
  /\ UserService.decode_access_token w cfg token = None
  /\ MedicalTestService.decode_access_token w cfg token = None
  /\ MedicalStaffService.decode_access_token w cfg token = None
  /\ DiagnosticReportService.decode_access_token w cfg token = None.
Proof.
  intros Hbad. apply (not_fresh (SECRET_KEY cfg)) in Hbad.
  rewrite user_decode_access_token_eq, medical_test_decode_access_token_eq,
    report_decode_access_token_eq.
  assert (Hauth : AuthService.decode_access_token w cfg token = None).
  { destruct (AuthService.decode_access_token w cfg token) as [p|] eqn:H; [|reflexivity].
    apply auth_decode_access_token_some in H as (_ & Hdec & _).
    exfalso. apply Hbad. eapply decoded_is_fresh; [| |exact Hdec]; reflexivity. }
  assert (Hstaff : MedicalStaffService.decode_access_token w cfg token = None).
  { destruct (MedicalStaffService.decode_access_token w cfg token) as [p|] eqn:H;
      [|reflexivity].
    apply staff_decode_access_token_some in H.
    exfalso. apply Hbad. eapply decoded_is_fresh; [| |exact H]; reflexivity. }
  repeat split; try assumption.
  destruct (PatientService.decode_access_token w cfg token) as [p|] eqn:H; [|reflexivity].
  exfalso. apply Hbad.
  apply patient_decode_access_token_some in H as [H | H];
    (eapply decoded_is_fresh; [| |exact H]; reflexivity).
Qed.

Lemma decode_access_token_rejects_forged_or_expired_witness :
  exp_in_the_past expired_world "expired.token" = true
  /\ AuthService.decode_access_token expired_world default_settings "expired.token" = None
  /\ PatientService.decode_access_token expired_world default_settings "expired.token" = None.
Proof.
  split; [vm_compute; reflexivity|].
  pose proof (decode_access_token_rejects_forged_or_expired
                expired_world default_settings "expired.token") as H.
  destruct H as (Ha & Hp & _); [right; vm_compute; reflexivity|].
  split; assumption.
Defined.


(** ** The issuer claim *)

Lemma mismatched_issuer_not_accepted (c : gmap string json) (v : json) :
  c !! "iss" = Some v -> v <> JNull -> v <> JStr ISSUER ->
  ~ (Py.is_none (Py.get c "iss") = true \/ Py.eq_str (Py.get c "iss") ISSUER = true).
Proof.
  intros Hc Hnull Hiss. unfold Py.get. rewrite Hc. simpl.
  intros [H | H].
  - destruct v; simpl in H; congruence.
  - destruct v; simpl in H; try discriminate.
    apply String.eqb_eq in H. congruence.
Qed.

Lemma absent_issuer_accepted (c : gmap string json) :
  c !! "iss" = None -> Py.is_none (Py.get c "iss") = true.
Proof. intros Hc. unfold Py.get. rewrite Hc. reflexivity. Qed.

(** C2, as the code has it.  The validators of auth-service,
    user-service and medical-test-service answer [None] to a token whose
    payload carries an [iss] that is neither null nor
    ["ims-auth-service"], and accept a token without [iss] that passes the
    library's checks.  The validators of patient-service,
    medical-staff-service and diagnostic-report-service never read [iss]:
    they accept every token that passes the library's checks, with a
    foreign issuer or with none. *)
Theorem issuer_checked_by_three_validators
    (w : world) (cfg : settings) (token : string) (c : gmap string json) :
  PyStr.falsy token = false ->
  claims_of w token = Some c ->
  (forall v, c !! "iss" = Some v -> v <> JNull -> v <> JStr ISSUER ->
     AuthService.decode_access_token w cfg token = None
     /\ UserService.decode_access_token w cfg token = None
     /\ MedicalTestService.decode_access_token w cfg token = None)
  /\ (c !! "iss" = None ->
      Jose.decode w token (SECRET_KEY cfg) [ALGORITHM cfg] AuthService.first_options
        = Jose.Decoded c ->
      AuthService.decode_access_token w cfg token = Some c
      /\ UserService.decode_access_token w cfg token = Some c
      /\ MedicalTestService.decode_access_token w cfg token = Some c)
  /\ (Jose.decode w token (SECRET_KEY cfg) [ALGORITHM cfg] PatientService.first_options
        = Jose.Decoded c ->
      PatientService.decode_access_token w cfg token = Some c)
  /\ (Jose.decode w token (SECRET_KEY cfg) [ALGORITHM cfg] MedicalStaffService.decode_options
        = Jose.Decoded c ->
      MedicalStaffService.decode_access_token w cfg token = Some c
      /\ DiagnosticReportService.decode_access_token w cfg token = Some c).
Proof.
  intros Hne Hclaims.
  rewrite user_decode_access_token_eq, medical_test_decode_access_token_eq,
    report_decode_access_token_eq.
  repeat split.
  1-3: destruct (AuthService.decode_access_token w cfg token) as [p|] eqn:Hdec;
       [exfalso | reflexivity];
       apply auth_decode_access_token_some in Hdec as (_ & Hlib & Hiss);
       apply decode_decoded in Hlib as [Hp _];
       assert (p = c) as -> by congruence;
       eapply mismatched_issuer_not_accepted; eauto.
  1-3: apply auth_decode_access_token_some; auto using absent_issuer_accepted.
  - now apply patient_decode_access_token_first.
  - now apply staff_decode_access_token_some.
  - now apply staff_decode_access_token_some.
Qed.

Lemma issuer_checked_by_three_validators_witness :
  AuthService.decode_access_token issuer_world default_settings "foreign.token" = None
  /\ AuthService.decode_access_token issuer_world default_settings "legacy.token"
     = Some legacy_claims
  /\ PatientService.decode_access_token issuer_world default_settings "foreign.token"
     = Some foreign_claims.
Proof.
  pose proof (issuer_checked_by_three_validators issuer_world default_settings
                "foreign.token" foreign_claims eq_refl eq_refl) as (Hf & _ & Hp & _).
  pose proof (issuer_checked_by_three_validators issuer_world default_settings
                "legacy.token" legacy_claims eq_refl eq_refl) as (_ & Hl & _).
  split; [|split].
  - apply (Hf (JStr "other-issuer")); [vm_compute; reflexivity | discriminate | discriminate].
  - apply Hl; vm_compute; reflexivity.
  - apply Hp. vm_compute. reflexivity.
Defined.

(** C2 as stated fails in patient-service: a token signed with the shared
    secret whose [iss] is not ["ims-auth-service"] is accepted. *)
Lemma patient_validator_accepts_foreign_issuer :
  signature_verifies issuer_world (SECRET_KEY default_settings) "foreign.token" = true
  /\ foreign_claims !! "iss" = Some (JStr "other-issuer")
  /\ JStr "other-issuer" <> JStr ISSUER
  /\ PatientService.decode_access_token issuer_world default_settings "foreign.token"
     = Some foreign_claims.
Proof.
  split; [vm_compute; reflexivity|].
  split; [vm_compute; reflexivity|].
  split; [discriminate|].
  vm_compute. reflexivity.
Qed.

(** ** The [sub] claim of a validated token *)

Lemma first_failure_none (checks : list (bool * Jose.check)) (chk : Jose.check) :
  Jose.first_failure checks = None -> In (true, chk) checks -> chk = None.
Proof.
  intros Hnone Hin. destruct chk as [f|]; [|reflexivity].
  exfalso. eapply first_failure_enabled; eauto.
Qed.

(** The library lets a [sub] through only if it is a string. *)
Lemma decoded_sub_is_str (w : world) (token key : string) (algs : list string)
    (o : Jose.options) (c : gmap string json) (v : json) :
  Jose.verify_sub o = true ->
  Jose.decode w token key algs o = Jose.Decoded c ->
  c !! "sub" = Some v -> Py.is_str v = true.
Proof.
  intros Ho Hdec Hsub. unfold Jose.decode in Hdec.
  destruct (jws_of w token) as [why | alg signed_with b]; [discriminate|].
  destruct (Jose.verify_jws _ _ _ _ _); [discriminate|].
  destruct b as [why | | c']; try discriminate.
  destruct (Jose.validate_claims w o c') as [[msg|]|] eqn:Hval; try discriminate.
  injection Hdec as ->.
  apply first_failure_none with (chk := Jose.validate_sub c) in Hval.
  - unfold Jose.validate_sub in Hval. rewrite Hsub in Hval.
    destruct (Py.is_str v); [reflexivity | discriminate].
  - rewrite Ho. simpl. auto 10.
Qed.

Lemma str_is_not_none (v : json) : Py.is_str v = true -> Py.is_none v = false.
Proof. destruct v; simpl; congruence. Qed.

Lemma patient_sub_is_str (w : world) (cfg : settings) (token : string)
    (p : gmap string json) (v : json) :
  PatientService.decode_access_token w cfg token = Some p ->
  p !! "sub" = Some v -> Py.is_str v = true.
Proof.
  intros Hdec Hsub.
  apply patient_decode_access_token_some in Hdec as [H | H];
    (eapply decoded_sub_is_str; [|exact H|exact Hsub]; reflexivity).
Qed.

(** ** Reading the token off the request (patient-service) *)

Lemma patient_token_of_challenge (request : Request) (credentials : option string)
    (token : string) (b b' : bool) :
  PatientService.token_of request credentials b = Return token ->
  PatientService.token_of request credentials b' = Return token.
Proof.
  unfold PatientService.token_of.
  destruct credentials as [c|]; [auto|].
  destruct (authorization request) as [auth_header|]; [|discriminate].
  destruct (_ || _); [discriminate | auto].
Qed.

(** C10.  A token that validates and carries no [is_active] claim is
    treated as active: in patient-service and in medical-test-service,
    [get_current_user_id] answers as it does in inactive-allowed mode, and
    neither it nor [require_role] raises the 403 of an inactive account. *)
Theorem missing_is_active_reads_as_active
    (w : world) (cfg : settings) (payload : gmap string json) :
  payload !! "is_active" = None ->
  (forall request credentials token allow_inactive allowed_roles,
     PatientService.token_of request credentials false = Return token ->
     PatientService.decode_access_token w cfg token = Some payload ->
     PatientService.get_current_user_id w cfg request credentials allow_inactive
       = PatientService.get_current_user_id w cfg request credentials true
     /\ PatientService.get_current_user_id w cfg request credentials allow_inactive
        <> Raise account_inactive
     /\ PatientService.require_role allowed_roles w cfg request credentials
        <> Raise account_inactive)
  /\ (forall request token allow_inactive allowed_roles,
     MedicalTestService.get_token_from_request request = Some token ->
     MedicalTestService.decode_access_token w cfg token = Some payload ->
     MedicalTestService.get_current_user_id w cfg request allow_inactive
       = MedicalTestService.get_current_user_id w cfg request true
     /\ MedicalTestService.get_current_user_id w cfg request allow_inactive
        <> Raise account_inactive
     /\ MedicalTestService.require_role allowed_roles w cfg request
        <> Raise account_inactive).
Proof.
  intros Hactive. split.
  - intros request credentials token allow_inactive allowed_roles Htok Hdec.
    unfold PatientService.get_current_user_id, PatientService.require_role.
    rewrite (patient_token_of_challenge _ _ _ _ true Htok), Htok. simpl.
    rewrite Hdec. unfold Py.get_default. rewrite Hactive. simpl.
    rewrite andb_false_r.
    repeat split.
    + destruct (Py.is_none (Py.get payload "sub")); discriminate.
    + destruct (json_in _ _); simpl; [|discriminate].
      destruct (_ && _); discriminate.
  - intros request token allow_inactive allowed_roles Htok Hdec.
    unfold MedicalTestService.get_current_user_id, MedicalTestService.require_role.
    rewrite Htok, Hdec. unfold Py.get_default. rewrite Hactive. simpl.
    rewrite andb_false_r.
    repeat split.
    + destruct (Py.is_none (Py.get payload "sub")); discriminate.
    + match goal with |- (if negb ?b then _ else _) <> _ => destruct b end; simpl.
      * destruct (Py.is_none (Py.get payload "sub")); discriminate.
      * intros H. injection H as H. discriminate.
Qed.

Lemma missing_is_active_reads_as_active_witness :
  PatientService.get_current_user_id guard_world default_settings
    (bearer "legacy.token") None false = Return (JStr "PAT-000012")
  /\ PatientService.require_role [RoleEnum DOCTOR] guard_world default_settings
       (bearer "legacy.token") None <> Raise account_inactive
  /\ MedicalTestService.require_role ["patient"] guard_world default_settings
       (bearer "legacy.token") <> Raise account_inactive.
Proof.
  pose proof (missing_is_active_reads_as_active guard_world default_settings
                legacy_claims eq_refl) as [Hp Hm].
  destruct (Hp (bearer "legacy.token") None "legacy.token" false [RoleEnum DOCTOR]
              eq_refl eq_refl) as (Heq & _ & Hrole).
  destruct (Hm (bearer "legacy.token") "legacy.token" false ["patient"]
              eq_refl eq_refl) as (_ & _ & Hrole').
  split; [rewrite Heq; vm_compute; reflexivity|].
  split; assumption.
Defined.

(** ** The inactive-account check *)

(** C7, as the code has it.  For a token that validates in
    patient-service and carries [is_active = false] and a [sub] claim,
    [get_current_user_id] raises the 403 of an inactive account unless
    it is called with [allow_inactive], in which case it returns the
    subject; [get_current_user] does not read [is_active] and returns the
    subject in both modes. *)
Theorem inactive_token_in_patient_service
    (w : world) (cfg : settings) (request : Request) (credentials : option string)
    (token : string) (payload : gmap string json) (sub : json) :
  PatientService.token_of request credentials true = Return token ->
  PatientService.decode_access_token w cfg token = Some payload ->
  payload !! "is_active" = Some (JBool false) ->
  payload !! "sub" = Some sub ->
  PatientService.get_current_user_id w cfg request credentials false
    = Raise account_inactive
  /\ PatientService.get_current_user_id w cfg request credentials true = Return sub
  /\ (forall allow_inactive,
        PatientService.get_current_user w cfg request credentials allow_inactive
          = Return (UserId sub)).
Proof.
  intros Htok Hdec Hactive Hsub.
  pose proof (str_is_not_none _ (patient_sub_is_str _ _ _ _ _ Hdec Hsub)) as Hnone.
  unfold PatientService.get_current_user_id, PatientService.get_current_user.
  rewrite Htok. simpl. rewrite Hdec.
  unfold Py.get_default, Py.get. rewrite Hactive, Hsub. simpl. rewrite Hnone.
  rewrite andb_false_r. auto.
Qed.

Lemma inactive_token_in_patient_service_witness :
  PatientService.get_current_user_id guard_world default_settings
    (bearer "inactive.token") None false = Raise account_inactive
  /\ PatientService.get_current_user_id guard_world default_settings
       (bearer "inactive.token") None true = Return (JStr "PAT-000012").
Proof.
  pose proof (inactive_token_in_patient_service guard_world default_settings
                (bearer "inactive.token") None "inactive.token" inactive_claims
                (JStr "PAT-000012") eq_refl eq_refl eq_refl eq_refl) as (H1 & H2 & _).
  split; assumption.
Defined.

(** C7 as stated fails in patient-service: [get_current_user] accepts a
    deactivated caller without [allow_inactive], and
    [get_current_user_id] answers 401, not 403, to a deactivated
    administrator, whose token has no [sub]. *)
Lemma inactive_token_not_always_403 :
  PatientService.decode_access_token guard_world default_settings "inactive.token"
    = Some inactive_claims
  /\ inactive_claims !! "is_active" = Some (JBool false)
  /\ PatientService.get_current_user guard_world default_settings
       (bearer "inactive.token") None false = Return (UserId (JStr "PAT-000012"))
  /\ PatientService.decode_access_token guard_world default_settings "inactive.admin.token"
     = Some inactive_admin_claims
  /\ inactive_admin_claims !! "is_active" = Some (JBool false)
  /\ PatientService.get_current_user_id guard_world default_settings
       (bearer "inactive.admin.token") None false = Raise (could_not_validate false)
  /\ status_code (could_not_validate false) = 401.
Proof. repeat split; vm_compute; reflexivity. Qed.


(** ** The administrator's token *)

Lemma user_role_listed (allowed_roles : list role_arg) :
  existsb (UserService.role_eq ADMIN) allowed_roles = allows_admin allowed_roles.
Proof.
  unfold allows_admin. induction allowed_roles as [|[r|s] rest IH]; simpl;
    [reflexivity | rewrite IH; reflexivity..].
Qed.

(** C1, as the code has it.  Take a token that validates and carries
    [role = admin] and no [sub].  In patient-service and
    medical-staff-service [require_role] raises the 403 of an inactive
    account when the token's [is_active] reads as false; otherwise it
    returns the admin dictionary when the allowed roles name the
    administrator and raises the 403 of the role check when they do not.
    In user-service [is_active] is not read from the token: the admin
    dictionary when the allowed roles name the administrator, the 403 of
    the role check otherwise.  In medical-test-service, whose role check
    ignores case, [require_role] never accepts the token: the 403 of an
    inactive account when [is_active] reads as false, otherwise 401 for
    the missing [sub] when the allowed roles name the administrator and
    the 403 of the role check when they do not.  In
    diagnostic-report-service [require_role] has no admin dictionary:
    the 403 of an inactive account when [is_active] reads as false,
    otherwise the null subject when the allowed roles name the
    administrator and the 403 of the role check when they do not. *)
Theorem admin_token_under_require_role
    (w : world) (cfg : settings) (payload : gmap string json) :
  payload !! "role" = Some (JStr "admin") ->
  payload !! "sub" = None ->
  (forall request credentials token allowed_roles,
     PatientService.token_of request credentials false = Return token ->
     PatientService.decode_access_token w cfg token = Some payload ->
     PatientService.require_role allowed_roles w cfg request credentials
       = if negb (reads_active payload) then Raise account_inactive
         else if allows_admin allowed_roles then Return AdminDict
         else Raise not_enough_permissions)
  /\ (forall credentials allowed_roles,
     MedicalStaffService.decode_access_token w cfg credentials = Some payload ->
     MedicalStaffService.require_role allowed_roles w cfg credentials
       = if negb (reads_active payload) then Raise account_inactive
         else if allows_admin allowed_roles then Return AdminDict
         else Raise not_enough_permissions)
  /\ (forall db credentials allowed_roles allow_inactive,
     UserService.decode_access_token w cfg credentials = Some payload ->
     UserService.require_role allowed_roles w cfg db credentials allow_inactive
       = if allows_admin allowed_roles then Return UserService.AdminUser
         else Raise not_enough_permissions)
  /\ (forall request token allowed_roles,
     MedicalTestService.get_token_from_request request = Some token ->
     MedicalTestService.decode_access_token w cfg token = Some payload ->
     MedicalTestService.require_role allowed_roles w cfg request
       = if negb (reads_active payload) then Raise account_inactive
         else if existsb (String.eqb "admin") (map (Py.lower w) allowed_roles)
         then Raise (could_not_validate false)
         else Raise (MedicalTestService.not_enough_permissions_for w
                       (map (Py.lower w) allowed_roles) (JStr "admin")))
  /\ (forall credentials allowed_roles,
     DiagnosticReportService.decode_access_token w cfg credentials = Some payload ->
     DiagnosticReportService.require_role allowed_roles w cfg credentials
       = if negb (reads_active payload) then Raise account_inactive
         else if allows_admin allowed_roles then Return JNull
         else Raise not_enough_permissions).
Proof.
  intros Hrole Hsub. unfold reads_active. split; [|split; [|split; [|split]]].
  - intros request credentials token allowed_roles Htok Hdec.
    unfold PatientService.require_role. rewrite Htok. simpl. rewrite Hdec.
    destruct (Py.truthy _); [|reflexivity].
    unfold Py.get. rewrite Hrole, Hsub. simpl. unfold json_in, allows_admin. simpl.
    destruct (existsb _ _); reflexivity.
  - intros credentials allowed_roles Hdec.
    unfold MedicalStaffService.require_role. rewrite Hdec.
    destruct (Py.truthy _); [|reflexivity].
    unfold Py.get. rewrite Hrole, Hsub. simpl. unfold json_in, allows_admin. simpl.
    destruct (existsb _ _); reflexivity.
  - intros db credentials allowed_roles allow_inactive Hdec.
    unfold UserService.require_role, UserService.get_current_user. rewrite Hdec.
    unfold Py.get. rewrite Hrole, Hsub. simpl. rewrite user_role_listed.
    destruct (allows_admin allowed_roles); reflexivity.
  - intros request token allowed_roles Htok Hdec.
    unfold MedicalTestService.require_role. rewrite Htok, Hdec.
    destruct (Py.truthy _); [|reflexivity].
    unfold Py.get. rewrite Hrole, Hsub. simpl.
    destruct (existsb _ _); reflexivity.
  - intros credentials allowed_roles Hdec.
    unfold DiagnosticReportService.require_role. rewrite Hdec.
    destruct (Py.truthy _); [|reflexivity].
    unfold Py.get. rewrite Hrole, Hsub. simpl. unfold json_in, allows_admin. simpl.
    destruct (existsb _ _); reflexivity.
Qed.

Lemma admin_token_under_require_role_witness :
  PatientService.require_role [RoleEnum ADMIN] guard_world default_settings
    (bearer "admin.token") None = Return AdminDict
  /\ PatientService.require_role [RoleEnum DOCTOR; RoleStr "cashier"] guard_world
       default_settings (bearer "admin.token") None = Raise not_enough_permissions
  /\ UserService.require_role [RoleEnum ADMIN] guard_world default_settings []
       "admin.token" false = Return UserService.AdminUser
  /\ MedicalTestService.require_role ["admin"] guard_world default_settings
       (bearer "admin.token") = Raise (could_not_validate false).
Proof.
  pose proof (admin_token_under_require_role guard_world default_settings admin_claims
                eq_refl eq_refl) as (Hp & _ & Hu & Hm & _).
  split; [|split; [|split]].
  - apply (Hp (bearer "admin.token") None "admin.token" [RoleEnum ADMIN]); reflexivity.
  - apply (Hp (bearer "admin.token") None "admin.token"
             [RoleEnum DOCTOR; RoleStr "cashier"]); reflexivity.
  - apply (Hu [] "admin.token" [RoleEnum ADMIN] false); reflexivity.
  - apply (Hm (bearer "admin.token") "admin.token" ["admin"]); reflexivity.
Defined.

(** C1 as stated fails: medical-test-service answers 401 to the
    administrator's token under [require_role("admin")], and
    patient-service answers 403 to an administrator's token whose
    [is_active] is false. *)
Lemma admin_token_not_always_accepted :
  MedicalTestService.decode_access_token guard_world default_settings "admin.token"
    = Some admin_claims
  /\ admin_claims !! "role" = Some (JStr "admin")
  /\ admin_claims !! "sub" = None
  /\ MedicalTestService.require_role ["admin"] guard_world default_settings
       (bearer "admin.token") = Raise (could_not_validate false)
  /\ PatientService.decode_access_token guard_world default_settings "inactive.admin.token"
     = Some inactive_admin_claims
  /\ inactive_admin_claims !! "role" = Some (JStr "admin")
  /\ inactive_admin_claims !! "sub" = None
  /\ PatientService.require_role [RoleEnum ADMIN] guard_world default_settings
       (bearer "inactive.admin.token") None = Raise account_inactive.
Proof. repeat split; vm_compute; reflexivity. Qed.


(** ** Token issuance *)

Lemma create_access_token_for_user_claims (w : world) (cfg : settings)
    (ud : AuthService.user_data) :
  exists c,
    AuthService.create_access_token_for_user w cfg ud = signed cfg c
    /\ c !! "role" = Some (JStr (value (AuthService.ud_user_role ud)))
    /\ c !! "is_active" = Some (JBool (AuthService.ud_is_active ud))
    /\ c !! "exp" = Some (JInt (now w + 60 * ACCESS_TOKEN_EXPIRE_MINUTES cfg))
    /\ c !! "iat" = Some (JInt (now w))
    /\ c !! "iss" = Some (JStr ISSUER)
    /\ c !! "sub" =
         if negb (AuthService.ud_is_admin ud) && AuthService.truthy_id (AuthService.ud_user_id ud)
         then Some (JStr (default "" (AuthService.ud_user_id ud)))
         else None.
Proof.
  unfold AuthService.create_access_token_for_user, AuthService.create_access_token,
    AuthService.jwt_encode, signed, ISSUER.
  eexists. split; [reflexivity|].
  assert (Hdelta : (if ACCESS_TOKEN_EXPIRE_MINUTES cfg =? 0
                    then ACCESS_TOKEN_EXPIRE_MINUTES cfg
                    else ACCESS_TOKEN_EXPIRE_MINUTES cfg)
                   = ACCESS_TOKEN_EXPIRE_MINUTES cfg)
    by (destruct (_ =? 0); reflexivity).
  rewrite Hdelta.
  destruct (negb (AuthService.ud_is_admin ud) && AuthService.truthy_id (AuthService.ud_user_id ud));
    repeat split; simplify_map_eq; reflexivity.
Qed.

(** C8, as the code has it.  The configured admin pair is issued a token
    with [role = admin], [is_active = true] and no [sub].  Other
    credentials fail with 401, and no token, when the account is unknown
    or the password does not verify; otherwise the token carries the
    account's business identifier (when it is not empty) as [sub], its
    role and its [is_active].  Every token expires at [now] plus the
    configured minutes and names the issuer ["ims-auth-service"].  When
    no stored identifier is empty, a token without [sub] has
    [role = admin]. *)
Theorem token_issuance
    (w : world) (cfg : settings) (db : list User) (login_name password : string) :
  (is_admin_pair cfg login_name password = true ->
   exists c,
     AuthService.login w cfg db login_name password = Return (signed cfg c)
     /\ c !! "role" = Some (JStr "admin")
     /\ c !! "is_active" = Some (JBool true)
     /\ c !! "sub" = None
     /\ c !! "exp" = Some (JInt (now w + 60 * ACCESS_TOKEN_EXPIRE_MINUTES cfg))
     /\ c !! "iss" = Some (JStr ISSUER))
  /\ (is_admin_pair cfg login_name password = false ->
      (AuthService.query_by_username db login_name = None
       \/ exists user, AuthService.query_by_username db login_name = Some user
            /\ AuthService.verify_password w password (hashed_password user) = false) ->
      AuthService.login w cfg db login_name password = Raise AuthService.incorrect_credentials
      /\ status_code AuthService.incorrect_credentials = 401)
  /\ (is_admin_pair cfg login_name password = false ->
      forall user,
        AuthService.query_by_username db login_name = Some user ->
        AuthService.verify_password w password (hashed_password user) = true ->
        user_id user <> "" ->
        exists c,
          AuthService.login w cfg db login_name password = Return (signed cfg c)
          /\ c !! "sub" = Some (JStr (user_id user))
          /\ c !! "role" = Some (JStr (value (user_role user)))
          /\ c !! "is_active" = Some (JBool (is_active user))
          /\ c !! "exp" = Some (JInt (now w + 60 * ACCESS_TOKEN_EXPIRE_MINUTES cfg))
          /\ c !! "iss" = Some (JStr ISSUER))
  /\ ((forall row, In row db -> user_id row <> "") ->
      forall t c,
        AuthService.login w cfg db login_name password = Return t ->
        payload_of t = Some c ->
        c !! "sub" = None -> c !! "role" = Some (JStr "admin")).
Proof.
  unfold AuthService.login, AuthService.authenticate_user, is_admin_pair.
  split; [|split; [|split]].
  - intros ->.
    destruct (create_access_token_for_user_claims w cfg
      {| AuthService.ud_user_id := None; AuthService.ud_username := ADMIN_USERNAME cfg;
         AuthService.ud_email := None; AuthService.ud_name := "Admin";
         AuthService.ud_user_role := ADMIN; AuthService.ud_is_active := true;
         AuthService.ud_is_admin := true |}) as (c & Hc & Hr & Ha & He & _ & Hi & Hs).
    exists c. rewrite Hc. auto 10.
  - intros -> [-> | (user & -> & ->)]; auto.
  - intros -> user -> -> Hid. simpl.
    match goal with |- context [AuthService.create_access_token_for_user w cfg ?ud] =>
      destruct (create_access_token_for_user_claims w cfg ud)
        as (c & Hc & Hr & Ha & He & _ & Hi & Hs) end.
    exists c. rewrite Hc. simpl in *.
    destruct (user_id user) eqn:Hu; [congruence|]. simpl in Hs. auto 10.
  - intros Hids t c Hlogin Hpay Hsub.
    destruct (_ && _).
    + injection Hlogin as <-.
      match type of Hpay with context [AuthService.create_access_token_for_user w cfg ?ud] =>
        destruct (create_access_token_for_user_claims w cfg ud)
          as (c' & Hc & Hr & _) end.
      rewrite Hc in Hpay. injection Hpay as <-. exact Hr.
    + destruct (AuthService.query_by_username db login_name) as [user|] eqn:Hq;
        [|discriminate].
      destruct (negb _); [discriminate|]. simpl in Hlogin. injection Hlogin as <-.
      match type of Hpay with context [AuthService.create_access_token_for_user w cfg ?ud] =>
        destruct (create_access_token_for_user_claims w cfg ud)
          as (c' & Hc & _ & _ & _ & _ & _ & Hs) end.
      rewrite Hc in Hpay. injection Hpay as <-. exfalso.
      apply find_some in Hq as [Hin _]. apply Hids in Hin.
      simpl in Hs. destruct (user_id user); [congruence|].
      simpl in Hs. congruence.
Qed.

Lemma token_issuance_witness :
  (exists c,
     AuthService.login guard_world default_settings sample_db "admin" "admin#123"
       = Return (signed default_settings c)
     /\ c !! "role" = Some (JStr "admin")
     /\ c !! "is_active" = Some (JBool true)
     /\ c !! "sub" = None
     /\ c !! "exp" = Some (JInt 2800)
     /\ c !! "iss" = Some (JStr ISSUER))
  /\ AuthService.login guard_world default_settings sample_db "pat" "wrong"
     = Raise AuthService.incorrect_credentials
  /\ (exists c,
     AuthService.login guard_world default_settings sample_db "pat" "hunter2"
       = Return (signed default_settings c)
     /\ c !! "sub" = Some (JStr "USR-000002")
     /\ c !! "role" = Some (JStr "patient")
     /\ c !! "is_active" = Some (JBool false)
     /\ c !! "exp" = Some (JInt 2800)
     /\ c !! "iss" = Some (JStr ISSUER)).
Proof.
  split; [|split].
  - apply (token_issuance guard_world default_settings sample_db "admin" "admin#123").
    reflexivity.
  - apply (token_issuance guard_world default_settings sample_db "pat" "wrong");
      [reflexivity|].
    right. eexists. split; reflexivity.
  - refine (proj1 (proj2 (proj2
      (token_issuance guard_world default_settings sample_db "pat" "hunter2")))
      eq_refl _ eq_refl eq_refl _).
    discriminate.
Defined.

(** C8 as stated fails in its last clause: an account of the database
    whose role is admin is issued a token with [role = admin] and a
    [sub]. *)
Lemma database_admin_has_a_subject :
  is_admin_pair default_settings "root" "s3cret" = false
  /\ exists c,
       AuthService.login guard_world default_settings sample_db "root" "s3cret"
         = Return (signed default_settings c)
       /\ c !! "role" = Some (JStr "admin")
       /\ c !! "sub" = Some (JStr "USR-000001").
Proof.
  split; [reflexivity|].
  eexists. split; [reflexivity|]. split; vm_compute; reflexivity.
Qed.


(** ** The routing table *)

Lemma insert_by_len_In (k x : string) (l : list string) :
  In x (Gateway.insert_by_len k l) <-> x = k \/ In x l.
Proof.
  induction l as [|h rest IH]; simpl.
  - intuition.
  - destruct (Nat.leb _ _); simpl; [intuition|]. rewrite IH. intuition.
Qed.

Lemma sorted_by_len_desc_In (x : string) (keys : list string) :
  In x (Gateway.sorted_by_len_desc keys) <-> In x keys.
Proof.
  induction keys as [|k rest IH]; simpl; [tauto|].
  rewrite insert_by_len_In, IH. intuition.
Qed.

Lemma insert_by_len_sorted (k : string) (l : list string) :
  StronglySorted longer_first l ->
  StronglySorted longer_first (Gateway.insert_by_len k l).
Proof.
  induction 1 as [|h rest Hs IH Hh]; simpl.
  - constructor; constructor.
  - destruct (Nat.leb_spec (String.length h) (String.length k)) as [Hle | Hlt].
    + constructor; [constructor; assumption|].
      constructor; [exact Hle|].
      rewrite List.Forall_forall in *. intros y Hy. specialize (Hh y Hy).
      unfold longer_first in *. lia.
    + constructor; [exact IH|].
      rewrite List.Forall_forall in *. intros y Hy.
      apply insert_by_len_In in Hy as [-> | Hy]; [unfold longer_first; lia | auto].
Qed.

Lemma sorted_by_len_desc_sorted (keys : list string) :
  StronglySorted longer_first (Gateway.sorted_by_len_desc keys).
Proof.
  induction keys as [|k rest IH]; simpl; [constructor|].
  apply insert_by_len_sorted, IH.
Qed.

(** In a list sorted longest first, the first match is a longest match. *)
Lemma find_in_sorted (P : string -> bool) (l : list string) (k : string) :
  StronglySorted longer_first l ->
  List.find P l = Some k ->
  forall k', In k' l -> P k' = true -> (String.length k' <= String.length k)%nat.
Proof.
  induction 1 as [|h rest Hs IH Hh]; simpl; [discriminate|].
  destruct (P h) eqn:Hp.
  - intros [= <-] k' [<- | Hin] _; [lia|].
    rewrite List.Forall_forall in Hh. apply (Hh k' Hin).
  - intros Hfind k' [<- | Hin] Hk'; [congruence | eauto].
Qed.

Lemma find_finds (P : string -> bool) (l : list string) (x : string) :
  In x l -> P x = true -> exists k, List.find P l = Some k.
Proof.
  induction l as [|h rest IH]; simpl; [tauto|].
  intros [<- | Hin] Hx.
  - rewrite Hx. eauto.
  - destruct (P h); eauto.
Qed.

Lemma get_of_key (k : string) (m : list (string * string)) :
  In k (map fst m) -> exists v, Gateway.get k m = Some v.
Proof.
  unfold Gateway.get. induction m as [|[k' v'] rest IH]; simpl; [tauto|].
  intros [<- | Hin].
  - rewrite String.eqb_refl. simpl. eauto.
  - destruct (String.eqb k' k); simpl; eauto.
Qed.

(** Two prefixes of one string that have the same length are equal. *)
Lemma prefixes_of_equal_length (s a b : string) :
  String.prefix a s = true -> String.prefix b s = true ->
  String.length a = String.length b -> a = b.
Proof.
  revert a b. induction s as [|c s IH]; intros [|ca a] [|cb b]; simpl;
    try discriminate; try reflexivity.
  destruct (Ascii.ascii_dec ca c) as [->|]; [|discriminate].
  destruct (Ascii.ascii_dec cb c) as [->|]; [|discriminate].
  intros Ha Hb [= Hlen]. f_equal. auto.
Qed.

(** Of two distinct prefixes of one string, one is strictly shorter. *)
Lemma distinct_prefixes_differ_in_length (s a b : string) :
  String.prefix a s = true -> String.prefix b s = true -> a <> b ->
  (String.length a < String.length b)%nat \/ (String.length b < String.length a)%nat.
Proof.
  intros Ha Hb Hne.
  destruct (Nat.lt_trichotomy (String.length a) (String.length b)) as [H | [H | H]]; auto.
  exfalso. apply Hne. eapply prefixes_of_equal_length; eauto.
Qed.

(** C3.  Over any routing table: when two configured prefixes both
    begin the normalized path, [find_target_service] resolves the path to
    the backend of a configured prefix that is at least as long as the
    longer of the two and as every other matching prefix, hence never to
    the shorter one, and to the longer one itself when nothing longer
    matches; and whenever it resolves a path, the forward path is the
    whole normalized path. *)
Theorem find_target_service_longest_prefix
    (mappings : list (string * string)) (path : string) :
  (forall p1 p2,
     In p1 (map fst mappings) -> In p2 (map fst mappings) ->
     PyStr.startswith (Gateway.normalize path) p1 = true ->
     PyStr.startswith (Gateway.normalize path) p2 = true ->
     (String.length p1 < String.length p2)%nat ->
     exists k base_url,
       Gateway.find_target_service_in mappings path
         = Some (base_url, Gateway.normalize path)
       /\ Gateway.get k mappings = Some base_url
       /\ In k (map fst mappings)
       /\ PyStr.startswith (Gateway.normalize path) k = true
       /\ (String.length p2 <= String.length k)%nat
       /\ k <> p1
       /\ (forall k', In k' (map fst mappings) ->
             PyStr.startswith (Gateway.normalize path) k' = true ->
             (String.length k' <= String.length k)%nat)
       /\ ((forall k', In k' (map fst mappings) ->
             PyStr.startswith (Gateway.normalize path) k' = true ->
             (String.length k' <= String.length p2)%nat) -> k = p2))
  /\ (forall base_url forward_path,
        Gateway.find_target_service_in mappings path = Some (base_url, forward_path) ->
        forward_path = Gateway.normalize path).
Proof.
  split.
  - intros p1 p2 Hin1 Hin2 Hpre1 Hpre2 Hlen.
    unfold Gateway.find_target_service_in.
    set (sorted_paths := Gateway.sorted_by_len_desc (map fst mappings)).
    set (matches := fun service_path => PyStr.startswith (Gateway.normalize path) service_path).
    assert (Hsorted : StronglySorted longer_first sorted_paths)
      by apply sorted_by_len_desc_sorted.
    destruct (find_finds matches sorted_paths p2) as [k Hk];
      [apply sorted_by_len_desc_In; exact Hin2 | exact Hpre2 |].
    rewrite Hk.
    pose proof (find_in_sorted matches sorted_paths k Hsorted Hk) as Hmax.
    apply find_some in Hk as [Hkin Hkpre].
    apply (proj1 (sorted_by_len_desc_In k (map fst mappings))) in Hkin.
    destruct (get_of_key k mappings Hkin) as [base_url Hget]. rewrite Hget.
    assert (Hp2 : (String.length p2 <= String.length k)%nat)
      by (apply Hmax; [apply sorted_by_len_desc_In; exact Hin2 | exact Hpre2]).
    exists k, base_url. repeat split; auto.
    + intros ->. lia.
    + intros k' Hin' Hpre'. apply Hmax; [apply sorted_by_len_desc_In; exact Hin' | exact Hpre'].
    + intros Hlongest. specialize (Hlongest k Hkin Hkpre).
      apply (prefixes_of_equal_length (Gateway.normalize path)); [exact Hkpre | exact Hpre2 | lia].
  - intros base_url forward_path. unfold Gateway.find_target_service_in.
    destruct (List.find _ _) as [service_path|]; [|discriminate].
    destruct (Gateway.get service_path mappings); [|discriminate].
    intros [= _ <-]. reflexivity.
Qed.

Lemma find_target_service_longest_prefix_witness :
  Gateway.find_target_service_in nested_mappings "api/v1/medical-tests/7"
    = Some ("http://medical:5004", "/api/v1/medical-tests/7")
  /\ exists k base_url,
       Gateway.find_target_service_in nested_mappings "api/v1/users"
         = Some (base_url, "/api/v1/users")
       /\ Gateway.get k nested_mappings = Some base_url
       /\ (String.length "/api/v1" <= String.length k)%nat
       /\ k <> "/api".
Proof.
  split; [reflexivity|].
  destruct (proj1 (find_target_service_longest_prefix nested_mappings "api/v1/users")
              "/api" "/api/v1") as (k & base_url & H1 & H2 & _ & _ & H5 & H6 & _ & _).
  - simpl. auto.
  - simpl. auto.
  - reflexivity.
  - reflexivity.
  - simpl. lia.
  - exists k, base_url. auto.
Defined.


(** ** The catch-all route handler *)

Lemma normalize_idempotent (path : string) :
  Gateway.normalize (Gateway.normalize path) = Gateway.normalize path.
Proof.
  unfold Gateway.normalize, PyStr.startswith.
  destruct (String.prefix "/" path) eqn:H; cbn [negb]; [rewrite H; reflexivity|].
  change (String.prefix "/" ("/" ++ path)) with (String.prefix "" path).
  destruct path; reflexivity.
Qed.

Lemma find_none_forall (P : string -> bool) (l : list string) :
  (forall x, In x l -> P x = false) -> List.find P l = None.
Proof.
  induction l as [|h rest IH]; simpl; [reflexivity|].
  intros H. rewrite (H h) by auto. auto.
Qed.

Lemma find_target_service_none (mappings : list (string * string)) (path : string) :
  (forall p, In p (map fst mappings) ->
     PyStr.startswith (Gateway.normalize path) p = false) ->
  Gateway.find_target_service_in mappings path = None.
Proof.
  intros H. unfold Gateway.find_target_service_in.
  rewrite find_none_forall; [reflexivity|].
  intros x Hx. apply H, sorted_by_len_desc_In, Hx.
Qed.

Lemma not_answered_locally (path : string) :
  answered_locally path = false ->
  String.eqb path "" || String.eqb path "/" = false /\ String.eqb path "health" = false.
Proof.
  unfold answered_locally. intros H. apply orb_false_elim in H. exact H.
Qed.

(** C5.  When no configured prefix begins the normalized path, no
    exchange with an upstream is attempted, and for a path the gateway
    routes (every path but [""], ["/"] and ["health"], which it answers
    itself before routing) the router raises 404.  When a routed path
    resolves, the router calls the client once, with redirects
    followed, and when that call raises, a timeout yields 504, a
    connection failure 503 and any other exception 500 with the reason
    in the detail. *)
Theorem gateway_router_failures
    (w : world) (client : Gateway.Client)
    (request : Gateway.InboundRequest) (path : string) :
  ((forall p, In p (map fst Gateway.SERVICE_MAPPINGS) ->
      PyStr.startswith (Gateway.normalize path) p = false) ->
   fst (Gateway.gateway_router w client request path) = []
   /\ (answered_locally path = false ->
       snd (Gateway.gateway_router w client request path)
         = Raise (Gateway.gateway_exception 404
                    ("Route not found: " ++ Gateway.normalize path))))
  /\ (answered_locally path = false ->
      forall target_url forward_path,
      Gateway.find_target_service (Gateway.normalize path)
        = Some (target_url, forward_path) ->
      exists call,
        Gateway.up_url call = target_url ++ forward_path
        /\ fst (Gateway.gateway_router w client request path)
           = fst (Gateway.client_request client call true)
        /\ (forall msg,
              snd (Gateway.client_request client call true)
                = Gateway.Raised (Gateway.TimeoutException msg) ->
              snd (Gateway.gateway_router w client request path)
                = Raise (Gateway.gateway_exception 504 "Gateway timeout"))
        /\ (forall msg,
              snd (Gateway.client_request client call true)
                = Gateway.Raised (Gateway.ConnectError msg) ->
              snd (Gateway.gateway_router w client request path)
                = Raise (Gateway.gateway_exception 503 "Service unavailable"))
        /\ (forall msg,
              snd (Gateway.client_request client call true)
                = Gateway.Raised (Gateway.OtherException msg) ->
              snd (Gateway.gateway_router w client request path)
                = Raise (Gateway.gateway_exception 500 ("Gateway error: " ++ msg)))).
Proof.
  split.
  - intros Hnone.
    assert (Hfind : Gateway.find_target_service (Gateway.normalize path) = None).
    { unfold Gateway.find_target_service.
      apply find_target_service_none. rewrite normalize_idempotent. exact Hnone. }
    unfold Gateway.gateway_router, answered_locally.
    destruct (String.eqb path "" || String.eqb path "/"); [split; [reflexivity | discriminate]|].
    destruct (String.eqb path "health"); [split; [reflexivity | discriminate]|].
    fold (Gateway.normalize path). rewrite Hfind. split; reflexivity.
  - intros Hlocal. apply not_answered_locally in Hlocal as [Hroot Hhealth].
    unfold Gateway.gateway_router. rewrite Hroot, Hhealth.
    fold (Gateway.normalize path).
    intros target_url forward_path ->. unfold Gateway.proxy_request.
    match goal with
    | |- context [Gateway.client_request client ?c true] => exists c
    end.
    split; [reflexivity|].
    destruct (Gateway.client_request client _ true) as [sent outcome]. simpl.
    split; [reflexivity|].
    split; [|split]; intros msg ->; reflexivity.
Qed.

Lemma gateway_router_failures_witness :
  Gateway.gateway_router (sample_world []) failing_client tagged_request
    "api/v1/unknown-thing"
    = ([], Raise (Gateway.gateway_exception 404 "Route not found: /api/v1/unknown-thing"))
  /\ snd (Gateway.gateway_router (sample_world []) failing_client tagged_request
            "api/v1/patients/PAT-000001")
     = Raise (Gateway.gateway_exception 500
                "Gateway error: Server disconnected without sending a response.").
Proof.
  split.
  - destruct (proj1 (gateway_router_failures (sample_world []) failing_client
                       tagged_request "api/v1/unknown-thing")) as [Hsent H404].
    + intros p Hp. simpl in Hp.
      repeat (destruct Hp as [<- | Hp]; [reflexivity|]). destruct Hp.
    + rewrite (surjective_pairing (Gateway.gateway_router _ _ _ _)).
      rewrite Hsent, (H404 eq_refl). reflexivity.
  - destruct (proj2 (gateway_router_failures (sample_world []) failing_client
                       tagged_request "api/v1/patients/PAT-000001") eq_refl
                "http://patient-service:5003" "/api/v1/patients/PAT-000001" eq_refl)
      as (call & _ & _ & _ & _ & H500).
    apply (H500 "Server disconnected without sending a response.").
    destruct call. reflexivity.
Defined.

(** ** The proxy *)

(** C6 at a request whose query string gives [tag] twice: the proxy
    receives [tag=a] and [tag=b] and sends upstream [tag=b] only, the
    one value a dictionary keeps for the name.  The answer it returns
    has the upstream's status, body and [content-type], and a
    [content-length] the response object computes anew. *)
Lemma repeated_query_parameter_is_collapsed :
  Gateway.query_params tagged_request = [("tag", "a"); ("tag", "b")]
  /\ exists sent answer,
       Gateway.gateway_router (sample_world []) ok_client tagged_request
         "api/v1/patients" = ([sent], Return (Gateway.Relayed answer))
       /\ Gateway.up_params sent = [("tag", "b")]
       /\ Gateway.up_params sent <> Gateway.query_params tagged_request
       /\ Gateway.response_status_code answer = 200
       /\ Gateway.content answer = "[]"
       /\ Gateway.raw_headers answer
          = [("content-type", "application/json"); ("content-length", "2")].
Proof.
  split; [reflexivity|]. eexists. eexists. split; [reflexivity|].
  split; [reflexivity|]. split; [discriminate|].
  split; [reflexivity|]. split; reflexivity.
Qed.


(** ** The fire-and-forget notifier *)

Lemma log_workflow_action_async_returns (w : world) (cfg : settings)
    (post : DiagnosticReportService.notification -> DiagnosticReportService.post_outcome)
    (user_id : json) (action : string) (entity_type relevant_id : option string) :
  fst (DiagnosticReportService.log_workflow_action_async w cfg post
         user_id action entity_type relevant_id) = DiagnosticReportService.Returned.
Proof.
  unfold DiagnosticReportService.log_workflow_action_async.
  destruct (DiagnosticReportService.post_and_check _ _ _) as [[|e] printed]; reflexivity.
Qed.

(** C9.  [log_workflow_action_async] returns normally whatever the
    notification call does: a status other than 200 and 201, a timeout, a
    connection error or any other exception; it prints nothing exactly
    when the call was answered 200 or 201.  The response of the request
    that queued the notification, status code and body, is the one the
    endpoint produced, whatever the notification's outcome. *)
Theorem notifier_failures_are_absorbed (w : world) (cfg : settings)
    (post : DiagnosticReportService.notification -> DiagnosticReportService.post_outcome) :
  (forall user_id action entity_type relevant_id,
     fst (DiagnosticReportService.log_workflow_action_async w cfg post
            user_id action entity_type relevant_id) = DiagnosticReportService.Returned
     /\ (snd (DiagnosticReportService.log_workflow_action_async w cfg post
                user_id action entity_type relevant_id) = [] <->
         exists status text,
           post {| DiagnosticReportService.n_url :=
                     API_GATEWAY_URL cfg ++ "/api/v1/workflow/logs";
                   DiagnosticReportService.n_user_id := user_id;
                   DiagnosticReportService.n_action := action;
                   DiagnosticReportService.n_entity_type := entity_type;
                   DiagnosticReportService.n_relevant_id := relevant_id |}
             = DiagnosticReportService.Posted status text
           /\ (status = 200 \/ status = 201)))
  /\ (forall (A : Type)
        (handled : DiagnosticReportService.http_response A * list DiagnosticReportService.task)
        (post' : DiagnosticReportService.notification -> DiagnosticReportService.post_outcome),
     fst (DiagnosticReportService.respond_then_run w cfg post handled) = fst handled
     /\ fst (DiagnosticReportService.respond_then_run w cfg post' handled)
        = fst (DiagnosticReportService.respond_then_run w cfg post handled)
     /\ Forall (fun done => fst done = DiagnosticReportService.Returned)
          (snd (DiagnosticReportService.respond_then_run w cfg post handled)))
  /\ (forall (Report : Type) (report_id : Report -> string) current_user_id new_report,
     let response :=
       fst (DiagnosticReportService.respond_then_run w cfg post
              (DiagnosticReportService.create_report report_id current_user_id new_report)) in
     DiagnosticReportService.r_status_code response = 201
     /\ DiagnosticReportService.r_body response = new_report).
Proof.
  split; [|split].
  - intros user_id action entity_type relevant_id.
    split; [apply log_workflow_action_async_returns|].
    unfold DiagnosticReportService.log_workflow_action_async,
      DiagnosticReportService.post_and_check.
    destruct (post _) as [status text | e | e | e]; simpl.
    + destruct (Z.eqb_spec status 200) as [-> | H200]; simpl.
      * split; [intros _; eauto | reflexivity].
      * destruct (Z.eqb_spec status 201) as [-> | H201]; simpl.
        -- split; [intros _; eauto | reflexivity].
        -- split; [discriminate|]. intros (s & t & [= <- <-] & [H | H]); congruence.
    + split; [discriminate|]. intros (s & t & H & _). discriminate.
    + split; [discriminate|]. intros (s & t & H & _). discriminate.
    + split; [discriminate|]. intros (s & t & H & _). discriminate.
  - intros A handled post'. unfold DiagnosticReportService.respond_then_run. simpl.
    split; [reflexivity|]. split; [reflexivity|].
    apply Forall_forall. intros done Hin. apply list_elem_of_In in Hin.
    apply in_map_iff in Hin as (t & <- & _).
    apply log_workflow_action_async_returns.
  - intros Report report_id current_user_id new_report. simpl. auto.
Qed.

Lemma notifier_failures_are_absorbed_witness :
  fst (DiagnosticReportService.log_workflow_action_async guard_world default_settings
         failing_endpoint (JStr "USR-000007") "Create Report" (Some "REPORT")
         (Some "REP-000001"))
    = DiagnosticReportService.Returned
  /\ fst (DiagnosticReportService.log_workflow_action_async guard_world default_settings
            unreachable_endpoint (JStr "USR-000007") "Create Report" (Some "REPORT")
            (Some "REP-000001"))
     = DiagnosticReportService.Returned
  /\ fst (DiagnosticReportService.respond_then_run guard_world default_settings
            failing_endpoint
            (DiagnosticReportService.create_report (fun r : string => r)
               (JStr "USR-000007") "REP-000001"))
     = {| DiagnosticReportService.r_status_code := 201;
          DiagnosticReportService.r_body := "REP-000001" |}.
Proof.
  split; [|split].
  - apply (notifier_failures_are_absorbed guard_world default_settings failing_endpoint).
  - apply (notifier_failures_are_absorbed guard_world default_settings unreachable_endpoint).
  - exact (proj1 (proj1 (proj2 (notifier_failures_are_absorbed guard_world
                                  default_settings failing_endpoint))
                    string
                    (DiagnosticReportService.create_report (fun r : string => r)
                       (JStr "USR-000007") "REP-000001")
                    unreachable_endpoint)).
Defined.

(** * Further properties of the code *)

(** ** Issued tokens *)

(** The claims of a token made by [create_access_token_for_user]: no
    entry beside [role], [is_active], [sub], [exp], [iat] and [iss]. *)
Lemma issued_claims_only (w : world) (cfg : settings) (ud : AuthService.user_data)
    (c : gmap string json) (k : string) :
  AuthService.create_access_token_for_user w cfg ud = signed cfg c ->
  ~ In k ["role"; "is_active"; "sub"; "exp"; "iat"; "iss"] ->
  c !! k = None.
Proof.
  unfold AuthService.create_access_token_for_user, AuthService.create_access_token,
    AuthService.jwt_encode, signed.
  intros [= <-] Hk. simpl in Hk.
  destruct (negb _ && _);
    rewrite !lookup_insert_ne by (intros Heq; apply Hk; rewrite <- Heq; auto 10);
    apply lookup_empty.
Qed.

Lemma decode_signed (w : world) (cfg : settings) (token : string)
    (c : gmap string json) (o : Jose.options) :
  PyStr.falsy (ALGORITHM cfg) = false ->
  jws_of w token = signed cfg c ->
  Jose.validate_claims w o c = None ->
  Jose.decode w token (SECRET_KEY cfg) [ALGORITHM cfg] o = Jose.Decoded c.
Proof.
  intros Halg Htok Hval. unfold Jose.decode. rewrite Htok. unfold signed.
  unfold Jose.verify_jws. rewrite Halg. simpl.
  rewrite !String.eqb_refl. simpl. rewrite Hval.
  destruct (Jose.verify_signature o); reflexivity.
Qed.

(** Claims that pass every check of the library, whatever the options. *)
Lemma validate_claims_plain (w : world) (o : Jose.options) (c : gmap string json)
    (iat exp : Z) :
  c !! "iat" = Some (JInt iat) ->
  c !! "exp" = Some (JInt exp) -> now w <= exp ->
  c !! "nbf" = None -> c !! "aud" = None -> c !! "jti" = None -> c !! "at_hash" = None ->
  (c !! "sub" = None \/ exists s, c !! "sub" = Some (JStr s)) ->
  Jose.validate_claims w o c = None.
Proof.
  intros Hiat Hexp Hfresh Hnbf Haud Hjti Hhash Hsub.
  unfold Jose.validate_claims, Jose.validate_iat, Jose.validate_nbf, Jose.validate_exp,
    Jose.validate_aud, Jose.validate_iss, Jose.validate_sub, Jose.validate_jti,
    Jose.validate_at_hash.
  rewrite Hiat, Hexp, Hnbf, Haud, Hjti, Hhash. simpl.
  destruct (Z.ltb_spec exp (now w)); [lia|].
  destruct Hsub as [-> | [s ->]]; simpl;
    destruct (Jose.verify_iat o), (Jose.verify_nbf o), (Jose.verify_exp o),
      (Jose.verify_aud o), (Jose.verify_iss o), (Jose.verify_sub o),
      (Jose.verify_jti o), (Jose.verify_at_hash o); reflexivity.
Qed.

(** A token issued when the clock read [now issued_at] passes the
    library's checks as long as the clock has not passed its [exp]. *)
Lemma issued_claims_validate (issued_at w : world) (cfg : settings)
    (ud : AuthService.user_data) (c : gmap string json) (o : Jose.options) :
  now w <= now issued_at + 60 * ACCESS_TOKEN_EXPIRE_MINUTES cfg ->
  AuthService.create_access_token_for_user issued_at cfg ud = signed cfg c ->
  Jose.validate_claims w o c = None.
Proof.
  intros Hfresh Hc.
  destruct (create_access_token_for_user_claims issued_at cfg ud)
    as (c' & Hc' & _ & _ & Hexp & Hiat & _ & Hsub).
  assert (c' = c) as -> by (unfold signed in *; congruence).
  eapply validate_claims_plain; eauto.
  - eapply issued_claims_only; [exact Hc | simpl; intuition discriminate].
  - eapply issued_claims_only; [exact Hc | simpl; intuition discriminate].
  - eapply issued_claims_only; [exact Hc | simpl; intuition discriminate].
  - eapply issued_claims_only; [exact Hc | simpl; intuition discriminate].
  - rewrite Hsub. destruct (negb _ && _); eauto.
Qed.

Lemma issued_token_library_decodes (issued_at w : world) (cfg : settings)
    (ud : AuthService.user_data) (token : string) (c : gmap string json)
    (o : Jose.options) :
  PyStr.falsy (ALGORITHM cfg) = false ->
  now w <= now issued_at + 60 * ACCESS_TOKEN_EXPIRE_MINUTES cfg ->
  jws_of w token = AuthService.create_access_token_for_user issued_at cfg ud ->
  AuthService.create_access_token_for_user issued_at cfg ud = signed cfg c ->
  Jose.decode w token (SECRET_KEY cfg) [ALGORITHM cfg] o = Jose.Decoded c.
Proof.
  intros Halg Hfresh Hjws Hc. rewrite Hc in Hjws.
  apply decode_signed; [exact Halg | exact Hjws |].
  eapply issued_claims_validate; eauto.
Qed.

Lemma issued_token_auth_decodes (issued_at w : world) (cfg : settings)
    (ud : AuthService.user_data) (token : string) (c : gmap string json) :
  PyStr.falsy token = false ->
  PyStr.falsy (ALGORITHM cfg) = false ->
  now w <= now issued_at + 60 * ACCESS_TOKEN_EXPIRE_MINUTES cfg ->
  jws_of w token = AuthService.create_access_token_for_user issued_at cfg ud ->
  AuthService.create_access_token_for_user issued_at cfg ud = signed cfg c ->
  AuthService.decode_access_token w cfg token = Some c.
Proof.
  intros Htoken Halg Hfresh Hjws Hc.
  destruct (create_access_token_for_user_claims issued_at cfg ud)
    as (c' & Hc' & _ & _ & _ & _ & Hiss & _).
  assert (c' = c) as -> by (unfold signed in *; congruence).
  apply auth_decode_access_token_some. split; [exact Htoken|].
  split; [eapply issued_token_library_decodes; eauto|].
  right. unfold Py.get. rewrite Hiss. reflexivity.
Qed.

Lemma issued_token_patient_decodes (issued_at w : world) (cfg : settings)
    (ud : AuthService.user_data) (token : string) (c : gmap string json) :
  PyStr.falsy token = false ->
  PyStr.falsy (ALGORITHM cfg) = false ->
  now w <= now issued_at + 60 * ACCESS_TOKEN_EXPIRE_MINUTES cfg ->
  jws_of w token = AuthService.create_access_token_for_user issued_at cfg ud ->
  AuthService.create_access_token_for_user issued_at cfg ud = signed cfg c ->
  PatientService.decode_access_token w cfg token = Some c.
Proof.
  intros Htoken Halg Hfresh Hjws Hc.
  apply patient_decode_access_token_first; [exact Htoken|].
  eapply issued_token_library_decodes; eauto.
Qed.

Lemma issued_token_staff_decodes (issued_at w : world) (cfg : settings)
    (ud : AuthService.user_data) (token : string) (c : gmap string json) :
  PyStr.falsy (ALGORITHM cfg) = false ->
  now w <= now issued_at + 60 * ACCESS_TOKEN_EXPIRE_MINUTES cfg ->
  jws_of w token = AuthService.create_access_token_for_user issued_at cfg ud ->
  AuthService.create_access_token_for_user issued_at cfg ud = signed cfg c ->
  MedicalStaffService.decode_access_token w cfg token = Some c.
Proof.
  intros Halg Hfresh Hjws Hc.
  apply staff_decode_access_token_some.
  eapply issued_token_library_decodes; eauto.
Qed.

(** Once the clock has passed the [exp] of an issued token, its [exp]
    lies in the past. *)
Lemma issued_token_expires (issued_at w : world) (cfg : settings)
    (ud : AuthService.user_data) (token : string) :
  now issued_at + 60 * ACCESS_TOKEN_EXPIRE_MINUTES cfg < now w ->
  jws_of w token = AuthService.create_access_token_for_user issued_at cfg ud ->
  exp_in_the_past w token = true.
Proof.
  intros Hlate Hjws.
  destruct (create_access_token_for_user_claims issued_at cfg ud)
    as (c & Hc & _ & _ & Hexp & _).
  unfold exp_in_the_past, claims_of. rewrite Hjws, Hc. unfold signed.
  rewrite Hexp. simpl. apply Z.ltb_lt. exact Hlate.
Qed.

(** No validator returns the claims of a token whose [exp] lies in the
    past. *)
Lemma past_exp_is_refused (w : world) (cfg : settings) (token : string) :
  exp_in_the_past w token = true ->
  AuthService.decode_access_token w cfg token = None
  /\ PatientService.decode_access_token w cfg token = None
  /\ MedicalStaffService.decode_access_token w cfg token = None.
Proof.
  intros Hpast.
  assert (Hfresh : forall o c, Jose.verify_exp o = true ->
            Jose.decode w token (SECRET_KEY cfg) [ALGORITHM cfg] o <> Jose.Decoded c)
    by (intros o c Ho; apply decode_expired; assumption).
  split; [|split].
  - destruct (AuthService.decode_access_token w cfg token) as [p|] eqn:H; [|reflexivity].
    apply auth_decode_access_token_some in H as (_ & Hdec & _).
    exfalso. apply (Hfresh AuthService.first_options p); [reflexivity | exact Hdec].
  - destruct (PatientService.decode_access_token w cfg token) as [p|] eqn:H; [|reflexivity].
    exfalso. apply patient_decode_access_token_some in H as [H | H].
    + apply (Hfresh PatientService.first_options p); [reflexivity | exact H].
    + apply (Hfresh PatientService.retry_options p); [reflexivity | exact H].
  - destruct (MedicalStaffService.decode_access_token w cfg token) as [p|] eqn:H;
      [|reflexivity].
    apply staff_decode_access_token_some in H.
    exfalso. apply (Hfresh MedicalStaffService.decode_options p); [reflexivity | exact H].
Qed.

(** A token made by [create_access_token_for_user] when the clock read
    [now issued_at], presented when it reads [now w]: up to its [exp],
    [now issued_at] plus the configured minutes, the validator of every
    service returns the claims the token was given; after its [exp]
    every validator refuses it.  The token string is not empty and the
    configuration names an algorithm. *)
Theorem issued_token_validates
    (issued_at w : world) (cfg : settings) (ud : AuthService.user_data) (token : string) :
  PyStr.falsy token = false ->
  PyStr.falsy (ALGORITHM cfg) = false ->
  jws_of w token = AuthService.create_access_token_for_user issued_at cfg ud ->
  exists c,
    AuthService.create_access_token_for_user issued_at cfg ud = signed cfg c
    /\ (now w <= now issued_at + 60 * ACCESS_TOKEN_EXPIRE_MINUTES cfg ->
        AuthService.decode_access_token w cfg token = Some c
        /\ UserService.decode_access_token w cfg token = Some c
        /\ MedicalTestService.decode_access_token w cfg token = Some c
        /\ PatientService.decode_access_token w cfg token = Some c
        /\ MedicalStaffService.decode_access_token w cfg token = Some c
        /\ DiagnosticReportService.decode_access_token w cfg token = Some c)
    /\ (now issued_at + 60 * ACCESS_TOKEN_EXPIRE_MINUTES cfg < now w ->
        AuthService.decode_access_token w cfg token = None
        /\ UserService.decode_access_token w cfg token = None
        /\ MedicalTestService.decode_access_token w cfg token = None
        /\ PatientService.decode_access_token w cfg token = None
        /\ MedicalStaffService.decode_access_token w cfg token = None
        /\ DiagnosticReportService.decode_access_token w cfg token = None).
Proof.
  intros Htoken Halg Hjws.
  destruct (create_access_token_for_user_claims issued_at cfg ud) as (c & Hc & _).
  exists c. split; [exact Hc|].
  rewrite user_decode_access_token_eq, medical_test_decode_access_token_eq,
    report_decode_access_token_eq.
  split.
  - intros Hfresh.
    pose proof (issued_token_auth_decodes issued_at w cfg ud token c
                  Htoken Halg Hfresh Hjws Hc) as Hauth.
    pose proof (issued_token_staff_decodes issued_at w cfg ud token c
                  Halg Hfresh Hjws Hc) as Hstaff.
    repeat (split; [assumption|]).
    split; [|split; assumption].
    eapply issued_token_patient_decodes; eauto.
  - intros Hlate.
    pose proof (issued_token_expires issued_at w cfg ud token Hlate Hjws) as Hpast.
    destruct (past_exp_is_refused w cfg token Hpast) as (Hauth & Hpatient & Hstaff).
    repeat (split; [assumption|]). assumption.
Qed.

Lemma issued_token_validates_witness :
  exists c,
    PatientService.decode_access_token (at_time 2500 clinic_world) default_settings "doc.jwt"
      = Some c
    /\ AuthService.decode_access_token (at_time 2500 clinic_world) default_settings "doc.jwt"
       = Some c
    /\ AuthService.decode_access_token (at_time 2801 clinic_world) default_settings "doc.jwt"
       = None.
Proof.
  pose (doc := {| AuthService.ud_user_id := Some "USR-000003";
                  AuthService.ud_username := "doc";
                  AuthService.ud_email := Some "doc@ims.example";
                  AuthService.ud_name := "Doc";
                  AuthService.ud_user_role := DOCTOR;
                  AuthService.ud_is_active := true;
                  AuthService.ud_is_admin := false |}).
  destruct (issued_token_validates (sample_world []) (at_time 2500 clinic_world)
              default_settings doc "doc.jwt" eq_refl eq_refl eq_refl)
    as (c & Hc & Hvalid & _).
  destruct (issued_token_validates (sample_world []) (at_time 2801 clinic_world)
              default_settings doc "doc.jwt" eq_refl eq_refl eq_refl)
    as (c' & _ & _ & Hexpired).
  destruct Hvalid as (Hauth & _ & _ & Hpatient & _); [simpl; lia|].
  destruct Hexpired as (Hnone & _); [simpl; lia|].
  exists c. split; [exact Hpatient|]. split; [exact Hauth | exact Hnone].
Defined.

(** ** The login endpoint *)

Lemma login_token (w : world) (cfg : settings) (db : list User)
    (login_name password : string) :
  match fst (AuthApi.login w cfg db login_name password) with
  | Return r => AuthService.login w cfg db login_name password
                = Return (AuthApi.access_token r)
  | Raise e => AuthService.login w cfg db login_name password = Raise e
  end.
Proof.
  unfold AuthApi.login, AuthService.login.
  destruct (AuthService.authenticate_user w cfg db login_name password); reflexivity.
Qed.

(** The body of a successful login agrees with the token it carries:
    same role, same [is_active]; when the body names a non-empty
    [user_id] for a caller that is not the administrator the token's
    [sub] is that identifier, and the token has no other [sub]: a [sub]
    is the body's non-empty [user_id] of a caller that is not the
    administrator.  With a [sub] one "User Login" notification is queued
    for that subject; without, none is queued.  A failed login queues
    nothing. *)
Theorem login_response_agrees_with_token
    (w : world) (cfg : settings) (db : list User) (login_name password : string) :
  (forall r tasks,
     AuthApi.login w cfg db login_name password = (Return r, tasks) ->
     exists c,
       AuthApi.access_token r = signed cfg c
       /\ AuthApi.token_type r = "bearer"
       /\ c !! "role" = Some (JStr (AuthApi.lu_role (AuthApi.user r)))
       /\ c !! "is_active" = Some (JBool (AuthApi.lu_is_active (AuthApi.user r)))
       /\ (c !! "sub" = None -> tasks = [])
       /\ (forall id,
             AuthApi.lu_user_id (AuthApi.user r) = Some id -> id <> "" ->
             AuthApi.lu_is_admin (AuthApi.user r) = false ->
             c !! "sub" = Some (JStr id))
       /\ (forall v, c !! "sub" = Some v ->
             exists id,
               v = JStr id /\ id <> ""
               /\ AuthApi.lu_user_id (AuthApi.user r) = Some id
               /\ AuthApi.lu_is_admin (AuthApi.user r) = false
               /\ tasks = [ {| AuthApi.t_user_id := id;
                               AuthApi.t_action := "User Login";
                               AuthApi.t_entity_type := "USER";
                               AuthApi.t_relevant_id := id |} ]))
  /\ (forall e tasks,
        AuthApi.login w cfg db login_name password = (Raise e, tasks) ->
        e = AuthService.incorrect_credentials /\ tasks = []).
Proof.
  unfold AuthApi.login. split.
  - intros r tasks.
    destruct (AuthService.authenticate_user w cfg db login_name password) as [ud|] eqn:Hauth;
      [|discriminate].
    intros [= <- <-]. simpl.
    destruct (create_access_token_for_user_claims w cfg ud)
      as (c & Hc & Hrole & Hactive & _ & _ & _ & Hsub).
    exists c. split; [exact Hc|]. split; [reflexivity|].
    split; [exact Hrole|]. split; [exact Hactive|].
    unfold AuthService.authenticate_user in Hauth.
    destruct (_ && _) in Hauth.
    + injection Hauth as <-. simpl in *. split; [reflexivity|].
      split; [intros id _ _ Hadmin; discriminate Hadmin|].
      intros v Hv. congruence.
    + destruct (AuthService.query_by_username db login_name) as [u|]; [|discriminate].
      destruct (negb _); [discriminate|]. injection Hauth as <-. simpl in *.
      destruct (user_id u) as [|ch rest] eqn:Hid; simpl in *.
      * split; [reflexivity|].
        split; [intros id [= <-] Hne; contradiction Hne; reflexivity|].
        intros v Hv. congruence.
      * split; [congruence|].
        split; [intros id [= <-] _ _; exact Hsub|].
        intros v Hv. rewrite Hsub in Hv. injection Hv as <-.
        exists (String ch rest). repeat split; congruence.
  - intros e tasks.
    destruct (AuthService.authenticate_user w cfg db login_name password); [discriminate|].
    intros [= <- <-]. auto.
Qed.

Lemma login_response_agrees_with_token_witness :
  exists r c,
    AuthApi.login clinic_world default_settings clinic_db "doc" "stetho"
      = (Return r, [ {| AuthApi.t_user_id := "USR-000003";
                        AuthApi.t_action := "User Login";
                        AuthApi.t_entity_type := "USER";
                        AuthApi.t_relevant_id := "USR-000003" |} ])
    /\ AuthApi.access_token r = signed default_settings c
    /\ c !! "role" = Some (JStr "doctor")
    /\ AuthApi.lu_role (AuthApi.user r) = "doctor".
Proof.
  destruct (AuthApi.login clinic_world default_settings clinic_db "doc" "stetho")
    as [[r|e] tasks] eqn:Hlogin; [|discriminate Hlogin].
  destruct (proj1 (login_response_agrees_with_token clinic_world default_settings
                     clinic_db "doc" "stetho") r tasks Hlogin)
    as (c & Hc & _ & Hrole & _).
  exists r, c. injection Hlogin as <- <-.
  split; [reflexivity|]. split; [exact Hc|]. split; [exact Hrole | reflexivity].
Defined.

(** An empty password, or an empty stored hash, never authenticates an
    account of the database, whatever the hash comparison would say. *)
Theorem empty_password_never_verifies
    (w : world) (cfg : settings) (db : list User) (login_name password : string) :
  is_admin_pair cfg login_name password = false ->
  (password = ""
   \/ forall user, AuthService.query_by_username db login_name = Some user ->
                   hashed_password user = "") ->
  AuthApi.login w cfg db login_name password
    = (Raise AuthService.incorrect_credentials, []).
Proof.
  unfold is_admin_pair, AuthApi.login, AuthService.authenticate_user,
    AuthService.verify_password.
  intros -> Hempty.
  destruct (AuthService.query_by_username db login_name) as [user|]; [|reflexivity].
  destruct Hempty as [-> | Hhash]; [reflexivity|].
  rewrite (Hhash user eq_refl). rewrite orb_true_r. reflexivity.
Qed.

Lemma empty_password_never_verifies_witness :
  AuthApi.login
    {| now := 0; py_int_of_str := fun _ => None; py_str_of_json := fun _ => "";
       py_repr_list := fun _ => ""; py_lower := fun s => s;
       py_latin1_error := fun _ => None; jws_of := fun _ => Garbled "";
       checkpw := fun _ _ => true |}
    default_settings clinic_db "doc" ""
  = (Raise AuthService.incorrect_credentials, []).
Proof.
  apply empty_password_never_verifies; [reflexivity | left; reflexivity].
Defined.

Lemma query_by_user_id_unique (db : list User) (u : User) :
  List.NoDup (map user_id db) -> In u db ->
  UserService.query_by_user_id db (JStr (user_id u)) = Some u.
Proof.
  unfold UserService.query_by_user_id.
  induction db as [|row rest IH]; simpl; [tauto|].
  intros Hnd Hin. inversion Hnd as [|? ? Hfresh Hnd']; subst.
  destruct Hin as [-> | Hin].
  - rewrite String.eqb_refl. reflexivity.
  - destruct (String.eqb_spec (user_id u) (user_id row)) as [Heq | Hne].
    + exfalso. apply Hfresh. rewrite <- Heq. apply in_map, Hin.
    + apply IH; assumption.
Qed.

(** Login when the clock reads [now issued_at], then [GET /me] with the
    issued token when it reads [now w], not past the token's [exp]; the
    users table is the same.  When business identifiers are unique and
    not empty, the token string is not empty and the configuration names
    an algorithm, [/me] answers with the identity of the login response:
    same [user_id], email, name, role and [is_active]; the username is
    the account's, and the literal "admin" for the administrator. *)
Theorem login_then_me
    (issued_at w : world) (cfg : settings) (db : list User)
    (login_name password token : string)
    (r : AuthApi.login_response) (tasks : list AuthApi.task) :
  List.NoDup (map user_id db) ->
  (forall row, In row db -> user_id row <> "") ->
  PyStr.falsy token = false ->
  PyStr.falsy (ALGORITHM cfg) = false ->
  AuthApi.login issued_at cfg db login_name password = (Return r, tasks) ->
  jws_of w token = AuthApi.access_token r ->
  now w <= now issued_at + 60 * ACCESS_TOKEN_EXPIRE_MINUTES cfg ->
  exists info,
    AuthApi.me w cfg db token = Return info
    /\ AuthApi.ui_user_id info = AuthApi.lu_user_id (AuthApi.user r)
    /\ AuthApi.ui_email info = AuthApi.lu_email (AuthApi.user r)
    /\ AuthApi.ui_name info = AuthApi.lu_name (AuthApi.user r)
    /\ AuthApi.ui_role info = AuthApi.lu_role (AuthApi.user r)
    /\ AuthApi.ui_is_active info = AuthApi.lu_is_active (AuthApi.user r)
    /\ AuthApi.ui_username info
       = if AuthApi.lu_is_admin (AuthApi.user r) then "admin"
         else AuthApi.lu_username (AuthApi.user r).
Proof.
  intros Hnd Hids Htoken Halg Hlogin Hjws Hfresh.
  unfold AuthApi.login in Hlogin.
  destruct (AuthService.authenticate_user issued_at cfg db login_name password)
    as [ud|] eqn:Hauth; [|discriminate].
  injection Hlogin as <- <-. simpl in Hjws. simpl.
  destruct (create_access_token_for_user_claims issued_at cfg ud) as (c & Hc & _).
  pose proof (issued_token_auth_decodes issued_at w cfg ud token c
                Htoken Halg Hfresh Hjws Hc) as Hdec.
  destruct (create_access_token_for_user_claims issued_at cfg ud)
    as (c' & Hc' & Hrole & _ & _ & _ & _ & Hsub).
  assert (c' = c) as -> by (unfold signed in *; congruence).
  unfold AuthApi.me, AuthApi.get_current_user. rewrite Hdec.
  unfold Py.get. rewrite Hrole, Hsub.
  unfold AuthService.authenticate_user in Hauth.
  destruct (_ && _) in Hauth.
  - injection Hauth as <-. simpl. eexists. split; [reflexivity|]. simpl. auto 10.
  - destruct (AuthService.query_by_username db login_name) as [u|] eqn:Hq; [|discriminate].
    destruct (negb _); [discriminate|]. injection Hauth as <-. simpl.
    apply find_some in Hq as [Hin _].
    pose proof (Hids u Hin) as Hid.
    destruct (user_id u) as [|ch rest] eqn:Hu; [congruence|]. simpl.
    rewrite andb_false_r. rewrite <- Hu.
    rewrite (query_by_user_id_unique db u Hnd Hin). simpl.
    eexists. split; [reflexivity|]. simpl. rewrite Hu. auto 10.
Qed.

Lemma login_then_me_witness :
  exists info,
    AuthApi.me (at_time 2500 clinic_world) default_settings clinic_db "pat.jwt" = Return info
    /\ AuthApi.ui_user_id info = Some "USR-000002"
    /\ AuthApi.ui_role info = "patient"
    /\ AuthApi.ui_is_active info = false.
Proof.
  destruct (AuthApi.login (sample_world []) default_settings clinic_db "pat" "hunter2")
    as [[r|e] tasks] eqn:Hlogin; [|discriminate Hlogin].
  destruct (login_then_me (sample_world []) (at_time 2500 clinic_world) default_settings
              clinic_db "pat" "hunter2" "pat.jwt" r tasks)
    as (info & Hme & Hid & _ & _ & Hrole & Hactive & _).
  - repeat constructor; simpl; intuition discriminate.
  - intros row Hrow. simpl in Hrow.
    destruct Hrow as [<- | [<- | [<- | []]]]; discriminate.
  - reflexivity.
  - reflexivity.
  - exact Hlogin.
  - injection Hlogin as <- _. reflexivity.
  - simpl. lia.
  - exists info. injection Hlogin as <- _.
    split; [exact Hme|]. split; [exact Hid|]. split; [exact Hrole | exact Hactive].
Defined.


(** ** Reading the bearer token *)

(** Without a usable Authorization header (and without credentials from
    the framework) every guard of patient-service and
    medical-test-service answers 401; the challenge header is present
    except in patient-service's [require_role]. *)
Theorem missing_bearer_is_401
    (w : world) (cfg : settings) (request : Request) (allow_inactive : bool)
    (allowed_roles : list role_arg) (allowed_names : list string) :
  lacks_bearer request = true ->
  PatientService.get_current_user_id w cfg request None allow_inactive
    = Raise (could_not_validate true)
  /\ PatientService.get_current_user w cfg request None allow_inactive
     = Raise (could_not_validate true)
  /\ PatientService.require_role allowed_roles w cfg request None
     = Raise (could_not_validate false)
  /\ MedicalTestService.get_current_user_id w cfg request allow_inactive
     = Raise (could_not_validate true)
  /\ MedicalTestService.require_role allowed_names w cfg request
     = Raise (could_not_validate true).
Proof.
  unfold lacks_bearer, PatientService.get_current_user_id, PatientService.get_current_user,
    PatientService.require_role, PatientService.token_of,
    MedicalTestService.get_current_user_id, MedicalTestService.require_role,
    MedicalTestService.get_token_from_request.
  destruct (authorization request) as [auth_header|]; [|auto 10].
  intros Hbad. rewrite Hbad. simpl.
  destruct (PyStr.falsy auth_header); simpl in *; [auto 10|].
  rewrite Hbad. auto 10.
Qed.

Lemma missing_bearer_is_401_witness :
  PatientService.require_role [RoleEnum ADMIN] clinic_world default_settings
    {| authorization := Some "Basic YWRtaW46YWRtaW4=" |} None
  = Raise (could_not_validate false)
  /\ MedicalTestService.get_current_user_id clinic_world default_settings
       {| authorization := Some "Basic YWRtaW46YWRtaW4=" |} false
     = Raise (could_not_validate true).
Proof.
  destruct (missing_bearer_is_401 clinic_world default_settings
              {| authorization := Some "Basic YWRtaW46YWRtaW4=" |} false
              [RoleEnum ADMIN] [] eq_refl) as (_ & _ & H3 & H4 & _).
  split; assumption.
Defined.

Lemma prefix_no_space (p t : string) :
  no_space t = true -> String.prefix p t = true -> no_space p = true.
Proof.
  revert t. induction p as [|c p IH]; intros [|c' t]; simpl; try discriminate; auto.
  destruct (Ascii.ascii_dec c c') as [->|]; [|discriminate].
  intros Ht Hp. apply andb_true_iff in Ht as [Hc Ht].
  rewrite Hc. simpl. eauto.
Qed.

Lemma no_bearer_in_no_space (t : string) :
  no_space t = true -> String.prefix "Bearer " t = false.
Proof.
  intros Ht. destruct (String.prefix "Bearer " t) eqn:Hp; [|reflexivity].
  apply (prefix_no_space _ _ Ht) in Hp. discriminate.
Qed.

Lemma remove_all_no_space (n : nat) (t : string) :
  no_space t = true -> PyStr.remove_all_fuel n "Bearer " t = t.
Proof.
  revert t. induction n as [|n IH]; intros t Ht; [reflexivity|].
  destruct t as [|c rest]; [reflexivity|].
  cbn [PyStr.remove_all_fuel]. rewrite (no_bearer_in_no_space _ Ht).
  simpl in Ht. apply andb_true_iff in Ht as [_ Ht]. rewrite IH by exact Ht. reflexivity.
Qed.

Lemma rstrip_no_space (t : string) : no_space t = true -> PyStr.rstrip t = t.
Proof.
  induction t as [|c rest IH]; simpl; [reflexivity|].
  intros Ht. apply andb_true_iff in Ht as [Hc Ht]. rewrite IH by exact Ht.
  destruct rest; [|reflexivity].
  apply negb_true_iff in Hc. rewrite Hc. reflexivity.
Qed.

Lemma strip_no_space (t : string) : no_space t = true -> PyStr.strip t = t.
Proof.
  intros Ht. unfold PyStr.strip.
  assert (Hl : PyStr.lstrip t = t).
  { destruct t as [|c rest]; [reflexivity|]. simpl in *.
    apply andb_true_iff in Ht as [Hc _]. apply negb_true_iff in Hc. rewrite Hc.
    reflexivity. }
  rewrite Hl. apply rstrip_no_space, Ht.
Qed.

Lemma bearer_header_token (t : string) :
  no_space t = true ->
  PyStr.strip (PyStr.remove_all "Bearer " ("Bearer " ++ t)) = t.
Proof.
  intros Ht. unfold PyStr.remove_all.
  change (String.length ("Bearer " ++ t)) with (S (6 + String.length t)).
  cbn [PyStr.remove_all_fuel].
  change (String.prefix "Bearer " ("Bearer " ++ t)) with (String.prefix "" t).
  assert (Hp : String.prefix "" t = true) by (destruct t; reflexivity).
  rewrite Hp.
  change (PyStr.drop (String.length "Bearer ") ("Bearer " ++ t)) with t.
  rewrite remove_all_no_space by exact Ht. apply strip_no_space, Ht.
Qed.

(** A header "Bearer <token>" gives back the token, in
    medical-test-service and in patient-service, for every token that is
    not empty and holds no white space. *)
Theorem bearer_header_round_trip (token : string) (challenge : bool) :
  token <> "" -> no_space token = true ->
  MedicalTestService.get_token_from_request (bearer token) = Some token
  /\ PatientService.token_of (bearer token) None challenge = Return token.
Proof.
  intros Hne Hns.
  unfold MedicalTestService.get_token_from_request, PatientService.token_of, bearer.
  cbn [authorization].
  unfold PyStr.startswith.
  change (String.prefix "Bearer " ("Bearer " ++ token)) with (String.prefix "" token).
  assert (Hp : String.prefix "" token = true) by (destruct token; reflexivity).
  rewrite Hp, (bearer_header_token token Hns). simpl.
  destruct token; [congruence|]. split; reflexivity.
Qed.

Lemma bearer_header_round_trip_witness :
  MedicalTestService.get_token_from_request (bearer "doc.jwt") = Some "doc.jwt"
  /\ PatientService.token_of (bearer "doc.jwt") None true = Return "doc.jwt".
Proof.
  apply (bearer_header_round_trip "doc.jwt" true); [discriminate | reflexivity].
Defined.

(** ** What the role guards let through *)

Lemma patient_decoded_fresh (w : world) (cfg : settings) (token : string)
    (c : gmap string json) :
  PatientService.decode_access_token w cfg token = Some c ->
  signature_verifies w (SECRET_KEY cfg) token = true
  /\ exp_in_the_past w token = false
  /\ claims_of w token = Some c.
Proof.
  intros Hdec.
  apply patient_decode_access_token_some in Hdec as [H | H];
    (split; [|split];
     [ eapply decoded_is_fresh; [| |exact H]; reflexivity
     | eapply decoded_is_fresh; [| |exact H]; reflexivity
     | apply (decode_decoded _ _ _ _ _ _ H) ]).
Qed.

Lemma json_in_listed (v : json) (l : list string) :
  json_in v l = true -> exists s, In s l /\ v = JStr s.
Proof.
  unfold json_in. intros H. apply existsb_exists in H as (s & Hin & Heq).
  exists s. split; [exact Hin|].
  destruct v; simpl in Heq; try discriminate.
  apply String.eqb_eq in Heq. congruence.
Qed.

(** patient-service's [require_role] returns a principal only for a
    token whose signature verifies, that has not expired, whose
    [is_active] does not read as false and whose [role] claim is, letter
    for letter, the value of one of the allowed roles; the principal is
    the admin dictionary for [role = admin] without [sub], the [sub]
    claim otherwise. *)
Theorem patient_require_role_sound
    (w : world) (cfg : settings) (allowed_roles : list role_arg)
    (request : Request) (credentials : option string) (p : principal) :
  PatientService.require_role allowed_roles w cfg request credentials = Return p ->
  exists token c,
    PatientService.token_of request credentials false = Return token
    /\ signature_verifies w (SECRET_KEY cfg) token = true
    /\ exp_in_the_past w token = false
    /\ claims_of w token = Some c
    /\ reads_active c = true
    /\ (exists a, In a allowed_roles /\ Py.get c "role" = JStr (role_value a))
    /\ p = if Py.eq_str (Py.get c "role") (value ADMIN) && Py.is_none (Py.get c "sub")
           then AdminDict else UserId (Py.get c "sub").
Proof.
  unfold PatientService.require_role, reads_active.
  destruct (PatientService.token_of request credentials false) as [token|e]; [|discriminate].
  simpl.
  destruct (PatientService.decode_access_token w cfg token) as [c|] eqn:Hdec; [|discriminate].
  destruct (Py.truthy _) eqn:Hactive; [|discriminate]. simpl.
  destruct (json_in _ _) eqn:Hrole; [|discriminate]. simpl.
  intros Hp. exists token, c.
  destruct (patient_decoded_fresh _ _ _ _ Hdec) as (Hsig & Hexp & Hclaims).
  repeat (split; [auto; fail|]).
  split.
  - apply json_in_listed in Hrole as (s & Hin & Heq).
    apply in_map_iff in Hin as (a & <- & Hin). eauto.
  - destruct (_ && _); congruence.
Qed.

Lemma patient_require_role_sound_witness :
  exists token c,
    PatientService.token_of (bearer "doc.jwt") None false = Return token
    /\ signature_verifies clinic_world (SECRET_KEY default_settings) token = true
    /\ claims_of clinic_world token = Some c
    /\ Py.get c "role" = JStr "doctor".
Proof.
  destruct (patient_require_role_sound clinic_world default_settings
              [RoleEnum ADMIN; RoleEnum DOCTOR; RoleEnum RADIOLOGIST]
              (bearer "doc.jwt") None (UserId (JStr "USR-000003")) eq_refl)
    as (token & c & Htok & Hsig & _ & Hclaims & _ & (a & Hin & Hrole) & _).
  exists token, c. split; [exact Htok|]. split; [exact Hsig|]. split; [exact Hclaims|].
  injection Htok as <-. injection Hclaims as <-. reflexivity.
Defined.

Lemma auth_decoded_fresh (w : world) (cfg : settings) (token : string)
    (c : gmap string json) :
  AuthService.decode_access_token w cfg token = Some c ->
  signature_verifies w (SECRET_KEY cfg) token = true
  /\ exp_in_the_past w token = false
  /\ claims_of w token = Some c
  /\ (Py.is_none (Py.get c "iss") = true \/ Py.eq_str (Py.get c "iss") ISSUER = true)
  /\ (forall v, c !! "sub" = Some v -> Py.is_str v = true).
Proof.
  intros Hdec. apply auth_decode_access_token_some in Hdec as (_ & H & Hiss).
  split; [eapply decoded_is_fresh; [| |exact H]; reflexivity|].
  split; [eapply decoded_is_fresh; [| |exact H]; reflexivity|].
  split; [apply (decode_decoded _ _ _ _ _ _ H)|].
  split; [exact Hiss|].
  intros v Hv. eapply decoded_sub_is_str; [|exact H|exact Hv]. reflexivity.
Qed.

(** medical-test-service's [require_role] returns only for a token whose
    signature verifies, that has not expired, whose issuer is absent or
    "ims-auth-service", whose [is_active] does not read as false and
    whose [role], lower-cased, equals one of the allowed roles
    lower-cased; what it returns is the [sub] claim, a string. *)
Theorem medical_test_require_role_sound
    (w : world) (cfg : settings) (allowed_roles : list string)
    (request : Request) (uid : json) :
  MedicalTestService.require_role allowed_roles w cfg request = Return uid ->
  exists token c,
    MedicalTestService.get_token_from_request request = Some token
    /\ signature_verifies w (SECRET_KEY cfg) token = true
    /\ exp_in_the_past w token = false
    /\ claims_of w token = Some c
    /\ (Py.is_none (Py.get c "iss") = true \/ Py.eq_str (Py.get c "iss") ISSUER = true)
    /\ reads_active c = true
    /\ (exists a, In a allowed_roles
          /\ Py.lower w (Py.str w (Py.get c "role")) = Py.lower w a)
    /\ c !! "sub" = Some uid
    /\ Py.is_str uid = true.
Proof.
  unfold MedicalTestService.require_role, reads_active.
  destruct (MedicalTestService.get_token_from_request request) as [token|]; [|discriminate].
  rewrite medical_test_decode_access_token_eq.
  destruct (AuthService.decode_access_token w cfg token) as [c|] eqn:Hdec; [|discriminate].
  destruct (Py.truthy (Py.get_default _ _ _)) eqn:Hactive; [|discriminate]. simpl.
  destruct (Py.truthy (Py.get c "role")); [|discriminate].
  destruct (existsb _ _) eqn:Hrole; [|discriminate]. simpl.
  destruct (Py.is_none (Py.get c "sub")) eqn:Hsub; [discriminate|].
  intros [= <-]. exists token, c.
  destruct (auth_decoded_fresh _ _ _ _ Hdec) as (Hsig & Hexp & Hclaims & Hiss & Hstr).
  repeat (split; [auto; fail|]).
  split; [|unfold Py.get in *; destruct (c !! "sub") as [v|] eqn:Hv;
            [split; [reflexivity | apply Hstr; reflexivity] | discriminate]].
  apply existsb_exists in Hrole as (s & Hin & Heq).
  apply in_map_iff in Hin as (a & <- & Hin).
  apply String.eqb_eq in Heq. eauto.
Qed.

Lemma medical_test_require_role_sound_witness :
  exists token c,
    MedicalTestService.get_token_from_request (bearer "doc.jwt") = Some token
    /\ claims_of clinic_world token = Some c
    /\ c !! "sub" = Some (JStr "USR-000003").
Proof.
  destruct (medical_test_require_role_sound clinic_world default_settings
              ["radiologist"; "doctor"; "cashier"] (bearer "doc.jwt")
              (JStr "USR-000003") eq_refl)
    as (token & c & Htok & _ & _ & Hclaims & _ & _ & _ & Hsub & _).
  exists token, c. auto.
Defined.


Lemma json_in_role_strings (role : string) (l : list string) :
  json_in (JStr role) (map role_value (map RoleStr l)) = existsb (String.eqb role) l.
Proof.
  unfold json_in. induction l as [|a rest IH]; simpl; [reflexivity|].
  rewrite IH. reflexivity.
Qed.

(** A role claim that matches an allowed role only up to letter case is
    accepted by medical-test-service's [require_role], which lower-cases
    both sides, and refused with 403 by patient-service's, which compares
    the strings as they are. *)
Theorem role_case_matters_in_patient_service_only
    (w : world) (cfg : settings) (token : string) (c : gmap string json)
    (role : string) (sub : json) (allowed_roles : list string)
    (request : Request) (credentials : option string) :
  MedicalTestService.get_token_from_request request = Some token ->
  PatientService.token_of request credentials false = Return token ->
  MedicalTestService.decode_access_token w cfg token = Some c ->
  PatientService.decode_access_token w cfg token = Some c ->
  reads_active c = true ->
  c !! "role" = Some (JStr role) -> role <> "" ->
  c !! "sub" = Some sub ->
  existsb (String.eqb role) allowed_roles = false ->
  existsb (String.eqb (Py.lower w role)) (map (Py.lower w) allowed_roles) = true ->
  MedicalTestService.require_role allowed_roles w cfg request = Return sub
  /\ PatientService.require_role (map RoleStr allowed_roles) w cfg request credentials
     = Raise not_enough_permissions.
Proof.
  intros Htok Htok' Hmed Hpat Hactive Hrole Hne Hsub Hexact Hfold.
  pose proof (str_is_not_none _ (patient_sub_is_str _ _ _ _ _ Hpat Hsub)) as Hnone.
  unfold reads_active in Hactive. split.
  - unfold MedicalTestService.require_role. rewrite Htok, Hmed, Hactive.
    unfold Py.get. rewrite Hrole, Hsub. simpl.
    destruct role; [congruence|]. simpl. simpl in Hfold. rewrite Hfold. simpl.
    rewrite Hnone. reflexivity.
  - unfold PatientService.require_role. rewrite Htok'. simpl. rewrite Hpat, Hactive.
    unfold Py.get. rewrite Hrole. simpl.
    rewrite json_in_role_strings, Hexact. reflexivity.
Qed.

Lemma role_case_matters_in_patient_service_only_witness :
  MedicalTestService.require_role ["doctor"] capital_world default_settings
    (bearer "capital.jwt") = Return (JStr "USR-000009")
  /\ PatientService.require_role [RoleStr "doctor"] capital_world default_settings
       (bearer "capital.jwt") None = Raise not_enough_permissions.
Proof.
  apply (role_case_matters_in_patient_service_only capital_world default_settings
           "capital.jwt" capital_claims "Doctor" (JStr "USR-000009") ["doctor"]
           (bearer "capital.jwt") None); try reflexivity.
  discriminate.
Defined.

(** ** From login to the guards *)

(** The token issued for the configured admin pair has no subject.
    Presented before its [exp] (the token string is not empty, the
    configuration names an algorithm): every [get_current_user_id]
    answers it with 401, whatever [allow_inactive];
    medical-test-service's [require_role] never returns for it; the
    [get_current_user] of patient-service, user-service and
    auth-service answer it with the admin dictionary. *)
Theorem admin_token_has_no_user_id
    (issued_at w : world) (cfg : settings) (db : list User)
    (login_name password token : string) (t : jws) :
  PyStr.falsy token = false ->
  PyStr.falsy (ALGORITHM cfg) = false ->
  is_admin_pair cfg login_name password = true ->
  AuthService.login issued_at cfg db login_name password = Return t ->
  jws_of w token = t ->
  now w <= now issued_at + 60 * ACCESS_TOKEN_EXPIRE_MINUTES cfg ->
  (forall request credentials allow_inactive,
     PatientService.token_of request credentials true = Return token ->
     PatientService.get_current_user_id w cfg request credentials allow_inactive
       = Raise (could_not_validate false)
     /\ PatientService.get_current_user w cfg request credentials allow_inactive
        = Return AdminDict)
  /\ (forall request allow_inactive allowed_roles,
     MedicalTestService.get_token_from_request request = Some token ->
     MedicalTestService.get_current_user_id w cfg request allow_inactive
       = Raise (could_not_validate false)
     /\ forall uid, MedicalTestService.require_role allowed_roles w cfg request
                    <> Return uid)
  /\ (forall allow_inactive,
     DiagnosticReportService.get_current_user_id w cfg token allow_inactive
       = Raise (could_not_validate false))
  /\ (forall users allow_inactive,
     UserService.get_current_user w cfg users token allow_inactive
       = Return UserService.AdminUser)
  /\ (forall users, AuthApi.get_current_user w cfg users token = Return AuthApi.Admin).
Proof.
  intros Htoken Halg Hpair Hlogin Hjws Hfresh.
  unfold AuthService.login, AuthService.authenticate_user, is_admin_pair in *.
  rewrite Hpair in Hlogin. injection Hlogin as Ht. rewrite <- Ht in Hjws.
  match type of Hjws with
  | context [AuthService.create_access_token_for_user issued_at cfg ?x] =>
      set (ud := x) in *
  end.
  destruct (create_access_token_for_user_claims issued_at cfg ud)
    as (c & Hc & Hrole & _ & _ & _ & _ & Hsub).
  simpl in Hrole, Hsub.
  pose proof (issued_token_auth_decodes issued_at w cfg ud token c
                Htoken Halg Hfresh Hjws Hc) as Hauth.
  pose proof (issued_token_patient_decodes issued_at w cfg ud token c
                Htoken Halg Hfresh Hjws Hc) as Hpat.
  pose proof (issued_token_staff_decodes issued_at w cfg ud token c
                Halg Hfresh Hjws Hc) as Hstaff.
  split; [|split; [|split; [|split]]].
  - intros request credentials allow_inactive Htok.
    unfold PatientService.get_current_user_id, PatientService.get_current_user.
    rewrite Htok. simpl. rewrite Hpat. unfold Py.get. rewrite Hrole, Hsub. auto.
  - intros request allow_inactive allowed_roles Htok.
    unfold MedicalTestService.get_current_user_id, MedicalTestService.require_role.
    rewrite Htok, medical_test_decode_access_token_eq, Hauth.
    unfold Py.get. rewrite Hrole, Hsub. simpl. split; [reflexivity|].
    intros uid. destruct (negb _); [discriminate|].
    destruct (negb _); discriminate.
  - intros allow_inactive. unfold DiagnosticReportService.get_current_user_id.
    rewrite report_decode_access_token_eq, Hstaff. unfold Py.get. rewrite Hsub.
    reflexivity.
  - intros users allow_inactive. unfold UserService.get_current_user.
    rewrite user_decode_access_token_eq, Hauth. unfold Py.get. rewrite Hrole, Hsub.
    reflexivity.
  - intros users. unfold AuthApi.get_current_user.
    rewrite Hauth. unfold Py.get. rewrite Hrole, Hsub. reflexivity.
Qed.

Lemma admin_token_has_no_user_id_witness :
  PatientService.get_current_user_id (at_time 2500 clinic_world) default_settings
    (bearer "admin.jwt") None true = Raise (could_not_validate false)
  /\ DiagnosticReportService.get_current_user_id (at_time 2500 clinic_world)
       default_settings "admin.jwt" false = Raise (could_not_validate false).
Proof.
  destruct (admin_token_has_no_user_id (sample_world []) (at_time 2500 clinic_world)
              default_settings clinic_db
              "admin" "admin#123" "admin.jwt" (issued "admin" "admin#123")
              eq_refl eq_refl) as (Hp & _ & Hd & _).
  - reflexivity.
  - reflexivity.
  - reflexivity.
  - simpl. lia.
  - split; [apply (Hp (bearer "admin.jwt") None true); reflexivity | apply Hd].
Defined.

(** The claims of the token a database account is issued. *)
Lemma account_token_claims (w : world) (cfg : settings) (db : list User)
    (login_name password : string) (user : User) (t : jws) :
  is_admin_pair cfg login_name password = false ->
  AuthService.query_by_username db login_name = Some user ->
  AuthService.verify_password w password (hashed_password user) = true ->
  user_id user <> "" ->
  AuthService.login w cfg db login_name password = Return t ->
  exists ud c,
    t = AuthService.create_access_token_for_user w cfg ud
    /\ AuthService.create_access_token_for_user w cfg ud = signed cfg c
    /\ c !! "role" = Some (JStr (value (user_role user)))
    /\ c !! "is_active" = Some (JBool (is_active user))
    /\ c !! "sub" = Some (JStr (user_id user)).
Proof.
  unfold is_admin_pair, AuthService.login, AuthService.authenticate_user.
  intros -> -> -> Hid. simpl. intros [= <-].
  match goal with |- context [AuthService.create_access_token_for_user w cfg ?x] =>
    set (ud := x) end.
  destruct (create_access_token_for_user_claims w cfg ud)
    as (c & Hc & Hrole & Hactive & _ & _ & _ & Hsub).
  exists ud, c. simpl in *.
  destruct (user_id user); [congruence|]. simpl in Hsub. auto 10.
Qed.

(** Login with the credentials of a database account whose identifier
    is not empty, then present the issued token to patient-service
    before its [exp] (the token string is not empty, the configuration
    names an algorithm).  [require_role] answers 403 when the account
    was deactivated at login, returns the account's business identifier
    when it was active and its role is among the allowed ones, and
    answers 403 otherwise; [get_current_user_id] returns the identifier
    unless the account was deactivated and [allow_inactive] is off. *)
Theorem account_token_under_patient_guard
    (issued_at w : world) (cfg : settings) (db : list User)
    (login_name password token : string) (user : User) (t : jws)
    (request : Request) (credentials : option string) (allowed_roles : list role_arg) :
  PyStr.falsy token = false ->
  PyStr.falsy (ALGORITHM cfg) = false ->
  is_admin_pair cfg login_name password = false ->
  AuthService.query_by_username db login_name = Some user ->
  AuthService.verify_password issued_at password (hashed_password user) = true ->
  user_id user <> "" ->
  AuthService.login issued_at cfg db login_name password = Return t ->
  jws_of w token = t ->
  now w <= now issued_at + 60 * ACCESS_TOKEN_EXPIRE_MINUTES cfg ->
  PatientService.token_of request credentials false = Return token ->
  PatientService.require_role allowed_roles w cfg request credentials
    = (if negb (is_active user) then Raise account_inactive
       else if existsb (String.eqb (value (user_role user))) (map role_value allowed_roles)
            then Return (UserId (JStr (user_id user)))
            else Raise not_enough_permissions)
  /\ (forall allow_inactive,
        PatientService.get_current_user_id w cfg request credentials allow_inactive
          = if negb allow_inactive && negb (is_active user)
            then Raise account_inactive
            else Return (JStr (user_id user))).
Proof.
  intros Htoken Halg Hpair Hq Hpw Hid Hlogin Hjws Hfresh Htok.
  destruct (account_token_claims issued_at cfg db login_name password user t
              Hpair Hq Hpw Hid Hlogin)
    as (ud & c & Ht & Hc & Hrole & Hactive & Hsub).
  rewrite Ht in Hjws.
  pose proof (issued_token_patient_decodes issued_at w cfg ud token c
                Htoken Halg Hfresh Hjws Hc) as Hdec.
  unfold PatientService.require_role, PatientService.get_current_user_id.
  rewrite Htok, (patient_token_of_challenge _ _ _ _ true Htok). simpl. rewrite Hdec.
  unfold Py.get_default, Py.get. rewrite Hrole, Hactive, Hsub. simpl.
  rewrite andb_false_r. split.
  - destruct (is_active user); simpl; [|reflexivity].
    change (json_in (JStr (value (user_role user))) (map role_value allowed_roles))
      with (existsb (String.eqb (value (user_role user))) (map role_value allowed_roles)).
    destruct (existsb _ _); reflexivity.
  - intros allow_inactive. reflexivity.
Qed.

Lemma account_token_under_patient_guard_witness :
  PatientService.require_role [RoleEnum DOCTOR] (at_time 2500 clinic_world)
    default_settings (bearer "pat.jwt") None = Raise account_inactive
  /\ PatientService.require_role [RoleEnum ADMIN] (at_time 2500 clinic_world)
       default_settings (bearer "doc.jwt") None = Raise not_enough_permissions
  /\ PatientService.require_role [RoleEnum ADMIN; RoleEnum DOCTOR]
       (at_time 2500 clinic_world) default_settings (bearer "doc.jwt") None
     = Return (UserId (JStr "USR-000003")).
Proof.
  assert (Hfresh : now (at_time 2500 clinic_world)
                   <= now (sample_world [])
                      + 60 * ACCESS_TOKEN_EXPIRE_MINUTES default_settings)
    by (simpl; lia).
  split; [|split].
  - refine (proj1 (account_token_under_patient_guard (sample_world [])
      (at_time 2500 clinic_world) default_settings
      clinic_db "pat" "hunter2" "pat.jwt" _ (issued "pat" "hunter2")
      (bearer "pat.jwt") None [RoleEnum DOCTOR]
      eq_refl eq_refl eq_refl eq_refl eq_refl _ eq_refl eq_refl Hfresh eq_refl));
      discriminate.
  - refine (proj1 (account_token_under_patient_guard (sample_world [])
      (at_time 2500 clinic_world) default_settings
      clinic_db "doc" "stetho" "doc.jwt" _ (issued "doc" "stetho")
      (bearer "doc.jwt") None [RoleEnum ADMIN]
      eq_refl eq_refl eq_refl eq_refl eq_refl _ eq_refl eq_refl Hfresh eq_refl));
      discriminate.
  - refine (proj1 (account_token_under_patient_guard (sample_world [])
      (at_time 2500 clinic_world) default_settings
      clinic_db "doc" "stetho" "doc.jwt" _ (issued "doc" "stetho")
      (bearer "doc.jwt") None [RoleEnum ADMIN; RoleEnum DOCTOR]
      eq_refl eq_refl eq_refl eq_refl eq_refl _ eq_refl eq_refl Hfresh eq_refl));
      discriminate.
Defined.

(** ** user-service: the database decides *)

Lemma user_sub_is_str (w : world) (cfg : settings) (token : string)
    (p : gmap string json) (v : json) :
  UserService.decode_access_token w cfg token = Some p ->
  p !! "sub" = Some v -> Py.is_str v = true.
Proof.
  rewrite user_decode_access_token_eq. intros Hdec Hsub.
  apply auth_decoded_fresh in Hdec as (_ & _ & _ & _ & Hstr). auto.
Qed.

(** For a token that validates and carries a [sub], user-service's
    [get_current_user] reads nothing else from the token: the caller is
    the row of the database with that identifier (401 when there is
    none), and it is the row's [is_active], not the token's, that
    decides the 403 of a deactivated account; [require_role] then
    compares the row's role. *)
Theorem user_service_reads_only_the_subject
    (w : world) (cfg : settings) (db : list User) (credentials : string)
    (payload : gmap string json) (sub : json) (allow_inactive : bool)
    (allowed_roles : list role_arg) :
  UserService.decode_access_token w cfg credentials = Some payload ->
  payload !! "sub" = Some sub ->
  UserService.get_current_user w cfg db credentials allow_inactive
    = match UserService.query_by_user_id db sub with
      | None => Raise UserService.user_not_found
      | Some user =>
          if negb allow_inactive && negb (is_active user)
          then Raise UserService.user_inactive
          else Return (UserService.Row user)
      end
  /\ UserService.require_role allowed_roles w cfg db credentials allow_inactive
     = match UserService.query_by_user_id db sub with
       | None => Raise UserService.user_not_found
       | Some user =>
           if negb allow_inactive && negb (is_active user)
           then Raise UserService.user_inactive
           else if existsb (UserService.role_eq (user_role user)) allowed_roles
                then Return (UserService.Row user)
                else Raise not_enough_permissions
       end.
Proof.
  intros Hdec Hsub.
  pose proof (str_is_not_none _ (user_sub_is_str _ _ _ _ _ Hdec Hsub)) as Hnone.
  assert (Hget : Py.get payload "sub" = sub)
    by (unfold Py.get; rewrite Hsub; reflexivity).
  unfold UserService.require_role, UserService.get_current_user.
  rewrite Hdec. cbv zeta. rewrite !Hget, Hnone, andb_false_r.
  destruct (UserService.query_by_user_id db sub) as [user|]; [|auto].
  destruct (negb allow_inactive && negb (is_active user)); [auto|]. simpl.
  split; [reflexivity|]. destruct (existsb _ _); reflexivity.
Qed.

Lemma user_service_reads_only_the_subject_witness :
  UserService.get_current_user clinic_world default_settings
    [ {| user_id := "USR-000003"; username := "doc"; email := "doc@ims.example";
         name := "Doc"; hashed_password := "bcrypt:stetho";
         user_role := CASHIER; is_active := false |} ]
    "doc.jwt" false
  = Raise UserService.user_inactive.
Proof.
  destruct (AuthService.decode_access_token clinic_world default_settings "doc.jwt")
    as [payload|] eqn:Hdec; [|discriminate Hdec].
  refine (proj1 (user_service_reads_only_the_subject clinic_world default_settings _
                   "doc.jwt" payload (JStr "USR-000003") false [] Hdec _)).
  injection Hdec as <-. reflexivity.
Defined.

Lemma get_user_by_subject (db : list User) (id : string) :
  UserApi.get_user db id
  = match UserService.query_by_user_id db (JStr id) with
    | Some user => Return user
    | None => Raise UserApi.user_not_found
    end.
Proof.
  unfold UserApi.get_user, UserService.query_by_user_id.
  induction db as [|row rest IH]; simpl; [reflexivity|].
  rewrite (String.eqb_sym id). destruct (String.eqb (user_id row) id); [reflexivity | exact IH].
Qed.

Lemma get_user_id (db : list User) (id : string) (u : User) :
  UserApi.get_user db id = Return u -> user_id u = id.
Proof.
  unfold UserApi.get_user.
  destruct (List.find _ db) as [user|] eqn:Hfind; [|discriminate].
  intros [= <-]. apply find_some in Hfind as [_ Heq]. apply String.eqb_eq, Heq.
Qed.

(** [GET /{user_id}] never returns a record to a caller who is neither
    an administrator (the admin token, or a row whose role is admin) nor
    the user the record belongs to; what it returns is the record asked
    for. *)
Theorem get_user_endpoint_sound
    (w : world) (cfg : settings) (db : list User) (credentials id : string) (u : User) :
  UserApi.get_user_endpoint w cfg db credentials id = Return u ->
  user_id u = id
  /\ exists current_user,
       UserService.get_current_user w cfg db credentials true = Return current_user
       /\ (UserApi.is_admin current_user = true
           \/ UserApi.current_user_id current_user = Some id).
Proof.
  unfold UserApi.get_user_endpoint, UserApi.get_current_user_allow_inactive.
  destruct (UserService.get_current_user w cfg db credentials true) as [cu|e]; [|discriminate].
  simpl. destruct (UserApi.is_admin cu) eqn:Hadmin; simpl.
  - intros Hget. split; [eapply get_user_id; eauto | eauto].
  - destruct (UserApi.differs (UserApi.current_user_id cu) id) eqn:Hdiff; [discriminate|].
    intros Hget. split; [eapply get_user_id; eauto|].
    exists cu. split; [reflexivity|]. right.
    unfold UserApi.differs in Hdiff.
    destruct (UserApi.current_user_id cu) as [s|]; [|discriminate].
    apply negb_false_iff, String.eqb_eq in Hdiff. congruence.
Qed.

Lemma get_user_endpoint_sound_witness :
  exists current_user,
    UserService.get_current_user clinic_world default_settings clinic_db "doc.jwt" true
      = Return current_user
    /\ (UserApi.is_admin current_user = true
        \/ UserApi.current_user_id current_user = Some "USR-000003").
Proof.
  destruct (UserApi.get_user_endpoint clinic_world default_settings clinic_db
              "doc.jwt" "USR-000003") as [u|e] eqn:Hget; [|discriminate Hget].
  apply get_user_endpoint_sound in Hget as (_ & cu & Hcu & Hor).
  exists cu. split; assumption.
Defined.

(** A user who is not an administrator reads their own record through
    [GET /{user_id}] even when the account is deactivated, and gets 403
    for every other identifier; the same deactivated account is refused
    with 403 by [get_current_user] without [allow_inactive]. *)
Theorem own_profile_stays_readable
    (w : world) (cfg : settings) (db : list User) (credentials : string)
    (payload : gmap string json) (own : string) (user : User) (id : string) :
  UserService.decode_access_token w cfg credentials = Some payload ->
  payload !! "sub" = Some (JStr own) ->
  UserService.query_by_user_id db (JStr own) = Some user ->
  user_role user <> ADMIN ->
  UserApi.get_user_endpoint w cfg db credentials id
    = (if String.eqb own id then Return user else Raise not_enough_permissions)
  /\ (is_active user = false ->
      UserService.get_current_user w cfg db credentials false
        = Raise UserService.user_inactive).
Proof.
  intros Hdec Hsub Hrow Hrole.
  assert (Hid : user_id user = own).
  { unfold UserService.query_by_user_id in Hrow. apply find_some in Hrow as [_ Heq].
    simpl in Heq. apply String.eqb_eq in Heq. congruence. }
  unfold UserApi.get_user_endpoint, UserApi.get_current_user_allow_inactive,
    UserService.get_current_user.
  rewrite Hdec. unfold Py.get. rewrite Hsub. simpl. rewrite andb_false_r, Hrow. simpl.
  split.
  - assert (Hnot : String.eqb (value (user_role user)) "admin" = false)
      by (destruct (user_role user); [congruence | reflexivity..]).
    rewrite Hnot, Hid. simpl.
    destruct (String.eqb_spec own id) as [<- | Hne]; simpl; [|reflexivity].
    rewrite get_user_by_subject, Hrow. reflexivity.
  - intros ->. reflexivity.
Qed.

Lemma own_profile_stays_readable_witness :
  exists user,
    UserApi.get_user_endpoint clinic_world default_settings clinic_db "pat.jwt" "USR-000002"
      = Return user
    /\ is_active user = false
    /\ UserApi.get_user_endpoint clinic_world default_settings clinic_db "pat.jwt"
         "USR-000003" = Raise not_enough_permissions
    /\ UserService.get_current_user clinic_world default_settings clinic_db "pat.jwt" false
       = Raise UserService.user_inactive.
Proof.
  destruct (AuthService.decode_access_token clinic_world default_settings "pat.jwt")
    as [payload|] eqn:Hdec; [|discriminate Hdec].
  destruct (UserService.query_by_user_id clinic_db (JStr "USR-000002"))
    as [user|] eqn:Hrow; [|discriminate Hrow].
  assert (Hsub : payload !! "sub" = Some (JStr "USR-000002"))
    by (injection Hdec as <-; reflexivity).
  assert (Hrole : user_role user <> ADMIN)
    by (injection Hrow as <-; discriminate).
  exists user.
  pose proof (own_profile_stays_readable clinic_world default_settings clinic_db
                "pat.jwt" payload "USR-000002" user "USR-000002" Hdec Hsub Hrow Hrole)
    as [Hown Hinactive].
  pose proof (own_profile_stays_readable clinic_world default_settings clinic_db
                "pat.jwt" payload "USR-000002" user "USR-000003" Hdec Hsub Hrow Hrole)
    as [Hother _].
  split; [exact Hown|].
  assert (Hoff : is_active user = false) by (injection Hrow as <-; reflexivity).
  split; [exact Hoff|]. split; [exact Hother | exact (Hinactive Hoff)].
Defined.

Lemma user_current_user_of_subject (w : world) (cfg : settings) (db : list User)
    (credentials : string) (payload : gmap string json) (sub : json)
    (allow_inactive : bool) :
  UserService.decode_access_token w cfg credentials = Some payload ->
  payload !! "sub" = Some sub ->
  UserService.get_current_user w cfg db credentials allow_inactive
    = match UserService.query_by_user_id db sub with
      | None => Raise UserService.user_not_found
      | Some user =>
          if negb allow_inactive && negb (is_active user)
          then Raise UserService.user_inactive
          else Return (UserService.Row user)
      end.
Proof.
  intros Hdec Hsub.
  pose proof (str_is_not_none _ (user_sub_is_str _ _ _ _ _ Hdec Hsub)) as Hnone.
  assert (Hget : Py.get payload "sub" = sub)
    by (unfold Py.get; rewrite Hsub; reflexivity).
  unfold UserService.get_current_user.
  rewrite Hdec. cbv zeta. rewrite !Hget, Hnone, andb_false_r. reflexivity.
Qed.

Lemma find_filter_implied {A : Type} (P Q : A -> bool) (l : list A) :
  (forall x, P x = true -> Q x = true) ->
  List.find P (List.filter Q l) = List.find P l.
Proof.
  intros Himp. induction l as [|x rest IH]; simpl; [reflexivity|].
  destruct (P x) eqn:Hp.
  - rewrite (Himp x Hp). simpl. rewrite Hp. reflexivity.
  - destruct (Q x); simpl; [rewrite Hp|]; exact IH.
Qed.

Lemma find_filter_excluded {A : Type} (P Q : A -> bool) (l : list A) :
  (forall x, P x = true -> Q x = false) ->
  List.find P (List.filter Q l) = None.
Proof.
  intros Hexcl. induction l as [|x rest IH]; simpl; [reflexivity|].
  destruct (Q x) eqn:Hq; simpl; [|exact IH].
  destruct (P x) eqn:Hp; [|exact IH].
  rewrite (Hexcl x Hp) in Hq. discriminate.
Qed.

(** [DELETE /{user_id}] changes the table only for an administrator (the
    admin token, or a row whose role is admin) and only when the user
    exists.  Afterwards the user is gone (404), every other user is
    found as before, and a token whose [sub] is the deleted identifier is
    answered 401 by user-service, although it has not expired. *)
Theorem delete_user_endpoint_effect
    (w : world) (cfg : settings) (db db' : list User) (credentials : string)
    (allow_inactive : bool) (id : string) (tasks : list UserApi.task) :
  UserApi.delete_user_endpoint w cfg db credentials allow_inactive id = Return (db', tasks) ->
  (exists current_user,
     UserService.require_role [RoleEnum ADMIN] w cfg db credentials allow_inactive
       = Return current_user
     /\ UserApi.is_admin current_user = true)
  /\ (exists u, UserApi.get_user db id = Return u)
  /\ UserApi.get_user db' id = Raise UserApi.user_not_found
  /\ (forall other, other <> id -> UserApi.get_user db' other = UserApi.get_user db other)
  /\ (forall token payload allow,
        UserService.decode_access_token w cfg token = Some payload ->
        payload !! "sub" = Some (JStr id) ->
        UserService.get_current_user w cfg db' token allow
          = Raise UserService.user_not_found).
Proof.
  unfold UserApi.delete_user_endpoint.
  destruct (UserService.require_role [RoleEnum ADMIN] w cfg db credentials allow_inactive)
    as [cu|e] eqn:Hguard; [|discriminate].
  simpl. unfold UserApi.delete_user.
  destruct (UserApi.get_user db id) as [user|e] eqn:Hget; [|discriminate].
  simpl. intros [= <- _].
  pose proof (get_user_id _ _ _ Hget) as Hid. rewrite Hid.
  assert (Hgone : UserApi.get_user
            (List.filter (fun row => negb (String.eqb (user_id row) id)) db) id
          = Raise UserApi.user_not_found).
  { unfold UserApi.get_user. rewrite find_filter_excluded; [reflexivity|].
    intros x Hx. rewrite Hx. reflexivity. }
  split; [|split; [eauto | split; [exact Hgone | split]]].
  - exists cu. split; [reflexivity|].
    unfold UserService.require_role in Hguard.
    destruct (UserService.get_current_user w cfg db credentials allow_inactive)
      as [cu'|]; [|discriminate].
    simpl in Hguard.
    destruct cu' as [|u]; simpl in Hguard.
    + injection Hguard as <-. reflexivity.
    + destruct (String.eqb (value (user_role u)) "admin") eqn:Hrole;
        simpl in Hguard; [|discriminate].
      injection Hguard as <-. simpl. exact Hrole.
  - intros other Hne. unfold UserApi.get_user. rewrite find_filter_implied; [reflexivity|].
    intros x Hx. apply String.eqb_eq in Hx. apply negb_true_iff, String.eqb_neq. congruence.
  - intros token payload allow Hdec Hsub.
    rewrite (user_current_user_of_subject _ _ _ _ _ _ _ Hdec Hsub).
    rewrite get_user_by_subject in Hgone.
    destruct (UserService.query_by_user_id _ (JStr id)); [discriminate | reflexivity].
Qed.

Lemma delete_user_endpoint_effect_witness :
  exists db',
    UserApi.delete_user_endpoint clinic_world default_settings clinic_db "root.jwt" false
      "USR-000003"
    = Return (db', [ {| UserApi.t_user_id := "USR-000001";
                        UserApi.t_action := "Delete User";
                        UserApi.t_entity_type := "USER";
                        UserApi.t_relevant_id := "USR-000003" |} ])
    /\ UserApi.get_user db' "USR-000003" = Raise UserApi.user_not_found
    /\ UserService.get_current_user clinic_world default_settings db' "doc.jwt" false
       = Raise UserService.user_not_found.
Proof.
  destruct (UserApi.delete_user_endpoint clinic_world default_settings clinic_db
              "root.jwt" false "USR-000003") as [[db' tasks]|e] eqn:Hdel;
    [|discriminate Hdel].
  destruct (delete_user_endpoint_effect _ _ _ _ _ _ _ _ Hdel)
    as (_ & _ & Hgone & _ & Htoken).
  exists db'. split; [|split; [exact Hgone|]].
  - injection Hdel as <- <-. reflexivity.
  - destruct (AuthService.decode_access_token clinic_world default_settings "doc.jwt")
      as [payload|] eqn:Hdec; [|discriminate Hdec].
    apply (Htoken "doc.jwt" payload false Hdec).
    injection Hdec as <-. reflexivity.
Defined.

(** ** patient-service: who reads which record *)

Lemma find_patient_unique (l : list PatientApi.Patient) (x : PatientApi.Patient) :
  List.NoDup (map PatientApi.patient_id l) -> In x l ->
  List.find (fun p => String.eqb (PatientApi.patient_id p) (PatientApi.patient_id x)) l
  = Some x.
Proof.
  induction l as [|row rest IH]; simpl; [tauto|].
  intros Hnd Hin. inversion Hnd as [|? ? Hfresh Hnd']; subst.
  destruct Hin as [-> | Hin].
  - rewrite String.eqb_refl. reflexivity.
  - destruct (String.eqb_spec (PatientApi.patient_id row) (PatientApi.patient_id x))
      as [Heq | Hne].
    + exfalso. apply Hfresh. rewrite Heq. apply in_map, Hin.
    + apply IH; assumption.
Qed.

Lemma get_patient_with_user_id (db : PatientApi.database) (id : string)
    (p : PatientApi.patient_data) :
  PatientApi.get_patient_with_user db id = Return p -> PatientApi.pd_patient_id p = id.
Proof.
  unfold PatientApi.get_patient_with_user.
  destruct (List.find _ (PatientApi.patients db)) as [patient|] eqn:Hfind; [|discriminate].
  destruct (List.find _ (PatientApi.users db)); [|discriminate].
  intros [= <-]. simpl. apply find_some in Hfind as [_ Heq]. apply String.eqb_eq, Heq.
Qed.

(** With unique patient identifiers, the record found for a user is that
    user's. *)
Lemma get_patient_by_user_id_user (db : PatientApi.database) (uid : string)
    (p : PatientApi.patient_data) :
  List.NoDup (map PatientApi.patient_id (PatientApi.patients db)) ->
  PatientApi.get_patient_by_user_id db uid = Return p -> PatientApi.pd_user_id p = uid.
Proof.
  intros Hnd. unfold PatientApi.get_patient_by_user_id, PatientApi.get_patient_with_user.
  destruct (List.find _ (PatientApi.patients db)) as [patient|] eqn:Hfind; [|discriminate].
  apply find_some in Hfind as [Hin Heq]. apply String.eqb_eq in Heq.
  rewrite (find_patient_unique _ _ Hnd Hin).
  destruct (List.find _ (PatientApi.users db)); [|discriminate].
  intros [= <-]. exact Heq.
Qed.

(** [GET /by-user/{user_id}]: a caller who is not the administrator is
    refused with 403 for every identifier but their own, before the
    database is read; with unique patient identifiers, a returned record
    belongs to the user asked for. *)
Theorem get_patient_by_user_endpoint_rule
    (db : PatientApi.database) (uid : string) (current_user : PatientApi.caller) :
  List.NoDup (map PatientApi.patient_id (PatientApi.patients db)) ->
  (forall s, current_user = PatientApi.CallerId s -> s <> uid ->
     PatientApi.get_patient_by_user_endpoint db uid current_user
       = Raise (PatientApi.forbidden "You can only view your own patient record"))
  /\ (forall p,
        PatientApi.get_patient_by_user_endpoint db uid current_user = Return p ->
        PatientApi.pd_user_id p = uid
        /\ (current_user = PatientApi.CallerAdmin
            \/ current_user = PatientApi.CallerId uid)).
Proof.
  intros Hnd. unfold PatientApi.get_patient_by_user_endpoint. split.
  - intros s -> Hne. simpl. apply String.eqb_neq in Hne. rewrite Hne. reflexivity.
  - intros p. destruct current_user as [|s]; simpl.
    + intros Hget. split; [eapply get_patient_by_user_id_user; eauto | auto].
    + destruct (String.eqb_spec s uid) as [-> | Hne]; simpl; [|discriminate].
      intros Hget. split; [eapply get_patient_by_user_id_user; eauto | auto].
Qed.


Lemma get_patient_by_user_endpoint_rule_witness :
  PatientApi.get_patient_by_user_endpoint ward "USR-000002" (PatientApi.CallerId "USR-000004")
    = Raise (PatientApi.forbidden "You can only view your own patient record")
  /\ exists p,
       PatientApi.get_patient_by_user_endpoint ward "USR-000004"
         (PatientApi.CallerId "USR-000004") = Return p
       /\ PatientApi.pd_user_id p = "USR-000004".
Proof.
  assert (Hnd : List.NoDup (map PatientApi.patient_id (PatientApi.patients ward)))
    by (repeat constructor; simpl; intuition discriminate).
  split.
  - apply (proj1 (get_patient_by_user_endpoint_rule ward "USR-000002"
                    (PatientApi.CallerId "USR-000004") Hnd) "USR-000004");
      [reflexivity | discriminate].
  - destruct (PatientApi.get_patient_by_user_endpoint ward "USR-000004"
                (PatientApi.CallerId "USR-000004")) as [p|e] eqn:Hget;
      [|discriminate Hget].
    exists p. split; [reflexivity|].
    apply (proj2 (get_patient_by_user_endpoint_rule ward "USR-000004"
                    (PatientApi.CallerId "USR-000004") Hnd) p Hget).
Defined.

Lemma not_staff_false (role : option string) :
  PatientApi.not_staff role = false ->
  role = Some (value DOCTOR) \/ role = Some (value RADIOLOGIST).
Proof.
  destruct role as [r|]; simpl; [|discriminate].
  intros H. apply negb_false_iff in H. rewrite orb_false_r in H.
  apply orb_true_iff in H as [H | H]; apply String.eqb_eq in H; subst; auto.
Qed.

(** [GET /{patient_id}]: a missing patient is a 404 for every caller,
    before any permission is looked at; the administrator, and a caller
    whose subject is the empty string, get every record.  With unique
    patient identifiers, any other caller gets a record only when it is
    their own or when the role stored for them is doctor or
    radiologist; the record is the one asked for. *)
Theorem get_patient_endpoint_rule (db : PatientApi.database) (id : string) :
  (forall current_user e,
     PatientApi.get_patient db id = Raise e ->
     PatientApi.get_patient_endpoint db id current_user = Raise e)
  /\ PatientApi.get_patient_endpoint db id PatientApi.CallerAdmin
     = PatientApi.get_patient db id
  /\ PatientApi.get_patient_endpoint db id (PatientApi.CallerId "")
     = PatientApi.get_patient db id
  /\ (forall s p,
        List.NoDup (map PatientApi.patient_id (PatientApi.patients db)) ->
        s <> "" ->
        PatientApi.get_patient_endpoint db id (PatientApi.CallerId s) = Return p ->
        PatientApi.pd_patient_id p = id
        /\ (PatientApi.pd_user_id p = s
            \/ PatientApi.stored_role db s = Some (value DOCTOR)
            \/ PatientApi.stored_role db s = Some (value RADIOLOGIST)))
  /\ (forall s p,
        s <> "" ->
        PatientApi.get_patient db id = Return p ->
        PatientApi.get_patient_by_user_id db s = Return p ->
        PatientApi.get_patient_endpoint db id (PatientApi.CallerId s) = Return p).
Proof.
  unfold PatientApi.get_patient_endpoint.
  split; [|split; [|split; [|split]]].
  - intros current_user e ->. reflexivity.
  - destruct (PatientApi.get_patient db id); reflexivity.
  - destruct (PatientApi.get_patient db id); reflexivity.
  - intros s p Hnd Hne.
    destruct (PatientApi.get_patient db id) as [patient|e] eqn:Hget; [|discriminate].
    simpl. destruct s as [|ch rest]; [congruence|]. cbn [PyStr.falsy negb].
    set (s := String ch rest) in *.
    destruct (PatientApi.get_patient_by_user_id db s) as [own|e] eqn:Hown; simpl.
    + destruct (String.eqb_spec (PatientApi.pd_patient_id own) id) as [Heq | Hdiff]; simpl.
      * intros [= <-]. split; [eapply get_patient_with_user_id; exact Hget|].
        left.
        assert (own = patient) as <-.
        { unfold PatientApi.get_patient_by_user_id in Hown.
          destruct (List.find _ (PatientApi.patients db)) as [row|] eqn:Hrow;
            [|discriminate].
          pose proof (get_patient_with_user_id _ _ _ Hown) as Hrowid.
          unfold PatientApi.get_patient in Hget. congruence. }
        eapply get_patient_by_user_id_user; eauto.
      * destruct (PatientApi.not_staff _) eqn:Hstaff; simpl.
        -- discriminate.
        -- intros [= <-]. split; [eapply get_patient_with_user_id; exact Hget|].
           right. apply not_staff_false, Hstaff.
    + destruct (PatientApi.not_staff _) eqn:Hstaff; [discriminate|].
      intros [= <-]. split; [eapply get_patient_with_user_id; exact Hget|].
      right. apply not_staff_false, Hstaff.
  - intros s p Hne Hget Hown. rewrite Hget. simpl.
    destruct s as [|ch rest]; [congruence|]. cbn [PyStr.falsy negb].
    rewrite Hown. simpl.
    rewrite (get_patient_with_user_id _ _ _ Hget), String.eqb_refl. reflexivity.
Qed.

Lemma get_patient_endpoint_rule_witness :
  PatientApi.get_patient_endpoint ward "PAT-000009" (PatientApi.CallerId "USR-000003")
    = Raise (PatientApi.not_found "Patient not found")
  /\ exists p,
       PatientApi.get_patient_endpoint ward "PAT-000002" (PatientApi.CallerId "USR-000004")
         = Return p
       /\ PatientApi.pd_patient_id p = "PAT-000002".
Proof.
  split.
  - apply (proj1 (get_patient_endpoint_rule ward "PAT-000009")). reflexivity.
  - destruct (PatientApi.get_patient_endpoint ward "PAT-000002"
                (PatientApi.CallerId "USR-000004")) as [p|e] eqn:Hget;
      [|discriminate Hget].
    exists p. split; [reflexivity|].
    apply (proj1 (proj2 (proj2 (proj2 (get_patient_endpoint_rule ward "PAT-000002"))))
             "USR-000004" p);
      [repeat constructor; simpl; intuition discriminate | discriminate | exact Hget].
Defined.

(** [DELETE /{patient_id}] changes the database only for a token that
    validates, whose [is_active] does not read as false and whose role
    is "admin", and only when the patient exists.  Afterwards that
    patient is gone (404), every other patient reads as before and the
    users table is untouched. *)
Theorem delete_patient_endpoint_effect
    (w : world) (cfg : settings) (db db' : PatientApi.database)
    (request : Request) (credentials : option string) (id : string) :
  PatientApi.delete_patient_endpoint w cfg db request credentials id = Return db' ->
  (exists token c,
     PatientService.token_of request credentials false = Return token
     /\ PatientService.decode_access_token w cfg token = Some c
     /\ reads_active c = true
     /\ Py.get c "role" = JStr "admin")
  /\ PatientApi.users db' = PatientApi.users db
  /\ PatientApi.get_patient db' id = Raise (PatientApi.not_found "Patient not found")
  /\ (forall other, other <> id ->
        PatientApi.get_patient db' other = PatientApi.get_patient db other).
Proof.
  unfold PatientApi.delete_patient_endpoint.
  destruct (PatientService.require_role [RoleEnum ADMIN] w cfg request credentials)
    as [p|e] eqn:Hguard; [|discriminate].
  simpl. unfold PatientApi.delete_patient.
  destruct (List.find _ (PatientApi.patients db)) as [patient|] eqn:Hfind; [|discriminate].
  intros [= <-].
  apply find_some in Hfind as [_ Hid]. apply String.eqb_eq in Hid. rewrite Hid.
  split; [|split; [reflexivity | split]].
  - unfold PatientService.require_role in Hguard.
    destruct (PatientService.token_of request credentials false) as [token|];
      [|discriminate].
    cbn [bind] in Hguard.
    destruct (PatientService.decode_access_token w cfg token) as [c|] eqn:Hdec;
      [|discriminate].
    destruct (Py.truthy _) eqn:Hactive; [|discriminate].
    destruct (json_in _ _) eqn:Hrole; [|discriminate].
    apply json_in_listed in Hrole as (s & [<- | []] & Heq).
    exists token, c. auto.
  - unfold PatientApi.get_patient, PatientApi.get_patient_with_user. simpl.
    rewrite find_filter_excluded; [reflexivity|].
    intros x Hx. rewrite Hx. reflexivity.
  - intros other Hne.
    unfold PatientApi.get_patient, PatientApi.get_patient_with_user. simpl.
    rewrite find_filter_implied; [reflexivity|].
    intros x Hx. apply String.eqb_eq in Hx. apply negb_true_iff, String.eqb_neq. congruence.
Qed.

Lemma delete_patient_endpoint_effect_witness :
  exists db',
    PatientApi.delete_patient_endpoint clinic_world default_settings ward
      (bearer "admin.jwt") None "PAT-000001" = Return db'
    /\ PatientApi.get_patient db' "PAT-000001"
       = Raise (PatientApi.not_found "Patient not found")
    /\ PatientApi.get_patient db' "PAT-000002" = PatientApi.get_patient ward "PAT-000002".
Proof.
  destruct (PatientApi.delete_patient_endpoint clinic_world default_settings ward
              (bearer "admin.jwt") None "PAT-000001") as [db'|e] eqn:Hdel;
    [|discriminate Hdel].
  destruct (delete_patient_endpoint_effect _ _ _ _ _ _ _ Hdel) as (_ & _ & Hgone & Hrest).
  exists db'. split; [reflexivity|]. split; [exact Hgone|].
  apply Hrest. discriminate.
Defined.

(** ** The gateway's shipped table *)

Lemma prefix_of_prefix (s a b : string) :
  String.prefix a s = true -> String.prefix b s = true ->
  (String.length a <= String.length b)%nat -> String.prefix a b = true.
Proof.
  revert a b. induction s as [|c s IH]; intros [|ca a] [|cb b]; simpl;
    try discriminate; try reflexivity; try lia.
  destruct (Ascii.ascii_dec ca c) as [->|]; [|discriminate].
  destruct (Ascii.ascii_dec cb c) as [->|]; [|discriminate].
  intros Ha Hb Hlen. destruct (Ascii.ascii_dec c c); [|congruence].
  apply IH; [assumption.. | lia].
Qed.

Lemma get_In (k v : string) (m : list (string * string)) :
  Gateway.get k m = Some v -> In (k, v) m.
Proof.
  unfold Gateway.get. destruct (List.find _ m) as [[k' v']|] eqn:Hfind; [|discriminate].
  simpl. intros [= <-]. apply find_some in Hfind as [Hin Heq].
  simpl in Heq. apply String.eqb_eq in Heq. congruence.
Qed.

Lemma find_target_service_some (path base_url forward_path : string) :
  Gateway.find_target_service path = Some (base_url, forward_path) ->
  forward_path = Gateway.normalize path
  /\ exists k, In (k, base_url) Gateway.SERVICE_MAPPINGS
               /\ PyStr.startswith (Gateway.normalize path) k = true.
Proof.
  unfold Gateway.find_target_service, Gateway.find_target_service_in.
  destruct (List.find _ _) as [k|] eqn:Hfind; [|discriminate].
  destruct (Gateway.get k Gateway.SERVICE_MAPPINGS) as [v|] eqn:Hget; [|discriminate].
  intros [= <- <-]. split; [reflexivity|].
  apply find_some in Hfind as [_ Hpre]. exists k. split; [apply get_In, Hget | exact Hpre].
Qed.

(** In the shipped routing table no two prefixes begin the same path:
    a path is routed to a backend if and only if its normalized form
    begins with that backend's prefix, and then to no other. *)
Theorem shipped_routes_are_disjoint (path : string) :
  (forall k1 k2,
     In k1 (map fst Gateway.SERVICE_MAPPINGS) -> In k2 (map fst Gateway.SERVICE_MAPPINGS) ->
     PyStr.startswith (Gateway.normalize path) k1 = true ->
     PyStr.startswith (Gateway.normalize path) k2 = true ->
     k1 = k2)
  /\ (forall base_url forward_path,
        Gateway.find_target_service path = Some (base_url, forward_path) <->
        forward_path = Gateway.normalize path
        /\ exists k, In (k, base_url) Gateway.SERVICE_MAPPINGS
                     /\ PyStr.startswith (Gateway.normalize path) k = true).
Proof.
  assert (Hdisjoint : forall k1 k2,
     In k1 (map fst Gateway.SERVICE_MAPPINGS) -> In k2 (map fst Gateway.SERVICE_MAPPINGS) ->
     PyStr.startswith (Gateway.normalize path) k1 = true ->
     PyStr.startswith (Gateway.normalize path) k2 = true ->
     k1 = k2).
  { assert (Hle : forall k1 k2,
       In k1 (map fst Gateway.SERVICE_MAPPINGS) ->
       In k2 (map fst Gateway.SERVICE_MAPPINGS) ->
       String.prefix k1 k2 = true -> k1 = k2).
    { intros k1 k2 H1 H2. simpl in H1, H2.
      repeat (destruct H1 as [<- | H1]); try contradiction;
        repeat (destruct H2 as [<- | H2]); try contradiction;
        (reflexivity || (vm_compute; discriminate)). }
    intros k1 k2 H1 H2 Hp1 Hp2. unfold PyStr.startswith in *.
    destruct (Nat.le_ge_cases (String.length k1) (String.length k2)) as [Hlen | Hlen].
    - apply Hle; auto. eapply prefix_of_prefix; eauto.
    - symmetry. apply Hle; auto. eapply prefix_of_prefix; eauto. }
  split; [exact Hdisjoint|].
  intros base_url forward_path. split; [apply find_target_service_some|].
  unfold Gateway.find_target_service, Gateway.find_target_service_in.
  - intros [-> (k & Hin & Hpre)].
    assert (Hkey : In k (map fst Gateway.SERVICE_MAPPINGS))
      by (apply in_map_iff; exists (k, base_url); auto).
    destruct (find_finds (fun service_path =>
                PyStr.startswith (Gateway.normalize path) service_path)
                (Gateway.sorted_by_len_desc (map fst Gateway.SERVICE_MAPPINGS)) k)
      as [k' Hfind]; [apply sorted_by_len_desc_In, Hkey | exact Hpre |].
    rewrite Hfind. apply find_some in Hfind as [Hin' Hpre'].
    apply (proj1 (sorted_by_len_desc_In _ _)) in Hin'.
    assert (k' = k) as -> by (apply Hdisjoint; auto).
    destruct (get_of_key k Gateway.SERVICE_MAPPINGS Hkey) as [v Hget]. rewrite Hget.
    apply get_In in Hget.
    assert (v = base_url) as ->; [|reflexivity].
    simpl in Hget, Hin.
    repeat (destruct Hget as [[= <- <-] | Hget]); try contradiction;
      repeat (destruct Hin as [[= <-] | Hin]); try contradiction;
      try reflexivity; discriminate.
Qed.

Lemma shipped_routes_are_disjoint_witness :
  Gateway.find_target_service "api/v1/medical-tests/7"
  = Some ("http://medical-test-service:5009", "/api/v1/medical-tests/7").
Proof.
  apply (proj2 (shipped_routes_are_disjoint "api/v1/medical-tests/7")).
  split; [reflexivity|].
  exists "/api/v1/medical-tests". split; [|reflexivity].
  simpl. auto 10.
Defined.
















(** ** The validators compared *)

Lemma decode_inv (w : world) (token key : string) (algs : list string)
    (o : Jose.options) (c : gmap string json) :
  Jose.decode w token key algs o = Jose.Decoded c <->
  exists alg signed_with,
    jws_of w token = Jws alg signed_with (Claims c)
    /\ Jose.verify_jws key algs (Jose.verify_signature o) alg signed_with = None
    /\ Jose.validate_claims w o c = None.
Proof.
  unfold Jose.decode. split.
  - destruct (jws_of w token) as [why | alg signed_with b]; [discriminate|].
    destruct (Jose.verify_jws _ _ _ _ _) eqn:Hsig; [discriminate|].
    destruct b as [why | | c']; try discriminate.
    destruct (Jose.validate_claims w o c') as [[msg|]|] eqn:Hval; try discriminate.
    intros [= <-]. eauto.
  - intros (alg & signed_with & -> & -> & ->). reflexivity.
Qed.

Lemma validate_iat_cases (w : world) (c : gmap string json) :
  Jose.validate_iat w c = None
  \/ Jose.validate_iat w c
     = Some (Jose.ClaimsError "Issued At claim (iat) must be an integer.")
  \/ (exists v, c !! "iat" = Some v /\ Py.int w v = IntOtherError).
Proof.
  unfold Jose.validate_iat. destruct (c !! "iat") as [v|]; [|auto].
  destruct (Py.int w v) eqn:Hint; eauto.
Qed.

(** What one validator accepts, the next accepts with the same claims:
    a non-empty token that medical-staff-service's validator accepts is
    accepted by patient-service's; a token that auth-service's validator
    accepts is accepted by patient-service's unless converting its [iat]
    fails with something other than a [ValueError], and by
    medical-staff-service's (hence diagnostic-report-service's) when its
    [iat] is absent or converts to an integer and it has no [aud]. *)
Theorem validators_accept_in_order
    (w : world) (cfg : settings) (token : string) (c : gmap string json) :
  (MedicalStaffService.decode_access_token w cfg token = Some c ->
   PyStr.falsy token = false ->
   PatientService.decode_access_token w cfg token = Some c)
  /\ (AuthService.decode_access_token w cfg token = Some c ->
      (forall v, c !! "iat" = Some v -> Py.int w v <> IntOtherError) ->
      PatientService.decode_access_token w cfg token = Some c)
  /\ (AuthService.decode_access_token w cfg token = Some c ->
      (forall v, c !! "iat" = Some v -> exists n, Py.int w v = IntOk n) ->
      c !! "aud" = None ->
      MedicalStaffService.decode_access_token w cfg token = Some c
      /\ DiagnosticReportService.decode_access_token w cfg token = Some c).
Proof.
  split; [|split].
  - intros Hstaff Hne. apply staff_decode_access_token_some in Hstaff.
    apply decode_inv in Hstaff as (alg & signed_with & Htok & Hsig & Hval).
    apply patient_decode_access_token_first; [exact Hne|].
    apply decode_inv. exists alg, signed_with.
    split; [exact Htok|]. split; [exact Hsig|].
    revert Hval. unfold Jose.validate_claims. simpl.
    destruct (Jose.validate_iat w c); [discriminate|].
    destruct (Jose.validate_nbf w c); [discriminate|].
    destruct (Jose.validate_exp w c); [discriminate|].
    destruct (Jose.validate_aud c); [discriminate|]. auto.
  - intros Hauth Hiat.
    apply auth_decode_access_token_some in Hauth as (Hne & Hdec & _).
    apply decode_inv in Hdec as (alg & signed_with & Htok & Hsig & Hval).
    unfold Jose.validate_claims in Hval. simpl in Hval.
    destruct (validate_iat_cases w c) as [Hok | [Hbad | (v & Hv & Hint)]].
    + apply patient_decode_access_token_first; [exact Hne|].
      apply decode_inv. exists alg, signed_with.
      split; [exact Htok|]. split; [exact Hsig|].
      unfold Jose.validate_claims. simpl. rewrite Hok. exact Hval.
    + unfold PatientService.decode_access_token, Jose.decode.
      rewrite Hne, Htok.
      change (Jose.verify_signature PatientService.first_options) with true.
      change (Jose.verify_signature PatientService.retry_options) with true.
      change (Jose.verify_signature AuthService.first_options) with true in Hsig.
      rewrite Hsig. unfold Jose.validate_claims. simpl. rewrite Hbad.
      change (PyStr.contains "iss"
                (Py.lower w "Issued At claim (iat) must be an integer.")) with true.
      cbn [orb].
      revert Hval.
      destruct (Jose.validate_nbf w c); [discriminate|].
      destruct (Jose.validate_exp w c); [discriminate|].
      intros ->. reflexivity.
    + exfalso. exact (Hiat v Hv Hint).
  - intros Hauth Hiat Haud.
    apply auth_decode_access_token_some in Hauth as (Hne & Hdec & _).
    apply decode_inv in Hdec as (alg & signed_with & Htok & Hsig & Hval).
    assert (Hstaff : MedicalStaffService.decode_access_token w cfg token = Some c);
      [|split; [exact Hstaff | rewrite report_decode_access_token_eq; exact Hstaff]].
    apply staff_decode_access_token_some, decode_inv. exists alg, signed_with.
    split; [exact Htok|]. split; [exact Hsig|].
    revert Hval. unfold Jose.validate_claims. simpl.
    assert (Jose.validate_iat w c = None) as ->.
    { unfold Jose.validate_iat. destruct (c !! "iat") as [v|] eqn:Hv; [|reflexivity].
      destruct (Hiat v eq_refl) as [n ->]. reflexivity. }
    destruct (Jose.validate_nbf w c); [discriminate|].
    destruct (Jose.validate_exp w c); [discriminate|].
    unfold Jose.validate_aud. rewrite Haud. auto.
Qed.

Lemma validators_accept_in_order_witness :
  PatientService.decode_access_token clinic_world default_settings "doc.jwt"
  = AuthService.decode_access_token clinic_world default_settings "doc.jwt".
Proof.
  destruct (AuthService.decode_access_token clinic_world default_settings "doc.jwt")
    as [c|] eqn:Hauth; [|discriminate Hauth].
  destruct (validators_accept_in_order clinic_world default_settings "doc.jwt" c)
    as (_ & Hpatient & _).
  apply Hpatient; [exact Hauth|].
  injection Hauth as <-. intros v Hv. vm_compute in Hv. injection Hv as <-.
  discriminate.
Defined.
